(** * A shallow embedding of [backend/server.js]

    The Express handlers of the blogging server are embedded as pure
    functions from a request and the state of the document store to a
    response and the next state of the store.  Strings are sequences of
    Latin-1 code units ([String.string]); integers stored in documents
    are [Z]; object ids are [N]; a time stamp is a number of
    milliseconds in [Z].  What the server draws from its environment
    (fresh object ids, [nanoid()], the clock, [bcrypt], [jwt]) is an
    explicit argument of the handler that uses it. *)

From Stdlib Require Import List String Ascii ZArith NArith Bool Lia Arith.
From Stdlib Require Import Permutation Sorted.
Import ListNotations.
Open Scope string_scope.

Set Implicit Arguments.

(** ** JavaScript strings and values *)

Module Js.

(** [s.length] *)
Definition length (s : string) : Z := Z.of_nat (String.length s).

(** [!s.length] *)
Definition is_empty (s : string) : bool := (length s =? 0)%Z.

(** Truthiness of a string value. *)
Definition truthy_str (s : string) : bool := negb (is_empty s).

(** Truthiness of a field that the request body may lack:
    [undefined] and the empty string are falsy. *)
Definition truthy_opt_str (o : option string) : bool :=
  match o with
  | None => false
  | Some s => truthy_str s
  end.

(** Truthiness of a boolean field that the request body may lack. *)
Definition truthy_opt_bool (o : option bool) : bool :=
  match o with
  | None => false
  | Some b => b
  end.

(** [s.split(sep)] for a separator of one character: the pieces
    between the occurrences of [sep]; never the empty list. *)
Fixpoint split (sep : ascii) (s : string) : list string :=
  match s with
  | EmptyString => [EmptyString]
  | String c rest =>
      if Ascii.eqb c sep then EmptyString :: split sep rest
      else match split sep rest with
           | [] => [String c EmptyString]
           | piece :: pieces => String c piece :: pieces
           end
  end.

(** [a[i]] on an array of strings: [undefined] out of range. *)
Definition index (a : list string) (i : nat) : option string := nth_error a i.

(** [s.substring(0, n)] *)
Fixpoint substring0 (n : nat) (s : string) : string :=
  match n, s with
  | O, _ => EmptyString
  | S _, EmptyString => EmptyString
  | S m, String c rest => String c (substring0 m rest)
  end.

Definition code (c : ascii) : N := N_of_ascii c.

Definition between (lo hi : N) (c : ascii) : bool :=
  (lo <=? code c)%N && (code c <=? hi)%N.

Definition is_upper (c : ascii) : bool := between 65 90 c.
Definition is_lower (c : ascii) : bool := between 97 122 c.
Definition is_digit (c : ascii) : bool := between 48 57 c.

(** [\w] *)
Definition is_word (c : ascii) : bool :=
  is_upper c || is_lower c || is_digit c || Ascii.eqb c "_".

(** [\s] on Latin-1: tab, line feed, vertical tab, form feed,
    carriage return, space, no-break space. *)
Definition is_space (c : ascii) : bool :=
  between 9 13 c || (code c =? 32)%N || (code c =? 160)%N.

(** The characters [.] does not match: the line terminators. *)
Definition is_line_terminator (c : ascii) : bool :=
  (code c =? 10)%N || (code c =? 13)%N.

(** [c.toLowerCase()] on Latin-1: A-Z and the accented capitals
    U+00C0..U+00DE (the multiplication sign U+00D7 apart) move up by
    32; every other code unit stays. *)
Definition lower_char (c : ascii) : ascii :=
  if is_upper c || (between 192 222 c && negb (code c =? 215)%N)
  then ascii_of_N (code c + 32)
  else c.

(** [s.toLowerCase()] *)
Fixpoint toLowerCase (s : string) : string :=
  match s with
  | EmptyString => EmptyString
  | String c rest => String (lower_char c) (toLowerCase rest)
  end.

Fixpoint map_chars (f : ascii -> ascii) (s : string) : string :=
  match s with
  | EmptyString => EmptyString
  | String c rest => String (f c) (map_chars f rest)
  end.

(** [s.replace(/\s+/g, "-")]: every maximal run of white space
    becomes one dash. *)
Fixpoint replace_space_runs (in_run : bool) (s : string) : string :=
  match s with
  | EmptyString => EmptyString
  | String c rest =>
      if is_space c
      then if in_run then replace_space_runs true rest
           else String "-" (replace_space_runs true rest)
      else String c (replace_space_runs false rest)
  end.

Fixpoint trim_start (s : string) : string :=
  match s with
  | String c rest => if is_space c then trim_start rest else s
  | EmptyString => EmptyString
  end.

Fixpoint rev_string (acc s : string) : string :=
  match s with
  | EmptyString => acc
  | String c rest => rev_string (String c acc) rest
  end.

(** [s.trim()] *)
Definition trim (s : string) : string :=
  rev_string EmptyString
    (trim_start (rev_string EmptyString (trim_start s))).

End Js.

(** ** Regular expressions

    The two patterns of the server are anchored at both ends, so
    [re.test(s)] asks whether the whole of [s] is in the language of the
    pattern.  The matcher takes derivatives; intersection is a
    constructor, which is what a look-ahead at the start of an anchored
    pattern amounts to. *)

Module Regex.

Inductive regex : Type :=
| Void
| Eps
| Class (p : ascii -> bool)
| Seq (r1 r2 : regex)
| Alt (r1 r2 : regex)
| And (r1 r2 : regex)
| Star (r : regex).

Fixpoint nullable (r : regex) : bool :=
  match r with
  | Void => false
  | Eps => true
  | Class _ => false
  | Seq r1 r2 => nullable r1 && nullable r2
  | Alt r1 r2 => nullable r1 || nullable r2
  | And r1 r2 => nullable r1 && nullable r2
  | Star _ => true
  end.

(** Constructors that drop [Void] and [Eps] where they change nothing,
    so that derivatives stay small. *)
Definition seq (r1 r2 : regex) : regex :=
  match r1, r2 with
  | Void, _ => Void
  | _, Void => Void
  | Eps, _ => r2
  | _, Eps => r1
  | _, _ => Seq r1 r2
  end.

Definition alt (r1 r2 : regex) : regex :=
  match r1, r2 with
  | Void, _ => r2
  | _, Void => r1
  | _, _ => Alt r1 r2
  end.

Definition and (r1 r2 : regex) : regex :=
  match r1, r2 with
  | Void, _ => Void
  | _, Void => Void
  | _, _ => And r1 r2
  end.

Fixpoint deriv (c : ascii) (r : regex) : regex :=
  match r with
  | Void => Void
  | Eps => Void
  | Class p => if p c then Eps else Void
  | Seq r1 r2 =>
      if nullable r1
      then alt (seq (deriv c r1) r2) (deriv c r2)
      else seq (deriv c r1) r2
  | Alt r1 r2 => alt (deriv c r1) (deriv c r2)
  | And r1 r2 => and (deriv c r1) (deriv c r2)
  | Star r1 => seq (deriv c r1) (Star r1)
  end.

(** [/^r$/.test(s)] *)
Fixpoint test (r : regex) (s : string) : bool :=
  match s with
  | EmptyString => nullable r
  | String c rest => test (deriv c r) rest
  end.

Definition chr (c : ascii) : regex := Class (Ascii.eqb c).
Definition any : regex := Class (fun _ => true).
(** [.] *)
Definition dot : regex := Class (fun c => negb (Js.is_line_terminator c)).
(** [\w] and [\d] *)
Definition word : regex := Class Js.is_word.
Definition digit : regex := Class Js.is_digit.
(** [r+] and [r?] *)
Definition plus (r : regex) : regex := Seq r (Star r).
Definition opt (r : regex) : regex := Alt Eps r.

(** [r{n}] and [r{n,n+k}] *)
Fixpoint exactly (n : nat) (r : regex) : regex :=
  match n with
  | O => Eps
  | S m => Seq r (exactly m r)
  end.

Fixpoint at_most (k : nat) (r : regex) : regex :=
  match k with
  | O => Eps
  | S m => opt (Seq r (at_most m r))
  end.

Definition repeat (n k : nat) (r : regex) : regex :=
  Seq (exactly n r) (at_most k r).

(** [(?=la)r] where [r] runs to the end of the input: some prefix of
    the input is in [la] and the input is in [r]. *)
Definition lookahead (la r : regex) : regex :=
  And (Seq la (Star any)) r.

End Regex.

Import Regex.

(** [/^\w+([\.-]?\w+)*@\w+([\.-]?\w+)*(\.\w{2,3})+$/] *)
Definition emailRegex : regex :=
  let dot_or_dash := Class (fun c => Ascii.eqb c "." || Ascii.eqb c "-") in
  let words := Seq (plus word) (Star (Seq (opt dot_or_dash) (plus word))) in
  Seq words
    (Seq (chr "@")
       (Seq words (plus (Seq (chr ".") (repeat 2 1 word))))).

(** [/^(?=.*\d)(?=.*[a-z])(?=.*[A-Z]).{6,20}$/] *)
Definition passwordRegex : regex :=
  lookahead (Seq (Star dot) digit)
    (lookahead (Seq (Star dot) (Class Js.is_lower))
       (lookahead (Seq (Star dot) (Class Js.is_upper))
          (repeat 6 14 dot))).

(** ** Documents *)

Definition ObjectId := N.
Definition Timestamp := Z.
Bind Scope N_scope with ObjectId.
Bind Scope Z_scope with Timestamp.

(** Modelled from the spec: [Schema/User.js] is not part of the sources;
    the fields are those the handlers read and write and those of the
    data model of the specification (unique email, unique derived
    username, optional hashed password, optional federated-auth flag,
    profile fields, aggregate counters, list of authored posts). *)
Record PersonalInfo := {
  fullname : string;
  email : string;
  password : option string;
  username : string;
  profile_img : string
}.

Record AccountInfo := {
  total_posts : Z;
  account_total_reads : Z
}.

Record User := {
  user_id : ObjectId;
  personal_info : PersonalInfo;
  account_info : AccountInfo;
  google_auth : bool;
  blogs : list ObjectId
}.

(** Modelled from the spec: [Schema/Blog.js] is not part of the sources;
    the counters are the four the handlers update
    ([activity.total_likes], [activity.total_comments],
    [activity.total_reads], [activity.total_parent_comments]).  The
    blocks of the editor are kept abstract as strings. *)
Record Activity := {
  total_likes : Z;
  total_comments : Z;
  total_reads : Z;
  total_parent_comments : Z
}.

Record Content := { blocks : list string }.

Record Blog := {
  blog__id : ObjectId;
  blog_id : string;
  title : string;
  banner : string;
  des : string;
  content : Content;
  tags : list string;
  author : ObjectId;
  activity : Activity;
  comments : list ObjectId;
  draft : bool;
  publishedAt : Timestamp
}.

(** Modelled from the spec: [Schema/Comment.js] is not part of the
    sources; the fields are those [/add-comment] writes and returns. *)
Record Comment := {
  comment_id : ObjectId;
  comment_blog_id : ObjectId;
  comment_blog_author : ObjectId;
  comment_text : string;
  children : list ObjectId;
  commented_by : ObjectId;
  commentedAt : Timestamp
}.

Inductive NotificationType := like | comment | reply.

(** Modelled from the spec: [Schema/Notification.js] is not part of the
    sources; a notification ties an action to a post, a recipient and an
    acting user. *)
Record Notification := {
  notification_id : ObjectId;
  type : NotificationType;
  blog : ObjectId;
  notification_for : ObjectId;
  user : ObjectId;
  notification_comment : option ObjectId
}.

(** The four collections, each in insertion order. *)
Record Store := {
  users : list User;
  posts : list Blog;
  comment_docs : list Comment;
  notifications : list Notification
}.

Definition with_users (us : list User) (s : Store) : Store :=
  {| users := us; posts := posts s;
     comment_docs := comment_docs s; notifications := notifications s |}.

Definition with_posts (bs : list Blog) (s : Store) : Store :=
  {| users := users s; posts := bs;
     comment_docs := comment_docs s; notifications := notifications s |}.

Definition with_comment_docs (cs : list Comment) (s : Store) : Store :=
  {| users := users s; posts := posts s;
     comment_docs := cs; notifications := notifications s |}.

Definition with_notifications (ns : list Notification) (s : Store) : Store :=
  {| users := users s; posts := posts s;
     comment_docs := comment_docs s; notifications := ns |}.

(** *** Updates of single documents *)

Definition set_activity (a : Activity) (b : Blog) : Blog :=
  {| blog__id := blog__id b; blog_id := blog_id b; title := title b;
     banner := banner b; des := des b; content := content b;
     tags := tags b; author := author b; activity := a;
     comments := comments b; draft := draft b;
     publishedAt := publishedAt b |}.

(** [$inc: {"activity.total_reads": n}] *)
Definition inc_total_reads (n : Z) (b : Blog) : Blog :=
  let a := activity b in
  set_activity
    {| total_likes := total_likes a; total_comments := total_comments a;
       total_reads := (total_reads a + n)%Z;
       total_parent_comments := total_parent_comments a |} b.

(** [$inc: {"activity.total_likes": n}] *)
Definition inc_total_likes (n : Z) (b : Blog) : Blog :=
  let a := activity b in
  set_activity
    {| total_likes := (total_likes a + n)%Z;
       total_comments := total_comments a;
       total_reads := total_reads a;
       total_parent_comments := total_parent_comments a |} b.

(** [$inc: {"activity.total_comments": n}] *)
Definition inc_total_comments (n : Z) (b : Blog) : Blog :=
  let a := activity b in
  set_activity
    {| total_likes := total_likes a;
       total_comments := (total_comments a + n)%Z;
       total_reads := total_reads a;
       total_parent_comments := total_parent_comments a |} b.

(** [$set: {"activity.total_parent_comments": n}] *)
Definition set_total_parent_comments (n : Z) (b : Blog) : Blog :=
  let a := activity b in
  set_activity
    {| total_likes := total_likes a; total_comments := total_comments a;
       total_reads := total_reads a; total_parent_comments := n |} b.

(** [$push: {"comments": c}] *)
Definition push_comment (c : ObjectId) (b : Blog) : Blog :=
  {| blog__id := blog__id b; blog_id := blog_id b; title := title b;
     banner := banner b; des := des b; content := content b;
     tags := tags b; author := author b; activity := activity b;
     comments := comments b ++ [c]; draft := draft b;
     publishedAt := publishedAt b |}.

(** The update document [{title, des, banner, content, tags, draft}]. *)
Definition set_post_fields (t d bn : string) (c : Content)
    (tg : list string) (dr : bool) (b : Blog) : Blog :=
  {| blog__id := blog__id b; blog_id := blog_id b; title := t;
     banner := bn; des := d; content := c; tags := tg;
     author := author b; activity := activity b;
     comments := comments b; draft := dr;
     publishedAt := publishedAt b |}.

(** [$inc: {"account_info.total_reads": n}] *)
Definition inc_account_total_reads (n : Z) (u : User) : User :=
  {| user_id := user_id u; personal_info := personal_info u;
     account_info :=
       {| total_posts := total_posts (account_info u);
          account_total_reads :=
            (account_total_reads (account_info u) + n)%Z |};
     google_auth := google_auth u; blogs := blogs u |}.

(** [$inc: {"account_info.total_posts": n}, $push: {"blogs": b}] *)
Definition inc_total_posts_push_blog (n : Z) (b : ObjectId) (u : User) : User :=
  {| user_id := user_id u; personal_info := personal_info u;
     account_info :=
       {| total_posts := (total_posts (account_info u) + n)%Z;
          account_total_reads := account_total_reads (account_info u) |};
     google_auth := google_auth u; blogs := blogs u ++ [b] |}.

(** ** The document store *)

Module Db.

Section Collection.
Variable Doc : Type.

(** [Model.findOne(filter)]: the first document that matches. *)
Definition findOne (p : Doc -> bool) (docs : list Doc) : option Doc :=
  List.find p docs.

(** [Model.exists(filter)] *)
Definition exists_ (p : Doc -> bool) (docs : list Doc) : bool :=
  match findOne p docs with
  | Some _ => true
  | None => false
  end.

Fixpoint update_first (p : Doc -> bool) (f : Doc -> Doc)
    (docs : list Doc) : list Doc :=
  match docs with
  | [] => []
  | d :: rest =>
      if p d then f d :: rest else d :: update_first p f rest
  end.

(** [Model.findOneAndUpdate(filter, update)]: the first match is
    updated in place; the document handed to the callback is the one
    from before the update ([null] when nothing matches). *)
Definition findOneAndUpdate (p : Doc -> bool) (f : Doc -> Doc)
    (docs : list Doc) : option Doc * list Doc :=
  (findOne p docs, update_first p f docs).

Fixpoint delete_first (p : Doc -> bool) (docs : list Doc) : list Doc :=
  match docs with
  | [] => []
  | d :: rest => if p d then rest else d :: delete_first p rest
  end.

(** [Model.findOneAndDelete(filter)] *)
Definition findOneAndDelete (p : Doc -> bool) (docs : list Doc)
    : option Doc * list Doc :=
  (findOne p docs, delete_first p docs).

(** [Model.countDocuments(filter)] *)
Definition countDocuments (p : Doc -> bool) (docs : list Doc) : Z :=
  Z.of_nat (List.length (List.filter p docs)).

(** [doc.save()] of a new document. *)
Definition save (d : Doc) (docs : list Doc) : list Doc := docs ++ [d].

(** [.skip(n)]; the server rejects a negative [n]. *)
Definition skip (n : Z) (docs : list Doc) : option (list Doc) :=
  if (n <? 0)%Z then None else Some (List.skipn (Z.to_nat n) docs).

(** [.limit(n)] for a natural number [n]. *)
Definition limit (n : nat) (docs : list Doc) : list Doc :=
  List.firstn n docs.

(** Sorting: a stable insertion sort, [before a b] saying that [a]
    may stand before [b]; documents that compare equal keep the order
    of the collection (the store promises no order among them). *)
Fixpoint insert_sorted (before : Doc -> Doc -> bool) (d : Doc)
    (sorted : list Doc) : list Doc :=
  match sorted with
  | [] => [d]
  | x :: rest =>
      if before d x then d :: sorted
      else x :: insert_sorted before d rest
  end.

Definition sort_by (before : Doc -> Doc -> bool) (docs : list Doc)
    : list Doc :=
  List.fold_right (insert_sorted before) [] docs.

End Collection.

(** The values a path of a document can hold, as far as the server
    sorts on them. *)
Inductive Value :=
| VNull
| VNumber (n : Z)
| VString (s : string)
| VObjectId (i : ObjectId)
| VBoolean (b : bool)
| VDate (t : Timestamp).

(** The store compares values of different types by the rank of the
    type: null, numbers, strings, object ids, booleans, dates. *)
Definition rank (v : Value) : Z :=
  match v with
  | VNull => 0
  | VNumber _ => 1
  | VString _ => 2
  | VObjectId _ => 3
  | VBoolean _ => 4
  | VDate _ => 5
  end%Z.

Definition compare_value (v w : Value) : comparison :=
  match v, w with
  | VNull, VNull => Eq
  | VNumber a, VNumber b => Z.compare a b
  | VString a, VString b => String.compare a b
  | VObjectId a, VObjectId b => N.compare a b
  | VBoolean a, VBoolean b => Bool.compare a b
  | VDate a, VDate b => Z.compare a b
  | _, _ => Z.compare (rank v) (rank w)
  end.

(** [doc[path]] for the scalar paths of a post; a path the document
    does not have reads as null. *)
Definition blog_path (path : string) (b : Blog) : Value :=
  if path =? "_id" then VObjectId (blog__id b)
  else if path =? "blog_id" then VString (blog_id b)
  else if path =? "title" then VString (title b)
  else if path =? "banner" then VString (banner b)
  else if path =? "des" then VString (des b)
  else if path =? "author" then VObjectId (author b)
  else if path =? "activity.total_likes"
  then VNumber (total_likes (activity b))
  else if path =? "activity.total_comments"
  then VNumber (total_comments (activity b))
  else if path =? "activity.total_reads"
  then VNumber (total_reads (activity b))
  else if path =? "activity.total_parent_comments"
  then VNumber (total_parent_comments (activity b))
  else if path =? "draft" then VBoolean (draft b)
  else if path =? "publishedAt" then VDate (publishedAt b)
  else VNull.

(** A sort specification [{path: 1 | -1, ...}], first key first. *)
Inductive Direction := Ascending | Descending.

Fixpoint compare_by (keys : list (string * Direction)) (a b : Blog)
    : comparison :=
  match keys with
  | [] => Eq
  | (path, dir) :: more =>
      match compare_value (blog_path path a) (blog_path path b), dir with
      | Eq, _ => compare_by more a b
      | c, Ascending => c
      | c, Descending => CompOpp c
      end
  end.

Definition before (keys : list (string * Direction)) (a b : Blog) : bool :=
  match compare_by keys a b with
  | Gt => false
  | _ => true
  end.

(** [.sort({...})] on posts. *)
Definition sort (keys : list (string * Direction)) (docs : list Blog)
    : list Blog :=
  sort_by (before keys) docs.

(** A filter document on posts, one condition per key. *)
Inductive BlogCond :=
| TagsHas (tag : string)                (* tags: tag *)
| DraftIs (d : bool)                    (* draft: d *)
| BlogIdNe (e : option string)          (* blog_id: {$ne: e} *)
| TitleMatches (re : string -> bool)    (* title: re *)
| AuthorIs (a : ObjectId)               (* author: a *)
| BlogIdIs (i : string)                 (* blog_id: i *)
| IdIs (i : ObjectId).                  (* _id: i *)

Definition holds (c : BlogCond) (b : Blog) : bool :=
  match c with
  | TagsHas tag => existsb (String.eqb tag) (tags b)
  | DraftIs d => Bool.eqb (draft b) d
  | BlogIdNe None => true
  | BlogIdNe (Some e) => negb (blog_id b =? e)
  | TitleMatches re => re (title b)
  | AuthorIs a => (author b =? a)%N
  | BlogIdIs i => blog_id b =? i
  | IdIs i => (blog__id b =? i)%N
  end.

Definition matches (q : list BlogCond) (b : Blog) : bool :=
  forallb (fun c => holds c b) q.

(** [Blog.find(findQuery)]: an undefined filter selects every post. *)
Definition find (findQuery : option (list BlogCond)) (docs : list Blog)
    : list Blog :=
  match findQuery with
  | None => docs
  | Some q => List.filter (matches q) docs
  end.

(** [Blog.countDocuments(findQuery)] *)
Definition count (findQuery : option (list BlogCond)) (docs : list Blog) : Z :=
  Z.of_nat (List.length (find findQuery docs)).

(** *** Projections

    A document a query returns holds the paths its [select] names (and
    [_id], unless the selection has [-_id]); a path that was not
    selected is [undefined] on the document. *)

Definition paths (selection : string) : list string :=
  Js.split " " selection.

Definition selects (selection path : string) : bool :=
  existsb (String.eqb path) (paths selection).

Definition pick (A : Type) (selection path : string) (v : A) : option A :=
  if selects selection path then Some v else None.

Definition pick_id (A : Type) (selection : string) (v : A) : option A :=
  if selects selection "-_id" then None else Some v.

Record UserDoc := {
  doc_user_id : option ObjectId;
  doc_fullname : option string;
  doc_username : option string;
  doc_profile_img : option string
}.

Definition select_user (selection : string) (u : User) : UserDoc :=
  {| doc_user_id := pick_id selection (user_id u);
     doc_fullname :=
       pick selection "personal_info.fullname" (fullname (personal_info u));
     doc_username :=
       pick selection "personal_info.username" (username (personal_info u));
     doc_profile_img :=
       pick selection "personal_info.profile_img"
         (profile_img (personal_info u)) |}.

(** A post as a query returns it.  [doc_author] is the populated
    author: [None] when the reference resolves to no user. *)
Record BlogDoc := {
  doc__id : option ObjectId;
  doc_blog_id : option string;
  doc_title : option string;
  doc_banner : option string;
  doc_des : option string;
  doc_content : option Content;
  doc_tags : option (list string);
  doc_author : option UserDoc;
  doc_activity : option Activity;
  doc_comments : option (list ObjectId);
  doc_draft : option bool;
  doc_publishedAt : option Timestamp
}.

(** [.populate("author", selection)]: the user the reference names,
    projected. *)
Definition populate_author (selection : string) (us : list User) (b : Blog)
    : option UserDoc :=
  option_map (select_user selection)
    (findOne (fun u => (user_id u =? author b)%N) us).

(** [.populate("author", author_selection).select(selection)]: the
    populated path is part of the projection. *)
Definition select_blog (author_selection selection : string)
    (us : list User) (b : Blog) : BlogDoc :=
  {| doc__id := pick_id selection (blog__id b);
     doc_blog_id := pick selection "blog_id" (blog_id b);
     doc_title := pick selection "title" (title b);
     doc_banner := pick selection "banner" (banner b);
     doc_des := pick selection "des" (des b);
     doc_content := pick selection "content" (content b);
     doc_tags := pick selection "tags" (tags b);
     doc_author := populate_author author_selection us b;
     doc_activity := pick selection "activity" (activity b);
     doc_comments := pick selection "comments" (comments b);
     doc_draft := pick selection "draft" (draft b);
     doc_publishedAt := pick selection "publishedAt" (publishedAt b) |}.

End Db.

(** ** Requests, replies and the environment *)

(** What can be thrown or rejected while a handler runs. *)
Inductive Exception :=
| TypeError        (* a property read on [null] or [undefined] *)
| SyntaxError      (* [new RegExp] on an ill-formed pattern *)
| DuplicateKey     (* the store refuses a second value under a unique index *)
| StoreError.      (* any other rejection by the store *)

(** The JSON bodies the handlers send. *)
Inductive Body :=
| Error (message : string)
| ErrorMessage (e : Exception)          (* {error: err.message} *)
| ErrorPage (e : Exception)             (* Express's answer to a throw *)
| Session (access_token profile_img username fullname : string)
| Blogs (blogs : list Db.BlogDoc)
| TotalDocs (totalDocs : Z)
| OneBlog (blog : Db.BlogDoc)
| BlogId (id : string)
| LikedByUser (liked_by_user : bool)
| Result (result : option ObjectId)
| NewComment (comment : string) (commentedAt : Timestamp)
    (_id user_id : ObjectId) (children : list ObjectId).

(** What the client gets: a response, or none at all when a promise is
    rejected and nothing handles it. *)
Inductive Reply :=
| Sent (status : Z) (body : Body)
| Unhandled (e : Exception).

(** What one request draws from outside the store. *)
Record Env := {
  nanoid : string;            (* nanoid() *)
  objectId : ObjectId;        (* the _id of the first document created *)
  objectId' : ObjectId;       (* the _id of the second document created *)
  now : Timestamp;            (* the clock *)
  hashedPassword : string;    (* what bcrypt.hash hands to its callback *)
  avatar : string             (* the default profile image of a new user *)
}.

(** The bodies of the requests, with the fields the handlers take out of
    [req.body].  A field a handler tests before it uses it may be absent
    ([None]); the others are present, with the type the handler uses
    them at. *)
Record SignupBody := {
  signup_fullname : string;
  signup_email : string;
  signup_password : string
}.

Record SigninBody := {
  signin_email : string;
  signin_password : string
}.

Record SearchBody := {
  search_tag : option string;
  search_query : option string;
  search_author : option ObjectId;
  search_page : Z;
  search_limit : option nat;
  search_eliminate_blog : option string
}.

Record CreateBlogBody := {
  create_title : string;
  create_des : string;
  create_banner : string;
  create_tags : list string;
  create_content : Content;
  create_draft : option bool;
  create_id : option string
}.

Record GetBlogBody := {
  get_blog_id : string;
  get_draft : option bool;
  get_mode : option string
}.

Record LikeBlogBody := {
  like__id : ObjectId;
  islikedByUser : bool
}.

Record AddCommentBody := {
  add__id : ObjectId;
  add_comment : string;
  add_blog_author : ObjectId
}.

(** ** The handlers *)

Section Server.

(** [jwt.sign({id}, secret)] and [jwt.verify(token, secret)]; the
    latter yields the id of the payload, or nothing on an error. *)
Variable jwt_sign : ObjectId -> string.
Variable jwt_verify : string -> option ObjectId.

(** [bcrypt.compare(data, hash)]: an error ([None]) or the verdict. *)
Variable bcrypt_compare : string -> string -> option bool.

(** [new RegExp(pattern, 'i')]: the test of the compiled pattern, or
    nothing when the pattern is ill-formed. *)
Variable RegExp_i : string -> option (string -> bool).

(** The middleware [verifyJWT]. *)
Definition verifyJWT (authorization : option string)
    (next : ObjectId -> Store -> Reply * Store) (s : Store)
    : Reply * Store :=
  let token :=
    match authorization with
    | None => None
    | Some authHeader =>
        if Js.truthy_str authHeader
        then Js.index (Js.split " " authHeader) 1
        else Some authHeader
    end in
  match token with
  | None => (Sent 401 (Error "No access token"), s)
  | Some t =>
      match jwt_verify t with
      | None => (Sent 403 (Error "Access token is invalid"), s)
      | Some id => next id s
      end
  end.

Definition formatDatatoSend (u : User) : Body :=
  Session (jwt_sign (user_id u))
    (profile_img (personal_info u))
    (username (personal_info u))
    (fullname (personal_info u)).

Definition username_is (name : string) (u : User) : bool :=
  username (personal_info u) =? name.

Definition email_is (e : string) (u : User) : bool :=
  email (personal_info u) =? e.

Definition generateUsername (us : list User) (nid : string) (email : string)
    : string :=
  let username := hd EmptyString (Js.split "@" email) in
  let isUsernameNotUnique := Db.exists_ (username_is username) us in
  if isUsernameNotUnique
  then username ++ Js.substring0 5 nid
  else username.

(** Modelled from the spec: the unique indexes of [Schema/User.js]
    (the email and the username of a user are globally unique); the
    store rejects the save of a user whose email or username another
    user holds with the duplicate-key error, code 11000. *)
Definition save_user (u : User) (us : list User) : Exception + list User :=
  if Db.exists_ (email_is (email (personal_info u))) us
     || Db.exists_ (username_is (username (personal_info u))) us
  then inl DuplicateKey
  else inr (Db.save u us).

Definition signup (env : Env) (body : SignupBody) (s : Store)
    : Reply * Store :=
  let fullname := signup_fullname body in
  let email := signup_email body in
  let password := signup_password body in
  if (Js.length fullname <? 3)%Z
  then (Sent 403 (Error "Fullname must be at least 3 characters long"), s)
  else if Js.is_empty email
  then (Sent 403 (Error "Email must be entered"), s)
  else if negb (test emailRegex email)
  then (Sent 403 (Error "Invalid email"), s)
  else if negb (test passwordRegex password)
  then (Sent 403 (Error "Password must contain 6 to 20 characters long, contain at least 1 uppercase letter, 1 lowercase letter, and 1 number"), s)
  else
    let username := generateUsername (users s) (nanoid env) email in
    let user :=
      {| user_id := objectId env;
         personal_info :=
           {| fullname := fullname; email := email;
              password := Some (hashedPassword env);
              username := username; profile_img := avatar env |};
         account_info := {| total_posts := 0; account_total_reads := 0 |};
         google_auth := false;
         blogs := [] |} in
    match save_user user (users s) with
    | inr us => (Sent 200 (formatDatatoSend user), with_users us s)
    | inl DuplicateKey => (Sent 500 (Error "Email already exists"), s)
    | inl e => (Sent 500 (ErrorMessage e), s)
    end.

(** [bcrypt.compare] reports an error when there is no hash. *)
Definition compare_password (data : string) (hash : option string)
    : option bool :=
  match hash with
  | None => None
  | Some h => bcrypt_compare data h
  end.

Definition signin (body : SigninBody) (s : Store) : Reply * Store :=
  match Db.findOne (email_is (signin_email body)) (users s) with
  | None => (Sent 403 (Error "Email not found"), s)
  | Some user =>
      if negb (google_auth user)
      then
        match compare_password (signin_password body)
                (password (personal_info user)) with
        | None => (Sent 403 (Error "Error occured while login try again"), s)
        | Some false => (Sent 403 (Error "Incorrect Password"), s)
        | Some true => (Sent 200 (formatDatatoSend user), s)
        end
      else (Sent 403 (Error "Account was signed in with google. Try logging in using google account"), s)
  end.

Definition listing_author : string :=
  "personal_info.profile_img personal_info.username personal_info.fullname -_id".

Definition listing_fields : string :=
  "blog_id title des banner activity tags publishedAt -_id".

Definition latest_blogs (page : Z) (s : Store) : Reply * Store :=
  let maxLimit := 5%nat in
  let found := Db.sort [("publishedAt", Db.Descending)]
                 (Db.find (Some [Db.DraftIs false]) (posts s)) in
  match Db.skip ((page - 1) * Z.of_nat maxLimit) found with
  | Some rest =>
      (Sent 200
         (Blogs (map (Db.select_blog listing_author listing_fields (users s))
                   (Db.limit maxLimit rest))), s)
  | None => (Sent 500 (ErrorMessage StoreError), s)
  end.

Definition all_latest_blogs_count (s : Store) : Reply * Store :=
  (Sent 200 (TotalDocs (Db.count (Some [Db.DraftIs false]) (posts s))), s).

Definition trending_blogs (s : Store) : Reply * Store :=
  let found :=
    Db.sort [("activity.total_read", Db.Descending);
             ("activity.total_likes", Db.Descending);
             ("publishedAt", Db.Descending)]
      (Db.find (Some [Db.DraftIs false]) (posts s)) in
  (Sent 200
     (Blogs (map (Db.select_blog listing_author
                    "blog_id title publishedAt -_id" (users s))
               (Db.limit 5 found))), s).

(** The filter [/search-blogs] builds: [inl] when [new RegExp] throws,
    [inr None] when [findQuery] stays undefined. *)
Definition search_findQuery (body : SearchBody)
    : Exception + option (list Db.BlogCond) :=
  if Js.truthy_opt_str (search_tag body)
  then inr (Some [Db.TagsHas (match search_tag body with
                              | Some t => t | None => EmptyString end);
                  Db.DraftIs false;
                  Db.BlogIdNe (search_eliminate_blog body)])
  else if Js.truthy_opt_str (search_query body)
  then match RegExp_i (match search_query body with
                       | Some q => q | None => EmptyString end) with
       | Some re => inr (Some [Db.DraftIs false; Db.TitleMatches re])
       | None => inl SyntaxError
       end
  else match search_author body with
       | Some author => inr (Some [Db.AuthorIs author; Db.DraftIs false])
       | None => inr None
       end.

Definition search_blogs (body : SearchBody) (s : Store) : Reply * Store :=
  match search_findQuery body with
  | inl e => (Sent 500 (ErrorPage e), s)
  | inr findQuery =>
      let maxLimit :=
        match search_limit body with
        | Some (S n) => S n
        | _ => 2%nat
        end in
      let found := Db.sort [("publishedAt", Db.Descending)]
                     (Db.find findQuery (posts s)) in
      match Db.skip ((search_page body - 1) * Z.of_nat maxLimit) found with
      | Some rest =>
          (Sent 200
             (Blogs (map (Db.select_blog listing_author listing_fields
                            (users s))
                       (Db.limit maxLimit rest))), s)
      | None => (Sent 500 (ErrorMessage StoreError), s)
      end
  end.

(** [/search-blogs-count] builds the same filter without the
    [blog_id] condition. *)
Definition search_blogs_count (body : SearchBody) (s : Store)
    : Reply * Store :=
  let findQuery :=
    if Js.truthy_opt_str (search_tag body)
    then inr (Some [Db.TagsHas (match search_tag body with
                                | Some t => t | None => EmptyString end);
                    Db.DraftIs false])
    else if Js.truthy_opt_str (search_query body)
    then match RegExp_i (match search_query body with
                         | Some q => q | None => EmptyString end) with
         | Some re => inr (Some [Db.DraftIs false; Db.TitleMatches re])
         | None => inl SyntaxError
         end
    else match search_author body with
         | Some author => inr (Some [Db.AuthorIs author; Db.DraftIs false])
         | None => inr None
         end in
  match findQuery with
  | inl e => (Sent 500 (ErrorPage e), s)
  | inr q => (Sent 200 (TotalDocs (Db.count q (posts s))), s)
  end.

End Server.

(** *** [/create-blog] *)

(** The checks under [if(!draft)]: the message of the first that fails. *)
Definition publish_checks (body : CreateBlogBody) : option string :=
  if Js.is_empty (create_des body) || (200 <? Js.length (create_des body))%Z
  then Some "You must provide blog description under 200 characters"
  else if Js.is_empty (create_banner body)
  then Some "You must provide blog banner to publish it"
  else if (Z.of_nat (List.length (blocks (create_content body))) =? 0)%Z
  then Some "There must be some blog content to publish it"
  else if (Z.of_nat (List.length (create_tags body)) =? 0)%Z
          || (10 <? Z.of_nat (List.length (create_tags body)))%Z
  then Some "Provide tags in order to publish the blog, Maximum is 10"
  else None.

(** The validation that opens the handler. *)
Definition create_blog_checks (body : CreateBlogBody) : option string :=
  if Js.is_empty (create_title body)
  then Some "You must provide a title"
  else if negb (Js.truthy_opt_bool (create_draft body))
  then publish_checks body
  else None.

Definition is_alnum (c : ascii) : bool :=
  Js.is_lower c || Js.is_upper c || Js.is_digit c.

(** [title.replace(/[^a-zA-Z0-9]/g, ' ').replace(/\s+/g, "-").trim()] *)
Definition slug (title : string) : string :=
  Js.trim
    (Js.replace_space_runs false
       (Js.map_chars (fun c => if is_alnum c then c else " "%char) title)).

(** Modelled from the spec: the unique index of [Schema/Blog.js] on
    [blog_id] (a post has a unique human-readable identifier); the store
    rejects the save of a post whose [blog_id] another post holds. *)
Definition save_blog (b : Blog) (bs : list Blog) : Exception + list Blog :=
  if Db.exists_ (Db.holds (Db.BlogIdIs (blog_id b))) bs
  then inl DuplicateKey
  else inr (Db.save b bs).

Definition create_blog (authorId : ObjectId) (env : Env)
    (body : CreateBlogBody) (s : Store) : Reply * Store :=
  match create_blog_checks body with
  | Some message => (Sent 403 (Error message), s)
  | None =>
      let title := create_title body in
      let draft := create_draft body in
      let tags := map Js.toLowerCase (create_tags body) in
      let blog_id :=
        match create_id body with
        | Some id => if Js.truthy_str id then id else slug title ++ nanoid env
        | None => slug title ++ nanoid env
        end in
      if Js.truthy_opt_str (create_id body)
      then
        let '(_, bs) :=
          Db.findOneAndUpdate (Db.holds (Db.BlogIdIs blog_id))
            (set_post_fields title (create_des body) (create_banner body)
               (create_content body) tags (Js.truthy_opt_bool draft))
            (posts s) in
        (Sent 200 (BlogId blog_id), with_posts bs s)
      else
        let blog :=
          {| blog__id := objectId env; blog_id := blog_id; title := title;
             banner := create_banner body; des := create_des body;
             content := create_content body; tags := tags;
             author := authorId;
             activity := {| total_likes := 0; total_comments := 0;
                            total_reads := 0; total_parent_comments := 0 |};
             comments := []; draft := Js.truthy_opt_bool draft;
             publishedAt := now env |} in
        match save_blog blog (posts s) with
        | inl e => (Sent 500 (ErrorMessage e), s)
        | inr bs =>
            let incrementVal :=
              if Js.truthy_opt_bool draft then 0%Z else 1%Z in
            let '(_, us) :=
              Db.findOneAndUpdate (fun u => (user_id u =? authorId)%N)
                (inc_total_posts_push_blog incrementVal (blog__id blog))
                (users s) in
            (Sent 200 (BlogId blog_id), with_users us (with_posts bs s))
        end
  end.

(** *** [/get-blog] *)

Definition get_blog (body : GetBlogBody) (s : Store) : Reply * Store :=
  let draft := get_draft body in
  let incrementVal :=
    match get_mode body with
    | Some mode => if mode =? "edit" then 0%Z else 1%Z
    | None => 1%Z
    end in
  let '(found, bs) :=
    Db.findOneAndUpdate (Db.holds (Db.BlogIdIs (get_blog_id body)))
      (inc_total_reads incrementVal) (posts s) in
  let s1 := with_posts bs s in
  match found with
  | None => (Sent 500 (ErrorMessage TypeError), s1)
  | Some b =>
      let blog :=
        Db.select_blog
          "personal_info.fullname personal_info.username personal_info.profile_img"
          "title des content banner activity publishedAt blog_id tags"
          (users s) b in
      match Db.doc_author blog with
      | None => (Sent 500 (ErrorMessage TypeError), s1)
      | Some author =>
          let us :=
            match Db.doc_username author with
            | Some name =>
                snd (Db.findOneAndUpdate (username_is name)
                       (inc_account_total_reads incrementVal) (users s))
            | None => users s
            end in
          let s2 := with_users us s1 in
          if Js.truthy_opt_bool (Db.doc_draft blog)
             && negb (Js.truthy_opt_bool draft)
          then (Sent 500 (Error "you cannot access draft blogs"), s2)
          else (Sent 200 (OneBlog blog), s2)
      end
  end.

(** *** [/like-blog] and [/isliked-by-user] *)

Definition is_like_of (user_id _id : ObjectId) (n : Notification) : bool :=
  (user n =? user_id)%N && (blog n =? _id)%N
  && match type n with like => true | _ => false end.

Definition like_blog (user_id : ObjectId) (env : Env) (body : LikeBlogBody)
    (s : Store) : Reply * Store :=
  let _id := like__id body in
  let incrementVal := if negb (islikedByUser body) then 1%Z else (-1)%Z in
  let '(found, bs) :=
    Db.findOneAndUpdate (Db.holds (Db.IdIs _id))
      (inc_total_likes incrementVal) (posts s) in
  let s1 := with_posts bs s in
  if negb (islikedByUser body)
  then
    match found with
    | None => (Unhandled TypeError, s1)
    | Some blog =>
        let like :=
          {| notification_id := objectId env; type := like; blog := _id;
             notification_for := author blog; user := user_id;
             notification_comment := None |} in
        (Sent 200 (LikedByUser true),
         with_notifications (Db.save like (notifications s1)) s1)
    end
  else
    let '(_, ns) :=
      Db.findOneAndDelete (is_like_of user_id _id) (notifications s1) in
    (Sent 200 (LikedByUser false), with_notifications ns s1).

Definition isliked_by_user (user_id _id : ObjectId) (s : Store)
    : Reply * Store :=
  (Sent 200
     (Result (option_map notification_id
                (Db.findOne (is_like_of user_id _id) (notifications s)))),
   s).

(** *** [/add-comment] *)

Definition add_comment_handler (user_id : ObjectId) (env : Env)
    (body : AddCommentBody) (s : Store) : Reply * Store :=
  let _id := add__id body in
  let blog_author := add_blog_author body in
  if Js.is_empty (add_comment body)
  then (Sent 403 (Error "Write something to leave a comment"), s)
  else
    let commentFile :=
      {| comment_id := objectId env; comment_blog_id := _id;
         comment_blog_author := blog_author;
         comment_text := add_comment body; children := [];
         commented_by := user_id; commentedAt := now env |} in
    let s1 := with_comment_docs (Db.save commentFile (comment_docs s)) s in
    let '(_, bs) :=
      Db.findOneAndUpdate (Db.holds (Db.IdIs _id))
        (fun b => set_total_parent_comments 1
                    (inc_total_comments 1
                       (push_comment (comment_id commentFile) b)))
        (posts s1) in
    let s2 := with_posts bs s1 in
    let notificationObj :=
      {| notification_id := objectId' env; type := comment; blog := _id;
         notification_for := blog_author; user := user_id;
         notification_comment := Some (comment_id commentFile) |} in
    let s3 := with_notifications (Db.save notificationObj (notifications s2)) s2 in
    (Sent 200
       (NewComment (comment_text commentFile) (commentedAt commentFile)
          (comment_id commentFile) user_id (children commentFile)),
     s3).

(** *** The routes behind [verifyJWT] *)

Section Routes.

Variable jwt_verify : string -> option ObjectId.

Definition route_create_blog (authorization : option string) (env : Env)
    (body : CreateBlogBody) : Store -> Reply * Store :=
  verifyJWT jwt_verify authorization (fun id => create_blog id env body).

Definition route_like_blog (authorization : option string) (env : Env)
    (body : LikeBlogBody) : Store -> Reply * Store :=
  verifyJWT jwt_verify authorization (fun id => like_blog id env body).

Definition route_isliked_by_user (authorization : option string)
    (_id : ObjectId) : Store -> Reply * Store :=
  verifyJWT jwt_verify authorization (fun id => isliked_by_user id _id).

Definition route_add_comment (authorization : option string) (env : Env)
    (body : AddCommentBody) : Store -> Reply * Store :=
  verifyJWT jwt_verify authorization
    (fun id => add_comment_handler id env body).

End Routes.

(** ** Observations on the store *)

(** The read counter of the post [/get-blog] finds under [blog_id]. *)
Definition post_reads (id : string) (s : Store) : option Z :=
  option_map (fun b => total_reads (activity b))
    (Db.findOne (Db.holds (Db.BlogIdIs id)) (posts s)).

(** The read counter of the user with the given [_id]. *)
Definition user_reads (id : ObjectId) (s : Store) : option Z :=
  option_map (fun u => account_total_reads (account_info u))
    (Db.findOne (fun u => (user_id u =? id)%N) (users s)).

(** The post with the given [_id], and its counters. *)
Definition post_by_id (_id : ObjectId) (s : Store) : option Blog :=
  Db.findOne (Db.holds (Db.IdIs _id)) (posts s).

Definition post_likes (_id : ObjectId) (s : Store) : option Z :=
  option_map (fun b => total_likes (activity b)) (post_by_id _id s).

Definition post_comments (_id : ObjectId) (s : Store) : option Z :=
  option_map (fun b => total_comments (activity b)) (post_by_id _id s).

Definition post_parent_comments (_id : ObjectId) (s : Store) : option Z :=
  option_map (fun b => total_parent_comments (activity b)) (post_by_id _id s).

(** The number of like notifications of a user on a post. *)
Definition like_notifications (user_id _id : ObjectId) (s : Store) : nat :=
  List.length (List.filter (is_like_of user_id _id) (notifications s)).

(** The liked state as [/isliked-by-user] reports it. *)
Definition liked_by_user (user_id _id : ObjectId) (s : Store) : bool :=
  match fst (isliked_by_user user_id _id s) with
  | Sent _ (Result (Some _)) => true
  | _ => false
  end.

(** One toggle: the client asks [/isliked-by-user] and hands the answer
    to [/like-blog]. *)
Definition like_toggle (user_id : ObjectId) (env : Env) (_id : ObjectId)
    (s : Store) : Store :=
  snd (like_blog user_id env
         {| like__id := _id; islikedByUser := liked_by_user user_id _id s |} s).

(** The usernames of the store are pairwise different. *)
Definition unique_usernames (s : Store) : Prop :=
  NoDup (map (fun u => username (personal_info u)) (users s)).

(** The data-model invariant on passwords: a federated account has none. *)
Definition federated_without_password (u : User) : Prop :=
  google_auth u = true -> password (personal_info u) = None.

(** The page size of [/search-blogs]: [limit ? limit : 2]. *)
Definition search_maxLimit (body : SearchBody) : nat :=
  match search_limit body with
  | Some (S n) => S n
  | _ => 2%nat
  end.

(** The same search, another page. *)
Definition on_page (page : Z) (body : SearchBody) : SearchBody :=
  {| search_tag := search_tag body; search_query := search_query body;
     search_author := search_author body; search_page := page;
     search_limit := search_limit body;
     search_eliminate_blog := search_eliminate_blog body |}.

(** A store in which the read counter of every post is replaced. *)
Definition set_total_reads (reads : Blog -> Z) (b : Blog) : Blog :=
  let a := activity b in
  set_activity
    {| total_likes := total_likes a; total_comments := total_comments a;
       total_reads := reads b;
       total_parent_comments := total_parent_comments a |} b.

Definition with_reads (reads : Blog -> Z) (s : Store) : Store :=
  with_posts (map (set_total_reads reads) (posts s)) s.

(** The shape of an id [nanoid()] returns: 21 characters out of
    [A-Za-z0-9_-]. *)
Definition is_nanoid (nid : string) : bool :=
  (String.length nid =? 21)%nat
  && forallb (fun c => Js.is_word c || Ascii.eqb c "-") (list_ascii_of_string nid).

(** ** Sample data *)

Module Sample.

Definition sign (id : ObjectId) : string := "signed".

Definition hash (data : string) : string := "#" ++ data.

Definition compare (data h : string) : option bool :=
  Some (hash data =? h).

Definition env : Env :=
  {| nanoid := "abcdeFGHIJ0123456789_"; objectId := 100; objectId' := 101;
     now := 1700000000000; hashedPassword := hash "Abcde1";
     avatar := "avatar.svg" |}.

Definition mk_user (id : ObjectId) (name mail : string)
    (pw : option string) (google : bool) : User :=
  {| user_id := id;
     personal_info :=
       {| fullname := name; email := mail; password := pw;
          username := hd EmptyString (Js.split "@" mail);
          profile_img := "avatar.svg" |};
     account_info := {| total_posts := 0; account_total_reads := 0 |};
     google_auth := google; blogs := [] |}.

Definition shik : User :=
  mk_user 1 "Shikhar" "shik@gmail.com" (Some (hash "Abcde1")) false.

Definition asha : User :=
  mk_user 2 "Asha" "asha@gmail.com" None true.

Definition mk_post (id : ObjectId) (bid : string) (by_ : ObjectId)
    (is_draft : bool) (reads likes parents : Z) (at_ : Timestamp) : Blog :=
  {| blog__id := id; blog_id := bid; title := bid; banner := "b.jpeg";
     des := "about"; content := {| blocks := ["text"] |};
     tags := ["tech"]; author := by_;
     activity := {| total_likes := likes; total_comments := parents;
                    total_reads := reads;
                    total_parent_comments := parents |};
     comments := []; draft := is_draft; publishedAt := at_ |}.

Definition store : Store :=
  {| users := [shik; asha];
     posts := [mk_post 10 "first-post" 1 false 7 2 3 1000;
               mk_post 11 "notes" 1 true 0 0 0 2000];
     comment_docs := [];
     notifications := [] |}.

Definition search_all : SearchBody :=
  {| search_tag := None; search_query := None; search_author := None;
     search_page := 1; search_limit := None;
     search_eliminate_blog := None |}.

Definition no_RegExp (pattern : string) : option (string -> bool) := None.

(** A comment of user 2 on the post of user 1, naming user 2 as the
    author of the post. *)
Definition comment_body : AddCommentBody :=
  {| add__id := 10; add_comment := "Nice"; add_blog_author := 2 |}.

(** A reader opens the draft of user 1 without the draft flag. *)
Definition read_draft : GetBlogBody :=
  {| get_blog_id := "notes"; get_draft := None; get_mode := None |}.

(** The editor opens it: [{blog_id, draft: true, mode: "edit"}]. *)
Definition edit_draft : GetBlogBody :=
  {| get_blog_id := "notes"; get_draft := Some true;
     get_mode := Some "edit" |}.

(** A preview of the draft outside the editor. *)
Definition preview_draft : GetBlogBody :=
  {| get_blog_id := "notes"; get_draft := Some true; get_mode := None |}.

(** The environment of a later request: other fresh ids. *)
Definition env_at (id : ObjectId) : Env :=
  {| nanoid := "KLMNOpqrst0123456789-"; objectId := id;
     objectId' := id + 1; now := 1700000000000 + Z.of_N id;
     hashedPassword := hash "Abcde1"; avatar := "avatar.svg" |}.

Definition like_request : LikeBlogBody :=
  {| like__id := 10; islikedByUser := false |}.

(** The store after user 2 has sent the same like request twice. *)
Definition liked_twice : Store :=
  snd (like_blog 2 (env_at 201) like_request
         (snd (like_blog 2 (env_at 200) like_request store))).

(** Two published posts: the first read ten times and never liked, the
    second never read and liked five times. *)
Definition much_read : Blog := mk_post 20 "much-read" 1 false 10 0 0 1000.
Definition much_liked : Blog := mk_post 21 "much-liked" 1 false 0 5 0 900.

Definition trending_store : Store :=
  {| users := [shik; asha]; posts := [much_read; much_liked];
     comment_docs := []; notifications := [] |}.

(** A store in which the usernames shik and shikabcde are taken. *)
Definition crowded : Store :=
  {| users := [shik;
               mk_user 3 "Shikha B" "shikabcde@gmail.com"
                 (Some (hash "Xyz123")) false];
     posts := []; comment_docs := []; notifications := [] |}.

Definition newcomer : SignupBody :=
  {| signup_fullname := "Shik Two"; signup_email := "shik@yahoo.com";
     signup_password := "Abcde1" |}.

End Sample.

(** ** The language of a pattern

    What [test] decides, said without derivatives: the strings a
    pattern matches as a whole. *)

Inductive in_star (L : string -> Prop) : string -> Prop :=
| in_star_empty : in_star L EmptyString
| in_star_more (s t : string) : L s -> in_star L t -> in_star L (s ++ t).

Fixpoint lang (r : regex) : string -> Prop :=
  match r with
  | Void => fun _ => False
  | Eps => fun s => s = EmptyString
  | Class p => fun s => exists c, p c = true /\ s = String c EmptyString
  | Seq r1 r2 =>
      fun s => exists s1 s2, s = s1 ++ s2 /\ lang r1 s1 /\ lang r2 s2
  | Alt r1 r2 => fun s => lang r1 s \/ lang r2 s
  | And r1 r2 => fun s => lang r1 s /\ lang r2 s
  | Star r1 => in_star (lang r1)
  end.

(** Every character of [s] is in the class [p]; some character is. *)
Fixpoint every (p : ascii -> bool) (s : string) : bool :=
  match s with
  | EmptyString => true
  | String c rest => p c && every p rest
  end.

Fixpoint some (p : ascii -> bool) (s : string) : bool :=
  match s with
  | EmptyString => false
  | String c rest => p c || some p rest
  end.

(** The characters of the local part of an email the pattern allows. *)
Definition is_local_char (c : ascii) : bool :=
  Js.is_word c || Ascii.eqb c "." || Ascii.eqb c "-".

(** What [passwordRegex] asks of a password, said directly. *)
Definition strong_password (p : string) : bool :=
  (6 <=? String.length p)%nat && (String.length p <=? 20)%nat
  && every (fun c => negb (Js.is_line_terminator c)) p
  && some Js.is_digit p && some Js.is_lower p && some Js.is_upper p.

(** Every class of the pattern lies within the class [P]. *)
Fixpoint over (P : ascii -> bool) (r : regex) : Prop :=
  match r with
  | Void | Eps => True
  | Class p => forall c, p c = true -> P c = true
  | Seq r1 r2 | Alt r1 r2 | And r1 r2 => over P r1 /\ over P r2
  | Star r1 => over P r1
  end.

(** ** Further handlers of [server.js] *)

(** [s.substring(n)] *)
Fixpoint drop (n : nat) (s : string) : string :=
  match n, s with
  | O, _ => s
  | S _, EmptyString => EmptyString
  | S m, String _ rest => drop m rest
  end.

(** [s.replace(pattern, replacement)] for a pattern that is a string:
    the first occurrence is replaced. *)
Fixpoint replace_first (pattern replacement s : string) : string :=
  if String.prefix pattern s
  then replacement ++ drop (String.length pattern) s
  else match s with
       | EmptyString => EmptyString
       | String c rest => String c (replace_first pattern replacement rest)
       end.

(** What [verifyIdToken] resolves to, as far as [/google-auth] reads it. *)
Record DecodedUser := {
  decoded_email : string;
  decoded_name : string;
  decoded_picture : string
}.

Section GoogleAuth.

Variable jwt_sign : ObjectId -> string.

(** [getAuth().verifyIdToken(access_token)]: the decoded user, or
    nothing when the promise is rejected. *)
Variable verifyIdToken : string -> option DecodedUser.

(** [/google-auth].  When the save of the new user is rejected, the
    reply is the first response the handler sends, the one of the
    [catch] on [save]. *)
Definition google_auth_signin (env : Env) (access_token : string) (s : Store)
    : Reply * Store :=
  match verifyIdToken access_token with
  | None =>
      (Sent 500 (Error "Failed to authenticate you with google. Try with some other google account"), s)
  | Some decodedUser =>
      let email := decoded_email decodedUser in
      let name := decoded_name decodedUser in
      let picture :=
        replace_first "s96-c" "s384-c" (decoded_picture decodedUser) in
      match Db.findOne (email_is email) (users s) with
      | Some user =>
          if negb (google_auth user)
          then (Sent 403 (Error "This email was signed up without google. Please log in with password to access the account"), s)
          else (Sent 200 (formatDatatoSend jwt_sign user), s)
      | None =>
          let username := generateUsername (users s) (nanoid env) email in
          let user :=
            {| user_id := objectId env;
               personal_info :=
                 {| fullname := name; email := email; password := None;
                    username := username; profile_img := picture |};
               account_info :=
                 {| total_posts := 0; account_total_reads := 0 |};
               google_auth := true;
               blogs := [] |} in
          match save_user user (users s) with
          | inr us => (Sent 200 (formatDatatoSend jwt_sign user), with_users us s)
          | inl e => (Sent 500 (ErrorMessage e), s)
          end
      end
  end.

End GoogleAuth.

(** A user as [/get-profile] sends it: the selection
    ["-personal_info.password -google_auth -updatedAt -blogs"] leaves
    the password, the provider flag and the list of posts out. *)
Record ProfileDoc := {
  profile_id : ObjectId;
  profile_fullname : string;
  profile_email : string;
  profile_username : string;
  profile_profile_img : string;
  profile_account_info : AccountInfo
}.

Definition select_profile (u : User) : ProfileDoc :=
  {| profile_id := user_id u;
     profile_fullname := fullname (personal_info u);
     profile_email := email (personal_info u);
     profile_username := username (personal_info u);
     profile_profile_img := profile_img (personal_info u);
     profile_account_info := account_info u |}.

(** The replies of [/search-users] and [/get-profile]. *)
Inductive UserReply :=
| UsersSent (status : Z) (users : list Db.UserDoc)
| ProfileSent (status : Z) (user : option ProfileDoc)
| UserFailed (status : Z) (body : Body).

Section Users.

Variable RegExp_i : string -> option (string -> bool).

Definition search_users (query : string) (s : Store) : UserReply * Store :=
  match RegExp_i query with
  | None => (UserFailed 500 (ErrorPage SyntaxError), s)
  | Some re =>
      (UsersSent 200
         (map (Db.select_user
                 "personal_info.fullname personal_info.username personal_info.profile_img -_id")
            (Db.limit 50
               (List.filter (fun u => re (username (personal_info u)))
                  (users s)))), s)
  end.

End Users.

Definition get_profile (username : string) (s : Store) : UserReply * Store :=
  (ProfileSent 200
     (option_map select_profile
        (Db.findOne (username_is username) (users s))), s).

(** ** The editor page

    [pages/editor.pages.jsx] and [components/blog-editor.component.jsx],
    as far as they decide what is asked of the server and what is
    published. *)

(** The body the editor posts to [/get-blog] when it opens a post. *)
Definition editor_request (blog_id : string) : GetBlogBody :=
  {| get_blog_id := blog_id; get_draft := Some true;
     get_mode := Some "edit" |}.

(** The [blog] state of the editor: the empty [blogStructure], a post
    the server sent, or [null]. *)
Inductive EditorBlog :=
| blogStructure
| Fetched (blog : Db.BlogDoc)
| NoBlog.

Record EditorState := {
  editor_blog : EditorBlog;
  loading : bool
}.

(** The effect the editor runs once it is mounted: nothing is asked
    without a [blog_id]; a response with a 2xx status sets the post,
    any other sets [null]. *)
Definition editor_effect (blog_id : option string) (s : Store)
    : EditorState * Store :=
  match blog_id with
  | None => ({| editor_blog := blogStructure; loading := false |}, s)
  | Some id =>
      if Js.truthy_str id
      then
        match get_blog (editor_request id) s with
        | (Sent 200 (OneBlog blog), s') =>
            ({| editor_blog := Fetched blog; loading := false |}, s')
        | (_, s') => ({| editor_blog := NoBlog; loading := false |}, s')
        end
      else ({| editor_blog := blogStructure; loading := false |}, s)
  end.

(** What a click on Publish leads to. *)
Inductive PublishEvent :=
| Toast (message : string)
| ToPublishForm (data : Content)
| NoEvent.

(** [handlePublishEvent]: [saved] is what [textEditor.save()] resolves
    to, or nothing when it is rejected. *)
Definition handlePublishEvent (banner title : string) (isReady : bool)
    (saved : option Content) : PublishEvent :=
  if Js.is_empty banner
  then Toast "Upload a blog banner to publish it"
  else if Js.is_empty title
  then Toast "Write blog title to publish it"
  else if isReady
  then match saved with
       | Some data =>
           if negb (Z.of_nat (List.length (blocks data)) =? 0)%Z
           then ToPublishForm data
           else Toast "Write something in your blog to publish it"
       | None => NoEvent
       end
  else NoEvent.

(** ** Observations for the further properties *)

(** The search with page 1 and a page size of [n]. *)
Definition whole_listing (n : nat) (body : SearchBody) : SearchBody :=
  {| search_tag := search_tag body; search_query := search_query body;
     search_author := search_author body; search_page := 1;
     search_limit := Some n;
     search_eliminate_blog := search_eliminate_blog body |}.

(** A published post with the tag of the search that the search leaves
    out because it is the post named by [eliminate_blog]. *)
Definition eliminated_by (body : SearchBody) (b : Blog) : bool :=
  match search_tag body, search_eliminate_blog body with
  | Some tag, Some e =>
      Js.truthy_str tag
      && Db.matches [Db.TagsHas tag; Db.DraftIs false] b
      && (blog_id b =? e)
  | _, _ => false
  end.

(** The like notifications on a post, of all users. *)
Definition is_like_on (_id : ObjectId) (n : Notification) : bool :=
  (blog n =? _id)%N && match type n with like => true | _ => false end.

Definition likes_on (_id : ObjectId) (s : Store) : nat :=
  List.length (List.filter (is_like_on _id) (notifications s)).

(** The like counter of every post is the number of like notifications
    on it. *)
Definition likes_consistent (s : Store) : Prop :=
  forall _id b,
    post_by_id _id s = Some b ->
    total_likes (activity b) = Z.of_nat (likes_on _id s).

(** No user holds two like notifications on one post. *)
Definition single_likes (s : Store) : Prop :=
  forall user_id _id, (like_notifications user_id _id s <= 1)%nat.

(** ** The server as a machine

    The routes of [server.js], one constructor per route, and the store
    after a request.  A store is reachable when requests lead to it
    from the empty store. *)

Inductive Request :=
| PostSignup (body : SignupBody)
| PostSignin (body : SigninBody)
| PostGoogleAuth (access_token : string)
| PostLatestBlogs (page : Z)
| PostAllLatestBlogsCount
| GetTrendingBlogs
| PostSearchBlogs (body : SearchBody)
| PostSearchBlogsCount (body : SearchBody)
| PostSearchUsers (query : string)
| PostGetProfile (username : string)
| PostCreateBlog (authorization : option string) (body : CreateBlogBody)
| PostGetBlog (body : GetBlogBody)
| PostLikeBlog (authorization : option string) (body : LikeBlogBody)
| PostIslikedByUser (authorization : option string) (_id : ObjectId)
| PostAddComment (authorization : option string) (body : AddCommentBody).

Definition empty_store : Store :=
  {| users := []; posts := []; comment_docs := []; notifications := [] |}.

Section Machine.

Variable jwt_sign : ObjectId -> string.
Variable jwt_verify : string -> option ObjectId.
Variable bcrypt_compare : string -> string -> option bool.
Variable RegExp_i : string -> option (string -> bool).
Variable verifyIdToken : string -> option DecodedUser.

Definition serve (env : Env) (req : Request) (s : Store) : Store :=
  match req with
  | PostSignup body => snd (signup jwt_sign env body s)
  | PostSignin body => snd (signin jwt_sign bcrypt_compare body s)
  | PostGoogleAuth access_token =>
      snd (google_auth_signin jwt_sign verifyIdToken env access_token s)
  | PostLatestBlogs page => snd (latest_blogs page s)
  | PostAllLatestBlogsCount => snd (all_latest_blogs_count s)
  | GetTrendingBlogs => snd (trending_blogs s)
  | PostSearchBlogs body => snd (search_blogs RegExp_i body s)
  | PostSearchBlogsCount body => snd (search_blogs_count RegExp_i body s)
  | PostSearchUsers query => snd (search_users RegExp_i query s)
  | PostGetProfile username => snd (get_profile username s)
  | PostCreateBlog authorization body =>
      snd (route_create_blog jwt_verify authorization env body s)
  | PostGetBlog body => snd (get_blog body s)
  | PostLikeBlog authorization body =>
      snd (route_like_blog jwt_verify authorization env body s)
  | PostIslikedByUser authorization _id =>
      snd (route_isliked_by_user jwt_verify authorization _id s)
  | PostAddComment authorization body =>
      snd (route_add_comment jwt_verify authorization env body s)
  end.

Inductive reachable : Store -> Prop :=
| reachable_empty : reachable empty_store
| reachable_serve (env : Env) (req : Request) (s : Store) :
    reachable s -> reachable (serve env req s).

End Machine.

(** A post with a title, and, when it is published, with a description
    of 1 to 200 characters, a banner, a block of content or more and 1
    to 10 tags. *)
Definition well_formed_post (b : Blog) : Prop :=
  title b <> EmptyString
  /\ (draft b = false ->
      des b <> EmptyString /\ (Js.length (des b) <= 200)%Z
      /\ banner b <> EmptyString
      /\ blocks (content b) <> []
      /\ tags b <> [] /\ (List.length (tags b) <= 10)%nat).

(** The tags of a post are in lower case. *)
Definition lower_case_tags (b : Blog) : Prop :=
  Forall (fun tag => Js.toLowerCase tag = tag) (tags b).

(** A user is a federated account without a password or a password
    account with a hash. *)
Definition one_provider (u : User) : Prop :=
  (google_auth u = true /\ password (personal_info u) = None)
  \/ (google_auth u = false /\ exists h, password (personal_info u) = Some h).

(** Every like notification is addressed to the author of the post it
    is about. *)
Definition likes_addressed_to_authors (s : Store) : Prop :=
  forall n,
    In n (notifications s) -> type n = like ->
    exists b, post_by_id (blog n) s = Some b /\ author b = notification_for n.

(** The counters that only grow are not negative. *)
Definition counted_post (b : Blog) : Prop :=
  (0 <= total_reads (activity b))%Z /\ (0 <= total_comments (activity b))%Z
  /\ (0 <= total_parent_comments (activity b) <= 1)%Z.

Definition counted_user (u : User) : Prop :=
  (0 <= total_posts (account_info u))%Z
  /\ (0 <= account_total_reads (account_info u))%Z
  /\ (total_posts (account_info u) <= Z.of_nat (List.length (blogs u)))%Z.

(** ** More sample data *)

Module Cases.

(** A toy verification of session tokens and Google tokens, and a toy
    pattern: the title starts with the query, whatever the case. *)
Definition verify (token : string) : option ObjectId :=
  if token =? "token-1" then Some 1%N
  else if token =? "token-2" then Some 2%N
  else if token =? "token-100" then Some 100%N
  else None.

Definition decode (token : string) : option DecodedUser :=
  if token =? "google-asha"
  then Some {| decoded_email := "asha@gmail.com"; decoded_name := "Asha";
               decoded_picture := "https://lh3.example/a/s96-c/photo.jpg" |}
  else if token =? "google-shik"
  then Some {| decoded_email := "shik@yahoo.com"; decoded_name := "Shik";
               decoded_picture := "https://lh3.example/b/s96-c/photo.jpg" |}
  else None.

Definition starts_with (query : string) : option (string -> bool) :=
  Some (fun t => String.prefix (Js.toLowerCase query) (Js.toLowerCase t)).

(** A request that publishes a post, and one that updates it. *)
Definition publish : CreateBlogBody :=
  {| create_title := "Hello, World"; create_des := "A first post";
     create_banner := "b.jpeg"; create_tags := ["Tech"; "News"];
     create_content := {| blocks := ["text"] |};
     create_draft := Some false; create_id := None |}.

Definition rewrite_first_post : CreateBlogBody :=
  {| create_title := "Taken over"; create_des := "By user 2";
     create_banner := "c.jpeg"; create_tags := ["Spam"];
     create_content := {| blocks := ["other"] |};
     create_draft := Some false; create_id := Some "first-post" |}.

(** The store after user 1 has published [publish] in the sample
    store. *)
Definition published : Store :=
  snd (create_blog 1 Sample.env publish Sample.store).

(** A store with a post nobody has liked. *)
Definition fresh : Store :=
  {| users := [Sample.shik; Sample.asha];
     posts := [Sample.mk_post 30 "fresh" 1 false 0 0 0 3000];
     comment_docs := []; notifications := [] |}.

(** A store whose post names an author that is not stored. *)
Definition orphaned : Store :=
  {| users := [Sample.asha];
     posts := [Sample.mk_post 40 "orphan" 9 false 5 0 0 4000];
     comment_docs := []; notifications := [] |}.

Definition search_tech : SearchBody :=
  {| search_tag := Some "tech"; search_query := None; search_author := None;
     search_page := 1; search_limit := None;
     search_eliminate_blog := Some "first-post" |}.

Definition search_Tech : SearchBody :=
  {| search_tag := Some "Tech"; search_query := None; search_author := None;
     search_page := 1; search_limit := None;
     search_eliminate_blog := None |}.

(** The store after a signup, a publication and a like, from the empty
    store. *)
Definition grown : Store :=
  serve Sample.sign verify Sample.compare starts_with decode
    (Sample.env_at 400)
    (PostLikeBlog (Some "Bearer token-100")
       {| like__id := 300; islikedByUser := false |})
    (serve Sample.sign verify Sample.compare starts_with decode
       (Sample.env_at 300)
       (PostCreateBlog (Some "Bearer token-100") publish)
       (serve Sample.sign verify Sample.compare starts_with decode
          Sample.env (PostSignup Sample.newcomer) empty_store)).

End Cases.

(** * Properties *)

(** ** The patterns of [/signup] on the examples of the specification *)

Example password_abc : test passwordRegex "abc" = false.
Proof. reflexivity. Qed.

Example password_no_upper : test passwordRegex "alllowercase1" = false.
Proof. reflexivity. Qed.

Example password_ok : test passwordRegex "Abcde1" = true.
Proof. reflexivity. Qed.

Example email_ok : test emailRegex "shik.g-1@mail.yahoo.co.in" = true.
Proof. vm_compute. reflexivity. Qed.

Example email_two_dots : test emailRegex "shik..g@yahoo.com" = false.
Proof. vm_compute. reflexivity. Qed.

Example email_long_tld : test emailRegex "shik@yahoo.comm" = false.
Proof. vm_compute. reflexivity. Qed.

(** ** The string operations on small inputs *)

Example split_email : Js.split "@" "shik@gmail.com" = ["shik"; "gmail.com"].
Proof. reflexivity. Qed.

Example split_no_separator : Js.split "@" "shik" = ["shik"].
Proof. reflexivity. Qed.

Example split_bearer :
  Js.index (Js.split " " "Bearer abc.def") 1 = Some "abc.def".
Proof. reflexivity. Qed.

Example slug_title : slug "Hello,  World! 2" = "Hello-World-2".
Proof. reflexivity. Qed.

Example lower_tag : Js.toLowerCase "Tech-2" = "tech-2".
Proof. reflexivity. Qed.

(** A request without the header, and one whose token does not verify. *)
Example verifyJWT_no_header :
  fst (route_isliked_by_user (fun _ => Some 1%N) None 10 Sample.store)
  = Sent 401 (Error "No access token").
Proof. reflexivity. Qed.

Example verifyJWT_bad_token :
  fst (route_isliked_by_user (fun _ => None) (Some "Bearer abc") 10
         Sample.store)
  = Sent 403 (Error "Access token is invalid").
Proof. reflexivity. Qed.

(** A page past the end of the listing is empty, not an error. *)
Example latest_blogs_past_the_end :
  fst (latest_blogs 3 Sample.store) = Sent 200 (Blogs []).
Proof. reflexivity. Qed.

(** The listing of the latest posts leaves the draft out. *)
Example latest_blogs_first_page :
  fst (latest_blogs 1 Sample.store)
  = Sent 200
      (Blogs [Db.select_blog listing_author listing_fields
                (users Sample.store)
                (Sample.mk_post 10 "first-post" 1 false 7 2 3 1000)]).
Proof. reflexivity. Qed.

(** ** Lemmas on the store *)

Section StoreLemmas.

Variable Doc : Type.
Implicit Types (p : Doc -> bool) (f : Doc -> Doc) (docs : list Doc).

Lemma findOne_none p docs :
  Db.findOne p docs = None <-> (forall d, In d docs -> p d = false).
Proof.
  unfold Db.findOne. split.
  - intros H d Hd. exact (find_none p docs H d Hd).
  - induction docs as [|x rest IH]; intros H; simpl; [reflexivity|].
    rewrite (H x (or_introl eq_refl)). apply IH.
    intros d Hd. apply H. right. exact Hd.
Qed.

Lemma findOne_some p docs d :
  Db.findOne p docs = Some d -> In d docs /\ p d = true.
Proof. apply find_some. Qed.

(** After an update of the first match, a search with a filter the
    update does not disturb finds the image of what it found before. *)
Lemma findOne_update_first_same p f docs :
  (forall d, p (f d) = p d) ->
  Db.findOne p (Db.update_first p f docs)
  = option_map f (Db.findOne p docs).
Proof.
  intros Hpf. induction docs as [|x rest IH]; simpl; [reflexivity|].
  destruct (p x) eqn:Hx; simpl.
  - rewrite Hpf, Hx. reflexivity.
  - rewrite Hx. exact IH.
Qed.

(** Two filters that single out the same first document: updating
    under one is seen under the other. *)
Lemma findOne_update_first_other p q f docs d :
  (forall x, q (f x) = q x) ->
  Db.findOne p docs = Some d ->
  Db.findOne q docs = Some d ->
  (forall x, In x docs -> p x = true -> q x = true -> x = d) ->
  Db.findOne q (Db.update_first p f docs) = Some (f d).
Proof.
  intros Hqf. induction docs as [|x rest IH]; simpl; [discriminate|].
  intros Hp Hq Hsame.
  destruct (p x) eqn:Hpx, (q x) eqn:Hqx; simpl.
  - injection Hp as ->. rewrite Hqf, Hqx. reflexivity.
  - injection Hp as ->. apply findOne_some in Hq. destruct Hq as [Hin Hqd].
    congruence.
  - injection Hq as ->. apply findOne_some in Hp. destruct Hp as [Hin Hpd].
    congruence.
  - rewrite Hqx. apply IH; auto.
Qed.

Lemma update_first_id p docs : Db.update_first p (fun d => d) docs = docs.
Proof.
  induction docs as [|x rest IH]; simpl; [reflexivity|].
  destruct (p x); [reflexivity | now rewrite IH].
Qed.

Lemma update_first_ext p f g docs :
  (forall d, f d = g d) -> Db.update_first p f docs = Db.update_first p g docs.
Proof.
  intros H. induction docs as [|x rest IH]; simpl; [reflexivity|].
  destruct (p x); [now rewrite H | now rewrite IH].
Qed.

Lemma filter_delete_first p docs :
  List.length (List.filter p (Db.delete_first p docs))
  = pred (List.length (List.filter p docs)).
Proof.
  induction docs as [|x rest IH]; simpl; [reflexivity|].
  destruct (p x) eqn:Hx; simpl; [reflexivity|].
  rewrite Hx. exact IH.
Qed.

Lemma exists_filter p docs :
  Db.exists_ p docs = negb (Nat.eqb (List.length (List.filter p docs)) 0).
Proof.
  unfold Db.exists_, Db.findOne.
  induction docs as [|x rest IH]; simpl; [reflexivity|].
  destruct (p x); [reflexivity | exact IH].
Qed.

End StoreLemmas.

(** ** [/signin] *)

(** C5: the four outcomes of [signin(email, password)]: no user with the
    email, a wrong password on a password account, a federated account,
    and a matching password. *)
Theorem signin_outcomes
    (jwt_sign : ObjectId -> string)
    (bcrypt_compare : string -> string -> option bool)
    (body : SigninBody) (s : Store) :
  let found := Db.findOne (email_is (signin_email body)) (users s) in
  let reply := signin jwt_sign bcrypt_compare body s in
  ((forall u, In u (users s) ->
      email (personal_info u) <> signin_email body) ->
   reply = (Sent 403 (Error "Email not found"), s))
  /\ (forall u h,
        found = Some u -> google_auth u = false ->
        password (personal_info u) = Some h ->
        bcrypt_compare (signin_password body) h = Some false ->
        reply = (Sent 403 (Error "Incorrect Password"), s))
  /\ (forall u,
        found = Some u -> google_auth u = true ->
        reply = (Sent 403 (Error "Account was signed in with google. Try logging in using google account"), s))
  /\ (forall u h,
        found = Some u -> federated_without_password u ->
        password (personal_info u) = Some h ->
        bcrypt_compare (signin_password body) h = Some true ->
        reply = (Sent 200
                   (Session (jwt_sign (user_id u))
                      (profile_img (personal_info u))
                      (username (personal_info u))
                      (fullname (personal_info u))), s)).
Proof.
  cbv zeta. unfold signin. repeat split.
  - intros Hnone.
    assert (H : Db.findOne (email_is (signin_email body)) (users s) = None).
    { apply findOne_none. intros u Hu. unfold email_is.
      apply String.eqb_neq. exact (Hnone u Hu). }
    rewrite H. reflexivity.
  - intros u h -> Hg Hp Hc. rewrite Hg. simpl.
    unfold compare_password. rewrite Hp, Hc. reflexivity.
  - intros u -> Hg. rewrite Hg. reflexivity.
  - intros u h -> Hinv Hp Hc.
    destruct (google_auth u) eqn:Hg.
    + rewrite (Hinv Hg) in Hp. discriminate.
    + simpl. unfold compare_password. rewrite Hp, Hc. reflexivity.
Qed.

Lemma signin_outcomes_witness :
  signin Sample.sign Sample.compare
    {| signin_email := "nobody@gmail.com"; signin_password := "Abcde1" |}
    Sample.store
  = (Sent 403 (Error "Email not found"), Sample.store)
  /\ signin Sample.sign Sample.compare
       {| signin_email := "shik@gmail.com"; signin_password := "abcde1" |}
       Sample.store
     = (Sent 403 (Error "Incorrect Password"), Sample.store)
  /\ signin Sample.sign Sample.compare
       {| signin_email := "asha@gmail.com"; signin_password := "Abcde1" |}
       Sample.store
     = (Sent 403 (Error "Account was signed in with google. Try logging in using google account"), Sample.store)
  /\ signin Sample.sign Sample.compare
       {| signin_email := "shik@gmail.com"; signin_password := "Abcde1" |}
       Sample.store
     = (Sent 200 (Session "signed" "avatar.svg" "shik" "Shikhar"),
        Sample.store).
Proof.
  split; [|split; [|split]].
  - apply (signin_outcomes Sample.sign Sample.compare
             {| signin_email := "nobody@gmail.com";
                signin_password := "Abcde1" |} Sample.store).
    intros u [<-|[<-|[]]]; discriminate.
  - apply (signin_outcomes Sample.sign Sample.compare
             {| signin_email := "shik@gmail.com";
                signin_password := "abcde1" |} Sample.store)
      with (u := Sample.shik) (h := Sample.hash "Abcde1"); reflexivity.
  - apply (signin_outcomes Sample.sign Sample.compare
             {| signin_email := "asha@gmail.com";
                signin_password := "Abcde1" |} Sample.store)
      with (u := Sample.asha); reflexivity.
  - apply (signin_outcomes Sample.sign Sample.compare
             {| signin_email := "shik@gmail.com";
                signin_password := "Abcde1" |} Sample.store)
      with (u := Sample.shik) (h := Sample.hash "Abcde1");
      try reflexivity.
    intros H. discriminate H.
Defined.

(** ** [/create-blog] *)

Lemma is_empty_spec (t : string) : Js.is_empty t = true <-> t = EmptyString.
Proof.
  unfold Js.is_empty, Js.length. destruct t; simpl; split;
    try reflexivity; discriminate.
Qed.

Lemma publish_checks_reject (body : CreateBlogBody) :
  create_des body = EmptyString
  \/ (200 < Js.length (create_des body))%Z
  \/ create_banner body = EmptyString
  \/ blocks (create_content body) = []
  \/ create_tags body = []
  \/ (10 < List.length (create_tags body))%nat ->
  exists message, publish_checks body = Some message.
Proof.
  intros H. unfold publish_checks.
  destruct (Js.is_empty (create_des body)
            || (200 <? Js.length (create_des body))%Z) eqn:Hdes;
    [eexists; reflexivity|].
  destruct (Js.is_empty (create_banner body)) eqn:Hbanner;
    [eexists; reflexivity|].
  destruct (Z.of_nat (List.length (blocks (create_content body))) =? 0)%Z
    eqn:Hblocks; [eexists; reflexivity|].
  destruct ((Z.of_nat (List.length (create_tags body)) =? 0)%Z
            || (10 <? Z.of_nat (List.length (create_tags body)))%Z) eqn:Htags;
    [eexists; reflexivity|].
  exfalso.
  apply orb_false_elim in Hdes. destruct Hdes as [Hd1 Hd2].
  apply orb_false_elim in Htags. destruct Htags as [Ht1 Ht2].
  apply Z.ltb_ge in Hd2. apply Z.ltb_ge in Ht2.
  apply Z.eqb_neq in Hblocks. apply Z.eqb_neq in Ht1.
  destruct H as [H|[H|[H|[H|[H|H]]]]].
  - apply is_empty_spec in H. congruence.
  - lia.
  - apply is_empty_spec in H. congruence.
  - rewrite H in Hblocks. simpl in Hblocks. lia.
  - rewrite H in Ht1. simpl in Ht1. lia.
  - lia.
Qed.

(** C4: with [draft] false, an empty or over-long description, an empty
    banner, a content without blocks, or an empty or over-long tag list
    makes the handler reject the request and leave the store as it was;
    with [draft] true the request is rejected exactly when the title is
    empty. *)
Theorem create_blog_validation
    (authorId : ObjectId) (env : Env) (body : CreateBlogBody) (s : Store) :
  (Js.truthy_opt_bool (create_draft body) = false ->
   create_des body = EmptyString
   \/ (200 < Js.length (create_des body))%Z
   \/ create_banner body = EmptyString
   \/ blocks (create_content body) = []
   \/ create_tags body = []
   \/ (10 < List.length (create_tags body))%nat ->
   exists message,
     create_blog authorId env body s = (Sent 403 (Error message), s))
  /\ (create_draft body = Some true ->
      create_blog_checks body
      = (if Js.is_empty (create_title body)
         then Some "You must provide a title" else None)
      /\ (create_title body = EmptyString ->
          create_blog authorId env body s
          = (Sent 403 (Error "You must provide a title"), s))
      /\ (create_title body <> EmptyString ->
          forall body', fst (create_blog authorId env body s) <> Sent 403 body')).
Proof.
  split.
  - intros Hdraft Hbad. unfold create_blog, create_blog_checks.
    destruct (Js.is_empty (create_title body)); [eexists; reflexivity|].
    rewrite Hdraft. simpl.
    destruct (publish_checks_reject body Hbad) as [message ->].
    eexists; reflexivity.
  - intros Hdraft.
    assert (Hchecks : create_blog_checks body
                      = if Js.is_empty (create_title body)
                        then Some "You must provide a title" else None).
    { unfold create_blog_checks. rewrite Hdraft. simpl.
      destruct (Js.is_empty (create_title body)); reflexivity. }
    split; [exact Hchecks|]. split.
    + intros Htitle. unfold create_blog. rewrite Hchecks.
      apply is_empty_spec in Htitle. rewrite Htitle. reflexivity.
    + intros Htitle body'. unfold create_blog. rewrite Hchecks.
      destruct (Js.is_empty (create_title body)) eqn:He.
      * apply is_empty_spec in He. contradiction.
      * unfold Db.findOneAndUpdate.
        destruct (Js.truthy_opt_str (create_id body)); simpl.
        -- discriminate.
        -- destruct (save_blog _ _); simpl; discriminate.
Qed.

Lemma create_blog_validation_witness :
  (exists message,
     create_blog 1 Sample.env
       {| create_title := "Hello"; create_des := ""; create_banner := "b.jpeg";
          create_tags := ["Tech"]; create_content := {| blocks := ["text"] |};
          create_draft := Some false; create_id := None |} Sample.store
     = (Sent 403 (Error message), Sample.store))
  /\ (forall body',
        fst (create_blog 1 Sample.env
               {| create_title := "Hello"; create_des := "";
                  create_banner := ""; create_tags := [];
                  create_content := {| blocks := [] |};
                  create_draft := Some true; create_id := None |}
               Sample.store)
        <> Sent 403 body').
Proof.
  split.
  - apply (create_blog_validation 1 Sample.env
             {| create_title := "Hello"; create_des := "";
                create_banner := "b.jpeg"; create_tags := ["Tech"];
                create_content := {| blocks := ["text"] |};
                create_draft := Some false; create_id := None |}
             Sample.store).
    + reflexivity.
    + left. reflexivity.
  - apply (create_blog_validation 1 Sample.env
             {| create_title := "Hello"; create_des := "";
                create_banner := ""; create_tags := [];
                create_content := {| blocks := [] |};
                create_draft := Some true; create_id := None |}
             Sample.store).
    + reflexivity.
    + discriminate.
Defined.

(** A draft without description, banner, blocks or tags is stored. *)
Example create_blog_draft_accepted :
  fst (create_blog 1 Sample.env
         {| create_title := "Hello World"; create_des := "";
            create_banner := ""; create_tags := [];
            create_content := {| blocks := [] |};
            create_draft := Some true; create_id := None |}
         Sample.store)
  = Sent 200 (BlogId "Hello-WorldabcdeFGHIJ0123456789_").
Proof. vm_compute. reflexivity. Qed.

(** ** Sorting and paging *)

Section SortLemmas.

Variable Doc : Type.
Variable before : Doc -> Doc -> bool.

Lemma insert_sorted_perm (d : Doc) (l : list Doc) :
  Permutation (Db.insert_sorted before d l) (d :: l).
Proof.
  induction l as [|x rest IH]; simpl; [apply Permutation_refl|].
  destruct (before d x); [apply Permutation_refl|].
  eapply perm_trans; [apply perm_skip, IH | apply perm_swap].
Qed.

Lemma sort_by_perm (l : list Doc) : Permutation (Db.sort_by before l) l.
Proof.
  induction l as [|x rest IH]; simpl; [constructor|].
  eapply perm_trans; [apply insert_sorted_perm | apply perm_skip, IH].
Qed.

(** Every element of a list is on one of its pages of size [m]. *)
Lemma on_some_page (l : list Doc) (d : Doc) (m : nat) :
  (0 < m)%nat -> In d l ->
  exists k : nat, In d (firstn m (skipn (k * m) l)).
Proof.
  intros Hm Hin. apply In_nth_error in Hin. destruct Hin as [i Hi].
  exists (i / m)%nat. apply nth_error_In with (n := (i mod m)%nat).
  rewrite nth_error_firstn.
  assert (Hlt : (i mod m < m)%nat) by (apply Nat.mod_upper_bound; lia).
  apply Nat.ltb_lt in Hlt. rewrite Hlt.
  rewrite nth_error_skipn.
  replace (i / m * m + i mod m)%nat with i; [exact Hi|].
  rewrite (Nat.div_mod_eq i m) at 1. lia.
Qed.

End SortLemmas.

(** ** [/search-blogs] *)

(** C9: when [tag], [query] and [author] are all absent (or empty), the
    filter stays undefined and the listing is a page of all the posts in
    the order of their publication: every post of the store, draft or
    not, is on one of the pages. *)
Theorem search_blogs_without_filter
    (RegExp_i : string -> option (string -> bool))
    (body : SearchBody) (s : Store) :
  Js.truthy_opt_str (search_tag body) = false ->
  Js.truthy_opt_str (search_query body) = false ->
  search_author body = None ->
  let listing :=
    Db.sort [("publishedAt", Db.Descending)] (posts s) in
  let shown :=
    Db.select_blog listing_author listing_fields (users s) in
  search_findQuery RegExp_i body = inr None
  /\ (forall rest,
        Db.skip ((search_page body - 1) * Z.of_nat (search_maxLimit body))
          listing = Some rest ->
        search_blogs RegExp_i body s
        = (Sent 200 (Blogs (map shown (Db.limit (search_maxLimit body) rest))),
           s))
  /\ (forall b, In b (posts s) ->
        exists page listed,
          fst (search_blogs RegExp_i (on_page page body) s)
          = Sent 200 (Blogs listed)
          /\ In (shown b) listed).
Proof.
  intros Htag Hquery Hauthor listing shown.
  assert (Hq : forall page,
             search_findQuery RegExp_i (on_page page body) = inr None).
  { intros page. unfold search_findQuery. simpl.
    rewrite Htag, Hquery, Hauthor. reflexivity. }
  assert (Hq0 : search_findQuery RegExp_i body = inr None).
  { unfold search_findQuery. rewrite Htag, Hquery, Hauthor. reflexivity. }
  split; [exact Hq0|]. split.
  - intros rest Hrest. unfold search_blogs. rewrite Hq0.
    fold (search_maxLimit body). simpl Db.find. fold listing.
    rewrite Hrest. reflexivity.
  - intros b Hb.
    assert (Hm : (0 < search_maxLimit body)%nat).
    { unfold search_maxLimit. destruct (search_limit body) as [[|n]|]; lia. }
    assert (Hin : In b listing).
    { apply Permutation_in with (l := posts s); [|exact Hb].
      apply Permutation_sym, sort_by_perm. }
    destruct (on_some_page listing b Hm Hin) as [k Hk].
    exists (Z.of_nat k + 1)%Z.
    exists (map shown
              (Db.limit (search_maxLimit body)
                 (skipn (k * search_maxLimit body) listing))).
    split.
    + unfold search_blogs. rewrite Hq. simpl search_limit.
      fold (search_maxLimit body). simpl Db.find. fold listing.
      simpl search_page. unfold Db.skip.
      replace (Z.of_nat k + 1 - 1)%Z with (Z.of_nat k) by lia.
      destruct (Z.of_nat k * Z.of_nat (search_maxLimit body) <? 0)%Z eqn:Hneg.
      * apply Z.ltb_lt in Hneg. lia.
      * rewrite <- Nat2Z.inj_mul, Nat2Z.id. reflexivity.
    + apply in_map. exact Hk.
Qed.

Lemma search_blogs_without_filter_witness :
  search_findQuery Sample.no_RegExp Sample.search_all = inr None
  /\ search_blogs Sample.no_RegExp Sample.search_all Sample.store
     = (Sent 200
          (Blogs
             (map (Db.select_blog listing_author listing_fields
                     (users Sample.store))
                [Sample.mk_post 11 "notes" 1 true 0 0 0 2000;
                 Sample.mk_post 10 "first-post" 1 false 7 2 3 1000])),
        Sample.store).
Proof.
  destruct (search_blogs_without_filter Sample.no_RegExp Sample.search_all
              Sample.store eq_refl eq_refl eq_refl) as [Hquery [Hpage _]].
  split; [exact Hquery|].
  apply (Hpage [Sample.mk_post 11 "notes" 1 true 0 0 0 2000;
                Sample.mk_post 10 "first-post" 1 false 7 2 3 1000]).
  reflexivity.
Defined.

(** ** [/add-comment] *)

Lemma add_comment_effects
    (user_id : ObjectId) (env : Env) (body : AddCommentBody) (s : Store) :
  Js.is_empty (add_comment body) = false ->
  add_comment_handler user_id env body s
  = (Sent 200 (NewComment (add_comment body) (now env) (objectId env)
                 user_id []),
     {| users := users s;
        posts :=
          Db.update_first (Db.holds (Db.IdIs (add__id body)))
            (fun b => set_total_parent_comments 1
                        (inc_total_comments 1
                           (push_comment (objectId env) b)))
            (posts s);
        comment_docs :=
          comment_docs s
          ++ [{| comment_id := objectId env;
                 comment_blog_id := add__id body;
                 comment_blog_author := add_blog_author body;
                 comment_text := add_comment body; children := [];
                 commented_by := user_id; commentedAt := now env |}];
        notifications :=
          notifications s
          ++ [{| notification_id := objectId' env; type := comment;
                 blog := add__id body;
                 notification_for := add_blog_author body;
                 user := user_id;
                 notification_comment := Some (objectId env) |}] |}).
Proof.
  intros Hne. unfold add_comment_handler. rewrite Hne. reflexivity.
Qed.

(** C10: the one notification a request emits is a comment notification
    that goes to the [blog_author] of the request body, whatever the
    stored post says (a request without a comment text emits none); and
    there is a request on which that is not the author of the post. *)
Theorem add_comment_notifies_request_author :
  (forall user_id env body s,
     Js.is_empty (add_comment body) = false ->
     exists n,
       notifications (snd (add_comment_handler user_id env body s))
       = (notifications s ++ [n])%list
       /\ type n = comment
       /\ blog n = add__id body
       /\ notification_for n = add_blog_author body)
  /\ (forall user_id env body s,
        Js.is_empty (add_comment body) = true ->
        snd (add_comment_handler user_id env body s) = s)
  /\ (exists user_id env body s b n,
        post_by_id (add__id body) s = Some b
        /\ add_blog_author body <> author b
        /\ notifications (snd (add_comment_handler user_id env body s))
           = (notifications s ++ [n])%list
        /\ type n = comment
        /\ notification_for n <> author b).
Proof.
  split; [|split].
  - intros user_id env body s Hne.
    rewrite (add_comment_effects user_id env body s Hne). simpl.
    eexists. split; [reflexivity|]. simpl. auto.
  - intros user_id env body s He. unfold add_comment_handler.
    rewrite He. reflexivity.
  - exists 2%N, Sample.env, Sample.comment_body, Sample.store.
    exists (Sample.mk_post 10 "first-post" 1 false 7 2 3 1000).
    eexists. split; [reflexivity|]. split; [discriminate|].
    split; [reflexivity|]. split; [reflexivity|]. discriminate.
Qed.

Lemma add_comment_notifies_request_author_witness :
  exists n,
    notifications
      (snd (add_comment_handler 2 Sample.env Sample.comment_body Sample.store))
    = (notifications Sample.store ++ [n])%list
    /\ type n = comment
    /\ blog n = 10%N
    /\ notification_for n = 2%N.
Proof.
  destruct add_comment_notifies_request_author as [Hall _].
  apply (Hall 2%N Sample.env Sample.comment_body Sample.store).
  reflexivity.
Defined.

(** C7, as stated, fails: the notification of a comment on the post of
    user 1 goes to user 2 when the request names user 2. *)
Lemma add_comment_recipient_counterexample :
  Js.is_empty (add_comment Sample.comment_body) = false
  /\ option_map author (post_by_id 10 Sample.store) = Some 1%N
  /\ ~ (exists n,
          notifications
            (snd (add_comment_handler 2 Sample.env Sample.comment_body
                    Sample.store))
          = (notifications Sample.store ++ [n])%list
          /\ type n = comment
          /\ Some (notification_for n)
             = option_map author (post_by_id 10 Sample.store)).
Proof.
  split; [reflexivity|]. split; [reflexivity|].
  intros [n [Hn [_ Hfor]]].
  apply app_inj_tail in Hn. destruct Hn as [_ <-].
  discriminate Hfor.
Qed.

(** The update document of [/add-comment] names
    [activity.total_parent_comments] outside [$inc]: the counter is set
    to 1, here from 3. *)
Example add_comment_sets_parent_comments :
  post_parent_comments 10 Sample.store = Some 3%Z
  /\ post_parent_comments 10
       (snd (add_comment_handler 2 Sample.env Sample.comment_body
               Sample.store))
     = Some 1%Z.
Proof. split; reflexivity. Qed.

(** C7, amended: a request with a comment text on a stored post appends
    one Comment document, pushes its id on the post, raises the post's
    [total_comments] by 1, and emits one comment Notification addressed
    to the [blog_author] of the request. *)
Theorem add_comment_creates_comment_and_notification
    (user_id : ObjectId) (env : Env) (body : AddCommentBody) (s : Store)
    (b : Blog) :
  Js.is_empty (add_comment body) = false ->
  post_by_id (add__id body) s = Some b ->
  let s' := snd (add_comment_handler user_id env body s) in
  (exists c,
     comment_docs s' = (comment_docs s ++ [c])%list
     /\ comment_text c = add_comment body
     /\ comment_blog_id c = add__id body
     /\ commented_by c = user_id
     /\ option_map comments (post_by_id (add__id body) s')
        = Some (comments b ++ [comment_id c])%list)
  /\ post_comments (add__id body) s' = Some (total_comments (activity b) + 1)%Z
  /\ (exists n,
        notifications s' = (notifications s ++ [n])%list
        /\ type n = comment
        /\ blog n = add__id body
        /\ user n = user_id
        /\ notification_for n = add_blog_author body).
Proof.
  intros Hne Hb s'. subst s'.
  rewrite (add_comment_effects user_id env body s Hne).
  unfold post_comments, post_by_id in *. simpl.
  rewrite findOne_update_first_same by reflexivity.
  rewrite Hb. simpl. repeat split.
  - eexists. split; [reflexivity|]. simpl. auto.
  - eexists. split; [reflexivity|]. simpl. auto.
Qed.

Lemma add_comment_creates_comment_and_notification_witness :
  post_comments 10
    (snd (add_comment_handler 2 Sample.env Sample.comment_body Sample.store))
  = Some 4%Z.
Proof.
  apply (add_comment_creates_comment_and_notification 2 Sample.env
           Sample.comment_body Sample.store
           (b := Sample.mk_post 10 "first-post" 1 false 7 2 3 1000)
           eq_refl eq_refl).
Defined.

(** ** [/get-blog] *)

Lemma NoDup_map_eq (A B : Type) (g : A -> B) (l : list A) (x y : A) :
  NoDup (map g l) -> In x l -> In y l -> g x = g y -> x = y.
Proof.
  induction l as [|a rest IH]; simpl; [contradiction|].
  intros Hnd Hx Hy Hg. inversion Hnd as [|? ? Hnotin Hrest]; subst.
  destruct Hx as [<-|Hx], Hy as [<-|Hy]; auto.
  - exfalso. apply Hnotin. rewrite Hg. apply in_map. exact Hy.
  - exfalso. apply Hnotin. rewrite <- Hg. apply in_map. exact Hx.
Qed.

Lemma findOne_unique_key (A : Type) (g : A -> string) (l : list A) (x : A) :
  NoDup (map g l) -> In x l ->
  Db.findOne (fun y => g y =? g x) l = Some x.
Proof.
  intros Hnd Hx.
  destruct (Db.findOne (fun y => g y =? g x) l) as [y|] eqn:Hfind.
  - apply findOne_some in Hfind. destruct Hfind as [Hy Heq].
    apply String.eqb_eq in Heq. f_equal.
    exact (NoDup_map_eq g l y x Hnd Hy Hx Heq).
  - rewrite findOne_none in Hfind. specialize (Hfind x Hx).
    simpl in Hfind. rewrite String.eqb_refl in Hfind. discriminate.
Qed.

(** The selection of [/get-blog] leaves [draft] out of the document. *)
Lemma get_blog_selection_drops_draft (us : list User) (b : Blog) :
  Db.doc_draft
    (Db.select_blog
       "personal_info.fullname personal_info.username personal_info.profile_img"
       "title des content banner activity publishedAt blog_id tags" us b)
  = None.
Proof. reflexivity. Qed.

(** What the handler does on a stored post whose author is a stored
    user. *)
Lemma get_blog_found (body : GetBlogBody) (s : Store) (b : Blog) (u : User) :
  Db.findOne (Db.holds (Db.BlogIdIs (get_blog_id body))) (posts s) = Some b ->
  Db.findOne (fun v => (user_id v =? author b)%N) (users s) = Some u ->
  let incrementVal :=
    match get_mode body with
    | Some mode => if mode =? "edit" then 0%Z else 1%Z
    | None => 1%Z
    end in
  get_blog body s
  = (Sent 200
       (OneBlog
          (Db.select_blog
             "personal_info.fullname personal_info.username personal_info.profile_img"
             "title des content banner activity publishedAt blog_id tags"
             (users s) b)),
     {| users :=
          Db.update_first (username_is (username (personal_info u)))
            (inc_account_total_reads incrementVal) (users s);
        posts :=
          Db.update_first (Db.holds (Db.BlogIdIs (get_blog_id body)))
            (inc_total_reads incrementVal) (posts s);
        comment_docs := comment_docs s;
        notifications := notifications s |}).
Proof.
  intros Hb Hu incrementVal. unfold get_blog, Db.findOneAndUpdate.
  rewrite Hb. fold incrementVal.
  unfold Db.select_blog at 1. unfold Db.populate_author. rewrite Hu.
  reflexivity.
Qed.

(** The refusal of a draft is never sent. *)
Lemma get_blog_never_refuses (body : GetBlogBody) (s : Store) :
  fst (get_blog body s) <> Sent 500 (Error "you cannot access draft blogs").
Proof.
  unfold get_blog, Db.findOneAndUpdate.
  destruct (Db.findOne _ (posts s)) as [b|]; simpl; [|discriminate].
  destruct (Db.populate_author _ (users s) b) as [a|]; simpl; discriminate.
Qed.

(** C1, on the code: the draft of the sample store, asked for without
    the draft flag, is sent with status 200. *)
Theorem get_blog_sends_draft_without_flag :
  option_map draft
    (Db.findOne (Db.holds (Db.BlogIdIs "notes")) (posts Sample.store))
  = Some true
  /\ get_draft Sample.read_draft = None
  /\ fst (get_blog Sample.read_draft Sample.store)
     = Sent 200
         (OneBlog
            (Db.select_blog
               "personal_info.fullname personal_info.username personal_info.profile_img"
               "title des content banner activity publishedAt blog_id tags"
               (users Sample.store)
               (Sample.mk_post 11 "notes" 1 true 0 0 0 2000))).
Proof. repeat split. Qed.

(** The half of C1 that holds: with the draft flag set, a stored draft
    whose author is a stored user is sent. *)
Lemma get_blog_sends_draft_with_flag
    (body : GetBlogBody) (s : Store) (b : Blog) (u : User) :
  Db.findOne (Db.holds (Db.BlogIdIs (get_blog_id body))) (posts s) = Some b ->
  Db.findOne (fun v => (user_id v =? author b)%N) (users s) = Some u ->
  draft b = true -> get_draft body = Some true ->
  exists doc,
    fst (get_blog body s) = Sent 200 (OneBlog doc)
    /\ Db.doc_blog_id doc = Some (blog_id b)
    /\ Db.doc_title doc = Some (title b)
    /\ Db.doc_content doc = Some (content b).
Proof.
  intros Hb Hu _ _. rewrite (get_blog_found body s Hb Hu). simpl.
  eexists. split; [reflexivity|]. repeat split.
Qed.

(** C3, as stated, fails: a fetch of a draft outside the edit mode
    raises the read counters of the draft and of its author. *)
Lemma get_blog_counts_draft_reads_counterexample :
  option_map draft
    (Db.findOne (Db.holds (Db.BlogIdIs "notes")) (posts Sample.store))
  = Some true
  /\ get_mode Sample.preview_draft <> Some "edit"
  /\ post_reads "notes" (snd (get_blog Sample.preview_draft Sample.store))
     <> post_reads "notes" Sample.store
  /\ user_reads 1 (snd (get_blog Sample.preview_draft Sample.store))
     <> user_reads 1 Sample.store.
Proof.
  split; [reflexivity|]. split; [discriminate|].
  split; vm_compute; discriminate.
Qed.

(** C3, amended: on a stored post whose author is a stored user, with
    usernames unique, the read counter of the post and that of its
    author both stay as they are in the edit mode and both grow by 1 in
    any other mode, whether the post is a draft or not. *)
Theorem get_blog_read_counters
    (body : GetBlogBody) (s : Store) (b : Blog) (u : User) :
  Db.findOne (Db.holds (Db.BlogIdIs (get_blog_id body))) (posts s) = Some b ->
  Db.findOne (fun v => (user_id v =? author b)%N) (users s) = Some u ->
  unique_usernames s ->
  let s' := snd (get_blog body s) in
  (get_mode body = Some "edit" ->
   post_reads (get_blog_id body) s' = Some (total_reads (activity b))
   /\ user_reads (author b) s' = Some (account_total_reads (account_info u)))
  /\ (get_mode body <> Some "edit" ->
      post_reads (get_blog_id body) s'
      = Some (total_reads (activity b) + 1)%Z
      /\ user_reads (author b) s'
         = Some (account_total_reads (account_info u) + 1)%Z).
Proof.
  intros Hb Hu Huniq s'. subst s'.
  rewrite (get_blog_found body s Hb Hu).
  set (incrementVal := match get_mode body with
                       | Some mode => if mode =? "edit" then 0%Z else 1%Z
                       | None => 1%Z
                       end).
  assert (Hpost : post_reads (get_blog_id body)
                    {| users :=
                         Db.update_first
                           (username_is (username (personal_info u)))
                           (inc_account_total_reads incrementVal) (users s);
                       posts :=
                         Db.update_first
                           (Db.holds (Db.BlogIdIs (get_blog_id body)))
                           (inc_total_reads incrementVal) (posts s);
                       comment_docs := comment_docs s;
                       notifications := notifications s |}
                  = Some (total_reads (activity b) + incrementVal)%Z).
  { unfold post_reads. simpl posts.
    rewrite findOne_update_first_same by reflexivity.
    rewrite Hb. reflexivity. }
  assert (Huser : user_reads (author b)
                    {| users :=
                         Db.update_first
                           (username_is (username (personal_info u)))
                           (inc_account_total_reads incrementVal) (users s);
                       posts :=
                         Db.update_first
                           (Db.holds (Db.BlogIdIs (get_blog_id body)))
                           (inc_total_reads incrementVal) (posts s);
                       comment_docs := comment_docs s;
                       notifications := notifications s |}
                  = Some (account_total_reads (account_info u)
                          + incrementVal)%Z).
  { unfold user_reads. simpl users.
    destruct (findOne_some _ _ Hu) as [Hin _].
    rewrite (@findOne_update_first_other User
               (username_is (username (personal_info u)))
               (fun v => (user_id v =? author b)%N)
               (inc_account_total_reads incrementVal) (users s) u).
    - reflexivity.
    - reflexivity.
    - exact (findOne_unique_key (fun v => username (personal_info v))
               (users s) u Huniq Hin).
    - exact Hu.
    - intros x Hx Hname _. apply String.eqb_eq in Hname.
      exact (NoDup_map_eq (fun v => username (personal_info v))
               (users s) x u Huniq Hx Hin Hname). }
  simpl snd. rewrite Hpost, Huser. split.
  - intros Hmode. subst incrementVal. rewrite Hmode. simpl.
    rewrite !Z.add_0_r. split; reflexivity.
  - intros Hmode. subst incrementVal.
    destruct (get_mode body) as [mode|]; [|split; reflexivity].
    destruct (mode =? "edit") eqn:He; [|split; reflexivity].
    apply String.eqb_eq in He. subst mode. contradiction.
Qed.

Lemma get_blog_read_counters_witness :
  (post_reads "notes" (snd (get_blog Sample.edit_draft Sample.store))
   = Some 0%Z
   /\ user_reads 1 (snd (get_blog Sample.edit_draft Sample.store))
      = Some 0%Z)
  /\ (post_reads "notes" (snd (get_blog Sample.preview_draft Sample.store))
      = Some 1%Z
      /\ user_reads 1 (snd (get_blog Sample.preview_draft Sample.store))
         = Some 1%Z).
Proof.
  assert (Huniq : unique_usernames Sample.store).
  { unfold unique_usernames. simpl.
    constructor; [intros [H|[]]; discriminate H|].
    constructor; [intros []|constructor]. }
  split.
  - apply (get_blog_read_counters Sample.edit_draft (s := Sample.store)
             (b := Sample.mk_post 11 "notes" 1 true 0 0 0 2000)
             (u := Sample.shik) eq_refl eq_refl Huniq).
    reflexivity.
  - apply (get_blog_read_counters Sample.preview_draft (s := Sample.store)
             (b := Sample.mk_post 11 "notes" 1 true 0 0 0 2000)
             (u := Sample.shik) eq_refl eq_refl Huniq).
    discriminate.
Defined.

(** ** [/like-blog] *)

Lemma liked_by_user_count (user_id _id : ObjectId) (s : Store) :
  liked_by_user user_id _id s
  = negb (Nat.eqb (like_notifications user_id _id s) 0).
Proof.
  unfold liked_by_user, isliked_by_user, like_notifications. simpl.
  rewrite <- exists_filter. unfold Db.exists_.
  destruct (Db.findOne _ _); reflexivity.
Qed.

Lemma is_like_of_new (user_id _id for_ nid : ObjectId) :
  is_like_of user_id _id
    {| notification_id := nid; type := like; blog := _id;
       notification_for := for_; user := user_id;
       notification_comment := None |} = true.
Proof. unfold is_like_of. simpl. now rewrite !N.eqb_refl. Qed.

(** One toggle on a stored post: the like counter and the number of like
    notifications move together. *)
Lemma like_toggle_step
    (user_id : ObjectId) (env : Env) (_id : ObjectId) (s : Store) (b : Blog) :
  post_by_id _id s = Some b ->
  let s1 := like_toggle user_id env _id s in
  let n := like_notifications user_id _id s in
  post_by_id _id s1
  = Some (inc_total_likes (if Nat.eqb n 0 then 1 else -1) b)
  /\ like_notifications user_id _id s1
     = (if Nat.eqb n 0 then 1 else pred n)%nat.
Proof.
  intros Hb s1 n. subst s1. unfold like_toggle, like_blog.
  rewrite liked_by_user_count. fold n. simpl like__id. simpl islikedByUser.
  unfold Db.findOneAndUpdate, Db.findOneAndDelete.
  unfold post_by_id in Hb. rewrite Hb.
  rewrite negb_involutive.
  destruct (Nat.eqb n 0) eqn:Hn; simpl.
  - split.
    + unfold post_by_id. simpl.
      rewrite findOne_update_first_same by reflexivity.
      rewrite Hb. reflexivity.
    + unfold like_notifications, Db.save. simpl.
      rewrite filter_app, length_app. simpl.
      rewrite is_like_of_new. simpl.
      apply Nat.eqb_eq in Hn. unfold n, like_notifications in Hn.
      rewrite Hn. reflexivity.
  - split.
    + unfold post_by_id. simpl.
      rewrite findOne_update_first_same by reflexivity.
      rewrite Hb. reflexivity.
    + unfold like_notifications. simpl.
      apply filter_delete_first.
Qed.

Lemma two_toggles_likes
    (user_id : ObjectId) (env env' : Env) (_id : ObjectId) (s : Store)
    (b : Blog) :
  post_by_id _id s = Some b ->
  post_likes _id (like_toggle user_id env' _id (like_toggle user_id env _id s))
  = Some (total_likes (activity b)
          + (if (like_notifications user_id _id s <=? 1)%nat then 0 else -2))%Z.
Proof.
  intros Hb.
  destruct (like_toggle_step user_id env _id s Hb) as [Hb1 Hn1].
  destruct (like_toggle_step user_id env' _id _ Hb1) as [Hb2 _].
  unfold post_likes. rewrite Hb2, Hn1. clear Hb1 Hn1 Hb2.
  destruct (like_notifications user_id _id s) as [|[|n]]; simpl;
    f_equal; lia.
Qed.

(** A like request and then the request with the flag the first answer
    carries: the counter of a stored post is back where it was, whatever
    the store holds. *)
Lemma like_blog_then_unlike
    (user_id : ObjectId) (env env' : Env) (_id : ObjectId) (flag : bool)
    (s : Store) (b : Blog) :
  post_by_id _id s = Some b ->
  post_likes _id
    (snd (like_blog user_id env'
            {| like__id := _id; islikedByUser := negb flag |}
            (snd (like_blog user_id env
                    {| like__id := _id; islikedByUser := flag |} s))))
  = post_likes _id s.
Proof.
  intros Hb. unfold post_likes, post_by_id in *.
  assert (Hstep : forall e f t v,
             Db.findOne (Db.holds (Db.IdIs _id)) (posts t) = Some v ->
             Db.findOne (Db.holds (Db.IdIs _id))
               (posts (snd (like_blog user_id e
                              {| like__id := _id; islikedByUser := f |} t)))
             = Some (inc_total_likes (if negb f then 1 else -1) v)).
  { intros e f t v Hv. unfold like_blog, Db.findOneAndUpdate,
      Db.findOneAndDelete. simpl like__id. simpl islikedByUser.
    rewrite Hv. destruct f; simpl;
      rewrite findOne_update_first_same by reflexivity;
      rewrite Hv; reflexivity. }
  rewrite (Hstep env' (negb flag) _ _ (Hstep env flag s b Hb)), Hb.
  simpl. f_equal. destruct flag; simpl; lia.
Qed.

(** C2, as stated, fails: after the same like request has been sent
    twice, two toggles lower the like counter by 2. *)
Lemma like_toggle_twice_counterexample :
  post_likes 10 Sample.liked_twice = Some 4%Z
  /\ post_likes 10
       (like_toggle 2 (Sample.env_at 203) 10
          (like_toggle 2 (Sample.env_at 202) 10 Sample.liked_twice))
     = Some 2%Z
  /\ post_likes 10
       (like_toggle 2 (Sample.env_at 203) 10
          (like_toggle 2 (Sample.env_at 202) 10 Sample.liked_twice))
     <> post_likes 10 Sample.liked_twice.
Proof. split; [reflexivity|]. split; [reflexivity|]. discriminate. Qed.

(** C2, amended: on a stored post for which the store holds at most one
    like notification of the user, two toggles in succession leave
    [total_likes] as it was. *)
Theorem like_toggle_twice
    (user_id : ObjectId) (env env' : Env) (_id : ObjectId) (s : Store)
    (b : Blog) :
  post_by_id _id s = Some b ->
  (like_notifications user_id _id s <= 1)%nat ->
  post_likes _id (like_toggle user_id env' _id (like_toggle user_id env _id s))
  = post_likes _id s.
Proof.
  intros Hb Hn. rewrite (two_toggles_likes user_id env env' _id s Hb).
  apply Nat.leb_le in Hn. rewrite Hn. unfold post_likes. rewrite Hb. simpl.
  now rewrite Z.add_0_r.
Qed.

Lemma like_toggle_twice_witness :
  post_likes 10
    (like_toggle 2 (Sample.env_at 201) 10
       (like_toggle 2 (Sample.env_at 200) 10 Sample.store))
  = post_likes 10 Sample.store.
Proof.
  apply (like_toggle_twice 2 (Sample.env_at 200) (Sample.env_at 201) 10
           Sample.store
           (b := Sample.mk_post 10 "first-post" 1 false 7 2 3 1000)).
  - reflexivity.
  - unfold like_notifications. simpl. lia.
Defined.

(** With two like notifications or more, two toggles lose two likes. *)
Lemma two_toggles_with_duplicates
    (user_id : ObjectId) (env env' : Env) (_id : ObjectId) (s : Store)
    (b : Blog) :
  post_by_id _id s = Some b ->
  (2 <= like_notifications user_id _id s)%nat ->
  post_likes _id (like_toggle user_id env' _id (like_toggle user_id env _id s))
  = Some (total_likes (activity b) - 2)%Z.
Proof.
  intros Hb Hn. rewrite (two_toggles_likes user_id env env' _id s Hb).
  destruct (like_notifications user_id _id s <=? 1)%nat eqn:Hle.
  - apply Nat.leb_le in Hle. lia.
  - f_equal.
Qed.

(** ** [/trending-blogs] *)

Lemma In_firstn (A : Type) (n : nat) (l : list A) (x : A) :
  In x (firstn n l) -> In x l.
Proof.
  intros H. rewrite <- (firstn_skipn n l). apply in_or_app. now left.
Qed.

Section MapLemmas.

Variable Doc : Type.
Variable g : Doc -> Doc.

Lemma insert_sorted_map (before : Doc -> Doc -> bool) (d : Doc)
    (l : list Doc) :
  (forall a b, before (g a) (g b) = before a b) ->
  Db.insert_sorted before (g d) (map g l)
  = map g (Db.insert_sorted before d l).
Proof.
  intros Hg. induction l as [|x rest IH]; simpl; [reflexivity|].
  rewrite Hg. destruct (before d x); simpl; [reflexivity|].
  now rewrite IH.
Qed.

Lemma sort_by_map (before : Doc -> Doc -> bool) (l : list Doc) :
  (forall a b, before (g a) (g b) = before a b) ->
  Db.sort_by before (map g l) = map g (Db.sort_by before l).
Proof.
  intros Hg. induction l as [|x rest IH]; simpl; [reflexivity|].
  rewrite IH. now apply insert_sorted_map.
Qed.

Lemma filter_map_same (p : Doc -> bool) (l : list Doc) :
  (forall a, p (g a) = p a) ->
  List.filter p (map g l) = map g (List.filter p l).
Proof.
  intros Hg. induction l as [|x rest IH]; simpl; [reflexivity|].
  rewrite Hg. destruct (p x); simpl; now rewrite IH.
Qed.

End MapLemmas.

(** C8, on the code: of two published posts, the one that was never read
    comes first, for it has more likes; the first sort key names a path
    no post has. *)
Theorem trending_blogs_ignores_reads :
  total_reads (activity Sample.much_read)
  = 10%Z
  /\ total_reads (activity Sample.much_liked) = 0%Z
  /\ Db.blog_path "activity.total_read" Sample.much_read = Db.VNull
  /\ fst (trending_blogs Sample.trending_store)
     = Sent 200
         (Blogs
            (map (Db.select_blog listing_author
                    "blog_id title publishedAt -_id"
                    (users Sample.trending_store))
               [Sample.much_liked; Sample.much_read])).
Proof. repeat split. Qed.

(** The listing does not depend on the read counters at all. *)
Lemma trending_blogs_same_for_all_reads (reads : Blog -> Z) (s : Store) :
  fst (trending_blogs (with_reads reads s)) = fst (trending_blogs s).
Proof.
  unfold trending_blogs, with_reads, with_posts. cbn [fst posts users].
  unfold Db.sort, Db.find.
  rewrite filter_map_same by reflexivity.
  rewrite sort_by_map by reflexivity.
  unfold Db.limit. rewrite firstn_map, map_map.
  reflexivity.
Qed.

(** The listing has at most five posts, none of them a draft. *)
Lemma trending_blogs_five_published (s : Store) :
  exists listed,
    fst (trending_blogs s)
    = Sent 200
        (Blogs (map (Db.select_blog listing_author
                       "blog_id title publishedAt -_id" (users s)) listed))
    /\ (List.length listed <= 5)%nat
    /\ (forall b, In b listed -> In b (posts s) /\ draft b = false).
Proof.
  eexists. split; [reflexivity|]. split.
  - unfold Db.limit. rewrite length_firstn. lia.
  - intros b Hb. unfold Db.limit in Hb. apply In_firstn in Hb.
    unfold Db.sort in Hb.
    apply (Permutation_in _ (sort_by_perm _ _)) in Hb.
    simpl in Hb. apply filter_In in Hb. destruct Hb as [Hin Hd].
    split; [exact Hin|].
    unfold Db.matches in Hd. simpl in Hd. rewrite andb_true_r in Hd.
    destruct (draft b); [discriminate|reflexivity].
Qed.

Section SortedLemmas.

Variable Doc : Type.
Variable before : Doc -> Doc -> bool.
Hypothesis before_total : forall a b, before a b = false -> before b a = true.

Lemma insert_sorted_hd (d x : Doc) (l : list Doc) :
  before x d = true -> HdRel (fun a b => before a b = true) x l ->
  HdRel (fun a b => before a b = true) x (Db.insert_sorted before d l).
Proof.
  intros Hxd Hl. destruct l as [|y rest]; simpl.
  - constructor. exact Hxd.
  - destruct (before d y); constructor; [exact Hxd|].
    inversion Hl; assumption.
Qed.

Lemma insert_sorted_sorted (d : Doc) (l : list Doc) :
  Sorted (fun a b => before a b = true) l -> Sorted (fun a b => before a b = true) (Db.insert_sorted before d l).
Proof.
  induction l as [|x rest IH]; simpl; intros Hl.
  - repeat constructor.
  - destruct (before d x) eqn:Hdx.
    + constructor; [exact Hl | constructor; exact Hdx].
    + inversion Hl as [|? ? Hrest Hhd]; subst.
      constructor; [exact (IH Hrest)|].
      apply insert_sorted_hd; [exact (before_total Hdx) | exact Hhd].
Qed.

Lemma sort_by_sorted (l : list Doc) : Sorted (fun a b => before a b = true) (Db.sort_by before l).
Proof.
  induction l as [|x rest IH]; simpl; [constructor|].
  apply insert_sorted_sorted. exact IH.
Qed.

Lemma firstn_sorted (n : nat) (l : list Doc) :
  Sorted (fun a b => before a b = true) l -> Sorted (fun a b => before a b = true) (firstn n l).
Proof.
  revert l. induction n as [|n IH]; intros l Hl; simpl; [constructor|].
  destruct l as [|x rest]; [constructor|].
  inversion Hl as [|? ? Hrest Hhd]; subst.
  constructor; [exact (IH rest Hrest)|].
  destruct n; simpl; [constructor|].
  destruct rest as [|y rest']; constructor. inversion Hhd; assumption.
Qed.

End SortedLemmas.

Lemma compare_value_antisym (v w : Db.Value) :
  Db.compare_value w v = CompOpp (Db.compare_value v w).
Proof.
  destruct v, w; simpl; try reflexivity.
  - apply Z.compare_antisym.
  - apply String.compare_antisym.
  - apply N.compare_antisym.
  - destruct b, b0; reflexivity.
  - apply Z.compare_antisym.
Qed.

Lemma compare_by_antisym (keys : list (string * Db.Direction)) (a b : Blog) :
  Db.compare_by keys b a = CompOpp (Db.compare_by keys a b).
Proof.
  induction keys as [|[path dir] more IH]; simpl; [reflexivity|].
  rewrite (compare_value_antisym (Db.blog_path path a) (Db.blog_path path b)).
  destruct (Db.compare_value (Db.blog_path path a) (Db.blog_path path b)),
    dir; simpl; auto.
Qed.

Lemma before_total (keys : list (string * Db.Direction)) (a b : Blog) :
  Db.before keys a b = false -> Db.before keys b a = true.
Proof.
  unfold Db.before. rewrite (compare_by_antisym keys a b).
  destruct (Db.compare_by keys a b); simpl; congruence.
Qed.

(** The order of the listing: likes, most first; among posts with the
    same likes, the latest first. *)
Lemma trending_blogs_order (s : Store) :
  exists listed,
    fst (trending_blogs s)
    = Sent 200
        (Blogs (map (Db.select_blog listing_author
                       "blog_id title publishedAt -_id" (users s)) listed))
    /\ Sorted
         (fun a b =>
            Db.before [("activity.total_likes", Db.Descending);
                       ("publishedAt", Db.Descending)] a b = true)
         listed.
Proof.
  eexists. split; [reflexivity|].
  unfold Db.limit. apply firstn_sorted. unfold Db.sort.
  apply (sort_by_sorted
           (Db.before [("activity.total_read", Db.Descending);
                       ("activity.total_likes", Db.Descending);
                       ("publishedAt", Db.Descending)])).
  apply before_total.
Qed.

(** ** [generateUsername] and [/signup] *)

(** A local part nobody holds is the username, and it is unique. *)
Lemma generateUsername_free (us : list User) (nid email : string) :
  let name := hd EmptyString (Js.split "@" email) in
  Db.exists_ (username_is name) us = false ->
  generateUsername us nid email = name
  /\ Db.exists_ (username_is (generateUsername us nid email)) us = false.
Proof.
  intros name Hfree. unfold generateUsername. fold name.
  rewrite Hfree. split; [reflexivity | exact Hfree].
Qed.

(** A local part that is taken gets the first five characters of the
    random id, and nothing more is asked of the store. *)
Lemma generateUsername_taken (us : list User) (nid email : string) :
  let name := hd EmptyString (Js.split "@" email) in
  Db.exists_ (username_is name) us = true ->
  generateUsername us nid email = name ++ Js.substring0 5 nid.
Proof.
  intros name Htaken. unfold generateUsername. fold name.
  rewrite Htaken. reflexivity.
Qed.

(** C6, on the code: a valid signup with a new email, in a store where
    shik and shikabcde are taken and the random id starts with abcde:
    the username that comes out is held by another user, and the signup
    is answered with the duplicate-key error. *)
Theorem generateUsername_collision :
  let us := users Sample.crowded in
  let body := Sample.newcomer in
  (Js.length (signup_fullname body) <? 3)%Z = false
  /\ test emailRegex (signup_email body) = true
  /\ test passwordRegex (signup_password body) = true
  /\ Db.exists_ (email_is (signup_email body)) us = false
  /\ is_nanoid (nanoid Sample.env) = true
  /\ generateUsername us (nanoid Sample.env) (signup_email body) = "shikabcde"
  /\ Db.exists_ (username_is "shikabcde") us = true
  /\ signup Sample.sign Sample.env body Sample.crowded
     = (Sent 500 (Error "Email already exists"), Sample.crowded).
Proof. cbv zeta. repeat split; vm_compute; reflexivity. Qed.

(** The same signup in the sample store, where only shik is taken. *)
Example signup_suffix :
  fst (signup Sample.sign Sample.env Sample.newcomer Sample.store)
  = Sent 200 (Session "signed" "avatar.svg" "shikabcde" "Shik Two").
Proof. vm_compute. reflexivity. Qed.

(** * Further properties *)

(** ** Strings *)

Lemma append_empty_r (s : string) : s ++ EmptyString = s.
Proof. induction s as [|c s IH]; simpl; [reflexivity | now rewrite IH]. Qed.

Lemma append_assoc (s t u : string) : (s ++ t) ++ u = s ++ (t ++ u).
Proof. induction s as [|c s IH]; simpl; [reflexivity | now rewrite IH]. Qed.

Lemma length_append (s t : string) :
  String.length (s ++ t) = (String.length s + String.length t)%nat.
Proof. induction s as [|c s IH]; simpl; [reflexivity | now rewrite IH]. Qed.

Lemma append_is_empty (s t : string) :
  s ++ t = EmptyString -> s = EmptyString /\ t = EmptyString.
Proof. destruct s; simpl; [auto | discriminate]. Qed.

Lemma every_append (p : ascii -> bool) (s t : string) :
  every p (s ++ t) = every p s && every p t.
Proof.
  induction s as [|c s IH]; simpl; [reflexivity|].
  now rewrite IH, andb_assoc.
Qed.

Lemma some_append (p : ascii -> bool) (s t : string) :
  some p (s ++ t) = some p s || some p t.
Proof.
  induction s as [|c s IH]; simpl; [reflexivity|].
  now rewrite IH, orb_assoc.
Qed.

Lemma every_weaken (p q : ascii -> bool) (s : string) :
  (forall c, p c = true -> q c = true) -> every p s = true -> every q s = true.
Proof.
  intros Hpq. induction s as [|c s IH]; simpl; [reflexivity|].
  intros H. apply andb_true_iff in H. destruct H as [Hc Hs].
  now rewrite (Hpq c Hc), (IH Hs).
Qed.

(** A string with a character of the class splits at the first one. *)
Lemma some_split (p : ascii -> bool) (s : string) :
  some p s = true ->
  exists s1 c s2, s = s1 ++ String c s2 /\ p c = true.
Proof.
  induction s as [|a s IH]; simpl; [discriminate|].
  destruct (p a) eqn:Ha; simpl.
  - intros _. exists EmptyString, a, s. auto.
  - intros H. destruct (IH H) as [s1 [c [s2 [-> Hc]]]].
    exists (String a s1), c, s2. auto.
Qed.

(** ** The matcher decides the language of the pattern *)

Lemma nullable_lang (r : regex) : nullable r = true <-> lang r EmptyString.
Proof.
  induction r as [| |p|r1 IH1 r2 IH2|r1 IH1 r2 IH2|r1 IH1 r2 IH2|r IH]; simpl.
  - split; [discriminate | contradiction].
  - split; reflexivity.
  - split; [discriminate | intros [c [_ H]]; discriminate].
  - rewrite andb_true_iff, IH1, IH2. split.
    + intros [H1 H2]. exists EmptyString, EmptyString. auto.
    + intros [s1 [s2 [Hs [H1 H2]]]]. symmetry in Hs.
      apply append_is_empty in Hs. destruct Hs as [-> ->]. auto.
  - rewrite orb_true_iff, IH1, IH2. reflexivity.
  - rewrite andb_true_iff, IH1, IH2. reflexivity.
  - split; [intros _; constructor | reflexivity].
Qed.

Lemma lang_seq (r1 r2 : regex) (s : string) :
  lang (seq r1 r2) s <-> lang (Seq r1 r2) s.
Proof.
  assert (Hvoid_l : forall r, lang (Seq Void r) s <-> False).
  { intros r. simpl. split; [intros [? [? [_ [[] _]]]] | contradiction]. }
  assert (Hvoid_r : forall r, lang (Seq r Void) s <-> False).
  { intros r. simpl. split; [intros [? [? [_ [_ []]]]] | contradiction]. }
  assert (Heps_l : forall r, lang r s <-> lang (Seq Eps r) s).
  { intros r. simpl. split.
    - intros H. exists EmptyString, s. auto.
    - intros [s1 [s2 [-> [-> H]]]]. exact H. }
  assert (Heps_r : forall r, lang r s <-> lang (Seq r Eps) s).
  { intros r. simpl. split.
    - intros H. exists s, EmptyString. now rewrite append_empty_r.
    - intros [s1 [s2 [-> [H ->]]]]. now rewrite append_empty_r. }
  destruct r1, r2; unfold seq;
    first [ reflexivity
          | now rewrite Hvoid_l
          | now rewrite Hvoid_r
          | apply Heps_l
          | apply Heps_r ].
Qed.

Lemma lang_alt (r1 r2 : regex) (s : string) :
  lang (alt r1 r2) s <-> lang (Alt r1 r2) s.
Proof.
  destruct r1, r2; unfold alt; simpl; tauto.
Qed.

Lemma lang_and (r1 r2 : regex) (s : string) :
  lang (and r1 r2) s <-> lang (And r1 r2) s.
Proof.
  destruct r1, r2; unfold and; simpl; tauto.
Qed.

(** A non-empty string in a starred language starts with a non-empty
    piece of the language. *)
Lemma in_star_cons (L : string -> Prop) (c : ascii) (s : string) :
  in_star L (String c s) ->
  exists s1 s2, s = s1 ++ s2 /\ L (String c s1) /\ in_star L s2.
Proof.
  intros H. remember (String c s) as w eqn:Hw.
  induction H as [|u t Hu Ht IH]; [discriminate|].
  destruct u as [|a u]; simpl in Hw.
  - exact (IH Hw).
  - injection Hw as -> <-. exists u, t. auto.
Qed.

Lemma deriv_lang (c : ascii) (r : regex) (s : string) :
  lang (deriv c r) s <-> lang r (String c s).
Proof.
  revert s.
  induction r as [| |p|r1 IH1 r2 IH2|r1 IH1 r2 IH2|r1 IH1 r2 IH2|r IH];
    intros s; simpl deriv.
  - simpl. tauto.
  - simpl. split; [contradiction | discriminate].
  - destruct (p c) eqn:Hp; simpl.
    + split.
      * intros ->. exists c. auto.
      * intros [a [_ H]]. injection H as _ ->. reflexivity.
    + split; [contradiction|].
      intros [a [Ha H]]. injection H as -> _. congruence.
  - assert (Hleft : lang (seq (deriv c r1) r2) s ->
                    lang (Seq r1 r2) (String c s)).
    { rewrite lang_seq. simpl. intros [s1 [s2 [-> [H1 H2]]]].
      exists (String c s1), s2. rewrite <- IH1. auto. }
    assert (Hsplit : lang (Seq r1 r2) (String c s) ->
                     (exists s1 s2, s = s1 ++ s2 /\ lang r1 (String c s1)
                                    /\ lang r2 s2)
                     \/ (lang r1 EmptyString /\ lang r2 (String c s))).
    { simpl. intros [s1 [s2 [Hs [H1 H2]]]]. destruct s1 as [|a s1].
      - right. simpl in Hs. subst s2. auto.
      - left. simpl in Hs. injection Hs as <- ->. exists s1, s2. auto. }
    destruct (nullable r1) eqn:Hn.
    + rewrite lang_alt. split.
      * intros [H|H]; [exact (Hleft H)|].
        exists EmptyString, (String c s). rewrite <- nullable_lang, <- IH2.
        auto.
      * intros H. destruct (Hsplit H) as [[s1 [s2 [-> [H1 H2]]]]|[_ H2]].
        -- left. rewrite lang_seq. exists s1, s2. rewrite IH1. auto.
        -- right. rewrite IH2. exact H2.
    + split; [exact Hleft|].
      intros H. destruct (Hsplit H) as [[s1 [s2 [-> [H1 H2]]]]|[H1 _]].
      * rewrite lang_seq. exists s1, s2. rewrite IH1. auto.
      * apply nullable_lang in H1. congruence.
  - rewrite lang_alt. simpl. rewrite IH1, IH2. reflexivity.
  - rewrite lang_and. simpl. rewrite IH1, IH2. reflexivity.
  - rewrite lang_seq. simpl. split.
    + intros [s1 [s2 [-> [H1 H2]]]].
      apply (@in_star_more (lang r) (String c s1) s2); [|exact H2].
      apply IH. exact H1.
    + intros H. apply in_star_cons in H.
      destruct H as [s1 [s2 [-> [H1 H2]]]].
      exists s1, s2. rewrite IH. auto.
Qed.

Lemma test_lang (r : regex) (s : string) : test r s = true <-> lang r s.
Proof.
  revert r. induction s as [|c s IH]; intros r; simpl.
  - apply nullable_lang.
  - rewrite IH. apply deriv_lang.
Qed.

(** ** [passwordRegex] *)

Lemma lang_star_class (p : ascii -> bool) (s : string) :
  lang (Star (Class p)) s <-> every p s = true.
Proof.
  simpl. split.
  - intros H. induction H as [|u t [c [Hc ->]] _ IH]; [reflexivity|].
    simpl. now rewrite Hc, IH.
  - induction s as [|c s IH]; simpl; [constructor|].
    intros H. apply andb_true_iff in H. destruct H as [Hc Hs].
    apply (@in_star_more (lang (Class p)) (String c EmptyString) s).
    + exists c. auto.
    + exact (IH Hs).
Qed.

Lemma lang_exactly_class (n : nat) (p : ascii -> bool) (s : string) :
  lang (exactly n (Class p)) s <-> String.length s = n /\ every p s = true.
Proof.
  revert s. induction n as [|n IH]; intros s; simpl.
  - split.
    + intros ->. auto.
    + intros [H _]. destruct s; [reflexivity | discriminate].
  - split.
    + intros [s1 [s2 [-> [[c [Hc ->]] H2]]]]. apply IH in H2.
      destruct H2 as [<- He]. simpl. now rewrite Hc, He.
    + destruct s as [|c s]; simpl; [intros [H _]; discriminate|].
      intros [Hlen H]. apply andb_true_iff in H. destruct H as [Hc Hs].
      exists (String c EmptyString), s. split; [reflexivity|].
      split; [exists c; auto|]. apply IH. split; [congruence | exact Hs].
Qed.

Lemma lang_at_most_class (k : nat) (p : ascii -> bool) (s : string) :
  lang (at_most k (Class p)) s
  <-> (String.length s <= k)%nat /\ every p s = true.
Proof.
  revert s. induction k as [|k IH]; intros s; simpl.
  - split.
    + intros ->. auto.
    + intros [H _]. destruct s; [reflexivity | simpl in H; lia].
  - split.
    + intros [->|[s1 [s2 [-> [[c [Hc ->]] H2]]]]].
      * simpl. split; [lia | reflexivity].
      * apply IH in H2. destruct H2 as [Hlen He]. simpl.
        rewrite Hc, He. split; [lia | reflexivity].
    + destruct s as [|c s]; simpl; [auto|].
      intros [Hlen H]. apply andb_true_iff in H. destruct H as [Hc Hs].
      right. exists (String c EmptyString), s. split; [reflexivity|].
      split; [exists c; auto|]. apply IH. split; [lia | exact Hs].
Qed.

Lemma lang_repeat_class (n k : nat) (p : ascii -> bool) (s : string) :
  lang (Regex.repeat n k (Class p)) s
  <-> (n <= String.length s <= n + k)%nat /\ every p s = true.
Proof.
  unfold Regex.repeat. revert s. induction n as [|n IH]; intros s.
  - split.
    + intros [s1 [s2 [-> [H1 H2]]]]. simpl in H1. subst s1. simpl.
      apply lang_at_most_class in H2. intuition lia.
    + intros [Hlen He]. exists EmptyString, s. split; [reflexivity|].
      split; [reflexivity|]. apply lang_at_most_class.
      split; [lia | exact He].
  - split.
    + intros [s1 [s2 [-> [H1 H2]]]].
      apply lang_exactly_class in H1. apply lang_at_most_class in H2.
      destruct H1 as [Hl1 He1], H2 as [Hl2 He2].
      rewrite length_append, every_append, He1, He2. split; [lia | reflexivity].
    + destruct s as [|c s]; simpl String.length; [intros [H _]; lia|].
      intros [Hlen H]. simpl in H. apply andb_true_iff in H.
      destruct H as [Hc Hs].
      assert (Hrest : lang (Seq (exactly n (Class p)) (at_most k (Class p))) s).
      { apply IH. split; [lia | exact Hs]. }
      destruct Hrest as [s1 [s2 [-> [H1 H2]]]].
      exists (String c s1), s2. split; [reflexivity|]. split; [|exact H2].
      simpl. exists (String c EmptyString), s1. split; [reflexivity|].
      split; [exists c; auto | exact H1].
Qed.

Lemma lang_star_any (s : string) : lang (Star any) s.
Proof. apply lang_star_class. induction s; simpl; auto. Qed.

(** A look-ahead [(?=.*q)] on a string without line terminators asks
    for a character of the class [q]. *)
Lemma lang_lookahead_class (q : ascii -> bool) (s : string) :
  every (fun c => negb (Js.is_line_terminator c)) s = true ->
  (lang (Seq (Seq (Star dot) (Class q)) (Star any)) s <-> some q s = true).
Proof.
  intros Hdot. split.
  - intros [s1 [s2 [-> [[u [v [-> [_ [c [Hc ->]]]]]] _]]]].
    rewrite !some_append. simpl. rewrite Hc.
    now rewrite orb_true_r.
  - intros H. apply some_split in H. destruct H as [s1 [c [s2 [-> Hc]]]].
    exists (s1 ++ String c EmptyString), s2.
    split; [now rewrite append_assoc|]. split; [|apply lang_star_any].
    exists s1, (String c EmptyString). split; [reflexivity|].
    split; [|exists c; auto].
    apply lang_star_class. rewrite every_append in Hdot.
    apply andb_true_iff in Hdot. tauto.
Qed.

(** X1: the pattern of [/signup] accepts exactly the passwords of 6 to
    20 characters, none of them a line terminator, with a digit, a
    lower-case letter and an upper-case letter. *)
Theorem passwordRegex_rule (p : string) :
  test passwordRegex p = strong_password p.
Proof.
  apply eq_true_iff_eq. rewrite test_lang. unfold strong_password.
  rewrite !andb_true_iff, Nat.leb_le, Nat.leb_le.
  change (lang passwordRegex p)
    with (lang (Seq (Seq (Star dot) (Class Js.is_digit)) (Star any)) p
          /\ lang (Seq (Seq (Star dot) (Class Js.is_lower)) (Star any)) p
          /\ lang (Seq (Seq (Star dot) (Class Js.is_upper)) (Star any)) p
          /\ lang (Regex.repeat 6 14
                     (Class (fun c => negb (Js.is_line_terminator c)))) p).
  rewrite lang_repeat_class.
  split.
  - intros [H1 [H2 [H3 [Hlen Hdot]]]].
    apply (lang_lookahead_class _ _ Hdot) in H1.
    apply (lang_lookahead_class _ _ Hdot) in H2.
    apply (lang_lookahead_class _ _ Hdot) in H3.
    repeat split; auto; lia.
  - intros [[[[[Hlo Hhi] Hdot] H1] H2] H3].
    apply (lang_lookahead_class _ _ Hdot) in H1.
    apply (lang_lookahead_class _ _ Hdot) in H2.
    apply (lang_lookahead_class _ _ Hdot) in H3.
    repeat split; auto; lia.
Qed.

(** ** [emailRegex] and [generateUsername] *)

Lemma lang_over (P : ascii -> bool) (r : regex) (s : string) :
  over P r -> lang r s -> every P s = true.
Proof.
  revert s.
  induction r as [| |p|r1 IH1 r2 IH2|r1 IH1 r2 IH2|r1 IH1 r2 IH2|r IH];
    intros s Hover; simpl.
  - contradiction.
  - intros ->. reflexivity.
  - intros [c [Hc ->]]. simpl. now rewrite (Hover c Hc).
  - destruct Hover as [H1 H2]. intros [s1 [s2 [-> [L1 L2]]]].
    now rewrite every_append, (IH1 _ H1 L1), (IH2 _ H2 L2).
  - destruct Hover as [H1 H2]. intros [L|L]; auto.
  - destruct Hover as [H1 _]. intros [L _]. auto.
  - intros L. induction L as [|u t Hu _ IHt]; [reflexivity|].
    now rewrite every_append, (IH _ Hover Hu), IHt.
Qed.

Lemma lang_plus_not_empty (p : ascii -> bool) (r : regex) (s : string) :
  lang (Seq (plus (Class p)) r) s -> s <> EmptyString.
Proof.
  intros [s1 [s2 [-> [[u [v [-> [[c [_ ->]] _]]]] _]]]]. discriminate.
Qed.

Lemma local_char_not_at (c : ascii) :
  is_local_char c = true -> Ascii.eqb c "@" = false.
Proof.
  intros H. destruct (Ascii.eqb_spec c "@") as [->|]; [|reflexivity].
  discriminate H.
Qed.

Lemma split_at_local (l d : string) :
  every is_local_char l = true ->
  Js.split "@" (l ++ String "@" d) = l :: Js.split "@" d.
Proof.
  induction l as [|c l IH]; simpl; [reflexivity|].
  intros H. apply andb_true_iff in H. destruct H as [Hc Hl].
  now rewrite (local_char_not_at c Hc), (IH Hl).
Qed.

Lemma split_without_at (d : string) :
  every is_local_char d = true -> Js.split "@" d = [d].
Proof.
  induction d as [|c d IH]; simpl; [reflexivity|].
  intros H. apply andb_true_iff in H. destruct H as [Hc Hd].
  now rewrite (local_char_not_at c Hc), (IH Hd).
Qed.

Lemma every_forallb (p : ascii -> bool) (s : string) :
  forallb p (list_ascii_of_string s) = every p s.
Proof. induction s as [|c s IH]; simpl; [reflexivity | now rewrite IH]. Qed.

Lemma every_substring0 (p : ascii -> bool) (n : nat) (s : string) :
  every p s = true -> every p (Js.substring0 n s) = true.
Proof.
  revert s. induction n as [|n IH]; intros [|c s]; simpl; auto.
  intros H. apply andb_true_iff in H. destruct H as [Hc Hs].
  now rewrite Hc, (IH s Hs).
Qed.

(** What the pattern of [/signup] leaves of an email: one [@] between a
    non-empty local part and a domain, both of letters, digits,
    underscores, dots and dashes. *)
Lemma emailRegex_parts (e : string) :
  test emailRegex e = true ->
  exists local domain,
    e = local ++ String "@" domain
    /\ local <> EmptyString
    /\ every is_local_char local = true
    /\ every is_local_char domain = true.
Proof.
  intros H. apply test_lang in H. unfold emailRegex in H.
  cbv zeta in H.
  destruct H as [l [rest [-> [Hl [at_ [d [-> [[c [Hc ->]] Hd]]]]]]]].
  apply Ascii.eqb_eq in Hc. subst c.
  exists l, d. split; [reflexivity|]. split.
  - exact (lang_plus_not_empty Hl).
  - assert (Hword : forall c, Js.is_word c = true -> is_local_char c = true).
    { intros c Hc. unfold is_local_char. now rewrite Hc. }
    assert (Hdd : forall c, Ascii.eqb c "." || Ascii.eqb c "-" = true ->
                            is_local_char c = true).
    { intros c Hc. unfold is_local_char. rewrite <- orb_assoc, Hc.
      apply orb_true_r. }
    assert (Hdot : forall c, Ascii.eqb "." c = true -> is_local_char c = true).
    { intros c Hc. apply Ascii.eqb_eq in Hc. subst c. reflexivity. }
    split.
    + refine (@lang_over is_local_char _ l _ Hl).
      simpl. repeat split; auto.
    + refine (@lang_over is_local_char _ d _ Hd).
      simpl. repeat split; auto.
Qed.

(** X2: for an email the pattern of [/signup] accepts, the username is
    not empty, is made of letters, digits, underscores, dots and dashes
    only, and is the part of the email before its only [@], with the
    first five characters of the random id appended when that part is
    taken. *)
Theorem generateUsername_of_valid_email
    (us : list User) (nid e : string) :
  test emailRegex e = true ->
  is_nanoid nid = true ->
  exists local domain,
    e = local ++ String "@" domain
    /\ Js.split "@" e = [local; domain]
    /\ generateUsername us nid e
       = (if Db.exists_ (username_is local) us
          then local ++ Js.substring0 5 nid else local)
    /\ generateUsername us nid e <> EmptyString
    /\ every is_local_char (generateUsername us nid e) = true.
Proof.
  intros He Hnid. destruct (emailRegex_parts e He) as [l [d [-> [Hne [Hl Hd]]]]].
  exists l, d. split; [reflexivity|].
  assert (Hsplit : Js.split "@" (l ++ String "@" d) = [l; d]).
  { now rewrite (split_at_local l d Hl), (split_without_at d Hd). }
  split; [exact Hsplit|].
  unfold generateUsername. rewrite Hsplit. simpl hd.
  split; [reflexivity|].
  unfold is_nanoid in Hnid. apply andb_true_iff in Hnid.
  destruct Hnid as [_ Hchars]. rewrite every_forallb in Hchars.
  assert (Hsuffix : every is_local_char (Js.substring0 5 nid) = true).
  { apply every_substring0.
    apply (every_weaken (fun c => Js.is_word c || Ascii.eqb c "-")); [|exact Hchars].
    intros c Hc. unfold is_local_char.
    apply orb_true_iff in Hc. destruct Hc as [Hc|Hc]; rewrite Hc;
      [reflexivity | apply orb_true_r]. }
  destruct (Db.exists_ (username_is l) us).
  - split.
    + destruct l; [contradiction | discriminate].
    + now rewrite every_append, Hl, Hsuffix.
  - split; [exact Hne | exact Hl].
Qed.

(** ** [/signup], [/signin] and [/google-auth] together *)

Lemma findOne_app (Doc : Type) (p : Doc -> bool) (l1 l2 : list Doc) :
  Db.findOne p (l1 ++ l2)
  = match Db.findOne p l1 with
    | Some d => Some d
    | None => Db.findOne p l2
    end.
Proof.
  unfold Db.findOne. induction l1 as [|x l1 IH]; simpl; [reflexivity|].
  destruct (p x); [reflexivity | exact IH].
Qed.

Lemma exists_false_findOne (Doc : Type) (p : Doc -> bool) (l : list Doc) :
  Db.exists_ p l = false -> Db.findOne p l = None.
Proof. unfold Db.exists_. destruct (Db.findOne p l); [discriminate | auto]. Qed.

(** What [/signup] does when all its checks pass and the store takes
    the user. *)
Lemma signup_accepted
    (jwt_sign : ObjectId -> string) (env : Env) (body : SignupBody)
    (s : Store) (session : Body) :
  fst (signup jwt_sign env body s) = Sent 200 session ->
  let u :=
    {| user_id := objectId env;
       personal_info :=
         {| fullname := signup_fullname body; email := signup_email body;
            password := Some (hashedPassword env);
            username :=
              generateUsername (users s) (nanoid env) (signup_email body);
            profile_img := avatar env |};
       account_info := {| total_posts := 0; account_total_reads := 0 |};
       google_auth := false; blogs := [] |} in
  (3 <= Js.length (signup_fullname body))%Z
  /\ test emailRegex (signup_email body) = true
  /\ test passwordRegex (signup_password body) = true
  /\ Db.exists_ (email_is (signup_email body)) (users s) = false
  /\ Db.exists_ (username_is (username (personal_info u))) (users s) = false
  /\ session = formatDatatoSend jwt_sign u
  /\ snd (signup jwt_sign env body s) = with_users (users s ++ [u]) s.
Proof.
  unfold signup.
  destruct (Js.length (signup_fullname body) <? 3)%Z eqn:Hname;
    [discriminate|].
  destruct (Js.is_empty (signup_email body)); [discriminate|].
  destruct (test emailRegex (signup_email body)); [|discriminate].
  destruct (test passwordRegex (signup_password body)); [|discriminate].
  simpl negb. cbv iota. unfold save_user. simpl email. simpl username.
  destruct (Db.exists_ (email_is (signup_email body)) (users s));
    [discriminate|].
  destruct (Db.exists_ _ (users s)); [discriminate|].
  simpl. intros H. injection H as <-.
  apply Z.ltb_ge in Hname. repeat split; auto.
Qed.

(** X3: [/signup] either appends one user, and then the full name has
    three characters or more, the email and the password pass their
    patterns, nobody held the email or the username, the user has the
    hashed password and is not a federated account; or it answers 403 or
    500 with a message and leaves the store as it was. *)
Theorem signup_stores_one_valid_user_or_nothing
    (jwt_sign : ObjectId -> string) (env : Env) (body : SignupBody)
    (s : Store) :
  (exists u,
     signup jwt_sign env body s
     = (Sent 200 (formatDatatoSend jwt_sign u), with_users (users s ++ [u]) s)
     /\ (3 <= Js.length (signup_fullname body))%Z
     /\ test emailRegex (signup_email body) = true
     /\ strong_password (signup_password body) = true
     /\ Db.exists_ (email_is (signup_email body)) (users s) = false
     /\ Db.exists_ (username_is (username (personal_info u))) (users s) = false
     /\ fullname (personal_info u) = signup_fullname body
     /\ email (personal_info u) = signup_email body
     /\ password (personal_info u) = Some (hashedPassword env)
     /\ google_auth u = false
     /\ account_info u = {| total_posts := 0; account_total_reads := 0 |})
  \/ (exists status message,
        signup jwt_sign env body s = (Sent status (Error message), s)
        /\ (status = 403 \/ status = 500)%Z).
Proof.
  destruct (fst (signup jwt_sign env body s)) as [status reply|e] eqn:Hfst.
  - destruct (Z.eq_dec status 200) as [->|Hstatus].
    + left. pose proof (signup_accepted jwt_sign env body s Hfst) as H.
      cbv zeta in H.
      destruct H as [Hname [Hemail [Hpw [He [Hu [Hsession Hsnd]]]]]].
      eexists. split.
      * rewrite (surjective_pairing (signup jwt_sign env body s)).
        rewrite Hfst, Hsnd, Hsession. reflexivity.
      * rewrite <- passwordRegex_rule. simpl. repeat split; auto.
    + right. revert Hfst. unfold signup.
      destruct (Js.length (signup_fullname body) <? 3)%Z;
        [intros _; eauto|].
      destruct (Js.is_empty (signup_email body)); [intros _; eauto|].
      destruct (negb (test emailRegex (signup_email body)));
        [intros _; eauto|].
      destruct (negb (test passwordRegex (signup_password body)));
        [intros _; eauto|].
      destruct (save_user _ (users s)) as [e|us] eqn:Hsave; simpl.
      * assert (He : e = DuplicateKey).
        { unfold save_user in Hsave.
          destruct (_ || _) in Hsave; congruence. }
        subst e. intros _. eauto.
      * intros H. injection H as <- _. contradiction.
  - exfalso. revert Hfst. unfold signup.
    repeat match goal with
           | |- context [if ?b then _ else _] => destruct b
           end; try discriminate.
    destruct (save_user _ _) as [[]|]; discriminate.
Qed.

Lemma findOne_appended (Doc : Type) (p : Doc -> bool) (l : list Doc) (d : Doc) :
  Db.exists_ p l = false -> p d = true ->
  Db.findOne p (l ++ [d]) = Some d.
Proof.
  intros Hl Hd. rewrite findOne_app, (exists_false_findOne _ _ Hl).
  simpl. now rewrite Hd.
Qed.



(** ** [/latest-blogs] and [/all-latest-blogs-count] *)

Lemma firstn_plus (A : Type) (a b : nat) (l : list A) :
  firstn (a + b) l = (firstn a l ++ firstn b (skipn a l))%list.
Proof.
  revert l. induction a as [|a IH]; intros l; simpl; [reflexivity|].
  destruct l as [|x l]; simpl.
  - now rewrite firstn_nil.
  - now rewrite IH.
Qed.




(** X7: for a page number from 1 on, [/latest-blogs] sends the next
    five posts of the listing after those of the pages before, and as
    many posts as [/all-latest-blogs-count] leaves for that page: the
    smaller of 5 and totalDocs - 5 (page - 1), none past the end. *)
Theorem latest_blogs_page (page : Z) (s : Store) :
  (1 <= page)%Z ->
  let listing :=
    Db.sort [("publishedAt", Db.Descending)]
      (Db.find (Some [Db.DraftIs false]) (posts s)) in
  exists found,
    latest_blogs page s
    = (Sent 200
         (Blogs (map (Db.select_blog listing_author listing_fields (users s))
                   found)), s)
    /\ (firstn (5 * Z.to_nat (page - 1)) listing ++ found
        = firstn (5 * Z.to_nat page) listing)%list
    /\ all_latest_blogs_count s
       = (Sent 200 (TotalDocs (Z.of_nat (List.length listing))), s)
    /\ Z.of_nat (List.length found)
       = Z.min 5 (Z.max 0 (Z.of_nat (List.length listing) - 5 * (page - 1))).
Proof.
  intros Hpage listing.
  exists (firstn 5 (skipn (5 * Z.to_nat (page - 1)) listing)).
  split; [|split; [|split]].
  - unfold latest_blogs. fold listing. unfold Db.skip.
    destruct ((page - 1) * Z.of_nat 5 <? 0)%Z eqn:Hneg.
    + apply Z.ltb_lt in Hneg. lia.
    + replace (Z.to_nat ((page - 1) * Z.of_nat 5))
        with (5 * Z.to_nat (page - 1))%nat by lia.
      reflexivity.
  - rewrite <- firstn_plus. f_equal. lia.
  - unfold all_latest_blogs_count, Db.count. subst listing. unfold Db.sort.
    rewrite (Permutation_length (sort_by_perm (Db.before _) _)).
    reflexivity.
  - rewrite length_firstn, length_skipn. lia.
Qed.

(** A page number below 1 is answered with the error of the store. *)
Lemma latest_blogs_page_below_1 (page : Z) (s : Store) :
  (page < 1)%Z ->
  latest_blogs page s = (Sent 500 (ErrorMessage StoreError), s).
Proof.
  intros Hpage. unfold latest_blogs, Db.skip.
  destruct ((page - 1) * Z.of_nat 5 <? 0)%Z eqn:Hneg; [reflexivity|].
  apply Z.ltb_ge in Hneg. lia.
Qed.

(** ** [/search-blogs] and [/search-blogs-count] with a filter *)

Lemma In_skipn (A : Type) (n : nat) (l : list A) (x : A) :
  In x (skipn n l) -> In x l.
Proof.
  intros H. rewrite <- (firstn_skipn n l). apply in_or_app. now right.
Qed.

Lemma truthy_str_not_empty (t : string) :
  t <> EmptyString -> Js.truthy_str t = true.
Proof. destruct t; [contradiction | reflexivity]. Qed.

(** The posts of a page are posts of the store that pass the filter. *)
Lemma page_members (q : list Db.BlogCond) (keys : list (string * Db.Direction))
    (n : Z) (m : nat) (bs rest : list Blog) (b : Blog) :
  Db.skip n (Db.sort keys (Db.find (Some q) bs)) = Some rest ->
  In b (Db.limit m rest) ->
  In b bs /\ Db.matches q b = true.
Proof.
  unfold Db.skip. destruct (n <? 0)%Z; [discriminate|].
  intros H. injection H as <-. intros Hb.
  apply In_firstn, In_skipn in Hb. unfold Db.sort in Hb.
  apply (Permutation_in _ (sort_by_perm _ _)) in Hb.
  simpl in Hb. apply filter_In in Hb. exact Hb.
Qed.

(** X8: when a tag, a query or an author is given, every post
    [/search-blogs] lists is a published post of the store; with a tag
    it carries the tag and is not the post named by [eliminate_blog];
    without a tag and with a query its title matches the pattern;
    with an author only, it is a post of that author. *)
Theorem search_blogs_lists_matches
    (RegExp_i : string -> option (string -> bool))
    (body : SearchBody) (s : Store) (listed : list Db.BlogDoc) :
  fst (search_blogs RegExp_i body s) = Sent 200 (Blogs listed) ->
  Js.truthy_opt_str (search_tag body) = true
  \/ Js.truthy_opt_str (search_query body) = true
  \/ search_author body <> None ->
  exists found,
    listed = map (Db.select_blog listing_author listing_fields (users s)) found
    /\ (List.length found <= search_maxLimit body)%nat
    /\ forall b, In b found ->
         In b (posts s) /\ draft b = false
         /\ (forall tag, search_tag body = Some tag -> tag <> EmptyString ->
               In tag (tags b)
               /\ search_eliminate_blog body <> Some (blog_id b))
         /\ (Js.truthy_opt_str (search_tag body) = false ->
             forall query re,
               search_query body = Some query -> query <> EmptyString ->
               RegExp_i query = Some re -> re (title b) = true)
         /\ (Js.truthy_opt_str (search_tag body) = false ->
             Js.truthy_opt_str (search_query body) = false ->
             forall a, search_author body = Some a -> author b = a).
Proof.
  intros Hreply Hgiven. unfold search_blogs in Hreply.
  fold (search_maxLimit body) in Hreply.
  destruct (search_findQuery RegExp_i body) as [e|[q|]] eqn:Hq;
    [discriminate Hreply | |].
  - destruct (Db.skip _ _) as [rest|] eqn:Hrest; [|discriminate Hreply].
    simpl in Hreply. injection Hreply as <-.
    exists (Db.limit (search_maxLimit body) rest).
    split; [reflexivity|]. split.
    { unfold Db.limit. rewrite length_firstn. lia. }
    intros b Hb. destruct (@page_members _ _ _ _ _ _ _ Hrest Hb) as [Hin Hm].
    split; [exact Hin|].
    unfold search_findQuery in Hq.
    destruct (search_tag body) as [tag|] eqn:Htag; simpl in Hq.
    + destruct (Js.truthy_str tag) eqn:Ht.
      * injection Hq as <-. unfold Db.matches in Hm. simpl in Hm.
        apply andb_true_iff in Hm. destruct Hm as [Htags Hm].
        apply andb_true_iff in Hm. destruct Hm as [Hdraft Hm].
        rewrite andb_true_r in Hm.
        split; [destruct (draft b); [discriminate | reflexivity]|].
        split; [|split; intros Hf; simpl in Hf; congruence].
        intros tag' Htag' _. injection Htag' as <-. split.
        -- apply existsb_exists in Htags. destruct Htags as [x [Hx Heq]].
           apply String.eqb_eq in Heq. now subst x.
        -- destruct (search_eliminate_blog body) as [el|]; [|discriminate].
           intros Hel. injection Hel as ->.
           rewrite String.eqb_refl in Hm. discriminate.
      * assert (Hempty : tag = EmptyString).
        { apply is_empty_spec. unfold Js.truthy_str in Ht.
          now destruct (Js.is_empty tag). }
        destruct (Js.truthy_opt_str (search_query body)) eqn:Hqu.
        -- destruct (search_query body) as [query|]; [|discriminate].
           destruct (RegExp_i query) as [re|] eqn:Hre; [|discriminate].
           injection Hq as <-. unfold Db.matches in Hm. simpl in Hm.
           apply andb_true_iff in Hm. destruct Hm as [Hdraft Hm].
           rewrite andb_true_r in Hm.
           split; [destruct (draft b); [discriminate | reflexivity]|].
           split; [intros tag' Htag' Hne; congruence|].
           split; [|discriminate].
           intros _ query' re' Hq' _ Hre'. congruence.
        -- destruct (search_author body) as [a|]; [|discriminate].
           injection Hq as <-. unfold Db.matches in Hm. simpl in Hm.
           apply andb_true_iff in Hm. destruct Hm as [Hauthor Hm].
           rewrite andb_true_r in Hm.
           split; [destruct (draft b); [discriminate | reflexivity]|].
           split; [intros tag' Htag' Hne; congruence|].
           split; [intros _ query re Hq' Hne _; rewrite Hq' in Hqu;
                   simpl in Hqu; rewrite (truthy_str_not_empty Hne) in Hqu;
                   discriminate|].
           intros _ _ a' Ha'. injection Ha' as <-.
           now apply N.eqb_eq in Hauthor.
    + destruct (Js.truthy_opt_str (search_query body)) eqn:Hqu.
      * destruct (search_query body) as [query|]; [|discriminate].
        destruct (RegExp_i query) as [re|] eqn:Hre; [|discriminate].
        injection Hq as <-. unfold Db.matches in Hm. simpl in Hm.
        apply andb_true_iff in Hm. destruct Hm as [Hdraft Hm].
        rewrite andb_true_r in Hm.
        split; [destruct (draft b); [discriminate | reflexivity]|].
        split; [discriminate|]. split; [|discriminate].
        intros _ query' re' Hq' _ Hre'. congruence.
      * destruct (search_author body) as [a|]; [|discriminate].
        injection Hq as <-. unfold Db.matches in Hm. simpl in Hm.
        apply andb_true_iff in Hm. destruct Hm as [Hauthor Hm].
        rewrite andb_true_r in Hm.
        split; [destruct (draft b); [discriminate | reflexivity]|].
        split; [discriminate|].
        split; [intros _ query re Hq' Hne _; rewrite Hq' in Hqu;
                simpl in Hqu; rewrite (truthy_str_not_empty Hne) in Hqu;
                discriminate|].
        intros _ _ a' Ha'. injection Ha' as <-.
        now apply N.eqb_eq in Hauthor.
  - exfalso. unfold search_findQuery in Hq.
    destruct Hgiven as [H|[H|H]].
    + rewrite H in Hq. discriminate.
    + rewrite H in Hq. destruct (Js.truthy_opt_str (search_tag body));
        [discriminate|]. destruct (RegExp_i _); discriminate.
    + destruct (Js.truthy_opt_str (search_tag body)); [discriminate|].
      destruct (Js.truthy_opt_str (search_query body)).
      * destruct (RegExp_i _); discriminate.
      * destruct (search_author body); [discriminate | contradiction].
Qed.

Lemma filter_length_split (A : Type) (p r : A -> bool) (l : list A) :
  List.length (List.filter p l)
  = (List.length (List.filter (fun x => p x && negb (r x)) l)
     + List.length (List.filter (fun x => p x && r x) l))%nat.
Proof.
  induction l as [|x l IH]; simpl; [reflexivity|].
  destruct (p x), (r x); simpl; lia.
Qed.

Lemma whole_page (q : option (list Db.BlogCond)) (n : nat) (bs : list Blog) :
  (List.length bs <= n)%nat ->
  Db.skip ((1 - 1) * Z.of_nat n)
    (Db.sort [("publishedAt", Db.Descending)] (Db.find q bs))
  = Some (Db.sort [("publishedAt", Db.Descending)] (Db.find q bs))
  /\ Db.limit n (Db.sort [("publishedAt", Db.Descending)] (Db.find q bs))
     = Db.sort [("publishedAt", Db.Descending)] (Db.find q bs)
  /\ List.length (Db.sort [("publishedAt", Db.Descending)] (Db.find q bs))
     = List.length (Db.find q bs).
Proof.
  intros Hn.
  assert (Hlen : List.length
                   (Db.sort [("publishedAt", Db.Descending)] (Db.find q bs))
                 = List.length (Db.find q bs)).
  { unfold Db.sort. apply Permutation_length, sort_by_perm. }
  split; [reflexivity|]. split; [|exact Hlen].
  unfold Db.limit. apply firstn_all2. rewrite Hlen.
  destruct q as [q|]; simpl; [|exact Hn].
  pose proof (filter_length_le (Db.matches q) bs). lia.
Qed.

Lemma filter_none (A : Type) (f : A -> bool) (l : list A) :
  (forall x, f x = false) -> List.filter f l = [].
Proof.
  intros Hf. induction l as [|x l IH]; simpl; [reflexivity|].
  now rewrite Hf.
Qed.

Lemma search_blogs_whole
    (RegExp_i : string -> option (string -> bool))
    (body : SearchBody) (s : Store) (n : nat)
    (q : option (list Db.BlogCond)) :
  (List.length (posts s) <= n)%nat -> (0 < n)%nat ->
  search_findQuery RegExp_i body = inr q ->
  fst (search_blogs RegExp_i (whole_listing n body) s)
  = Sent 200
      (Blogs (map (Db.select_blog listing_author listing_fields (users s))
                (Db.sort [("publishedAt", Db.Descending)]
                   (Db.find q (posts s))))).
Proof.
  intros Hn Hpos Hq. unfold search_blogs.
  change (search_findQuery RegExp_i (whole_listing n body))
    with (search_findQuery RegExp_i body).
  rewrite Hq. cbn [search_limit search_page whole_listing].
  assert (Hmax : match n with S m => S m | O => 2%nat end = n)
    by (destruct n; [lia | reflexivity]).
  rewrite Hmax.
  destruct (whole_page q (posts s) Hn) as [Hskip [Hlimit _]].
  rewrite Hskip, Hlimit. reflexivity.
Qed.

Lemma length_sort (keys : list (string * Db.Direction)) (bs : list Blog) :
  List.length (Db.sort keys bs) = List.length bs.
Proof. unfold Db.sort. apply Permutation_length, sort_by_perm. Qed.

(** X9: [/search-blogs-count] counts what [/search-blogs] lists on all
    its pages together, and one more for every published post with the
    tag that the listing leaves out under [eliminate_blog]: the count
    does not look at [eliminate_blog]. *)
Theorem search_blogs_count_and_listing
    (RegExp_i : string -> option (string -> bool))
    (body : SearchBody) (s : Store) (n : nat)
    (totalDocs : Z) (listed : list Db.BlogDoc) :
  (List.length (posts s) <= n)%nat -> (0 < n)%nat ->
  fst (search_blogs_count RegExp_i body s) = Sent 200 (TotalDocs totalDocs) ->
  fst (search_blogs RegExp_i (whole_listing n body) s)
  = Sent 200 (Blogs listed) ->
  totalDocs
  = (Z.of_nat (List.length listed)
     + Z.of_nat (List.length (List.filter (eliminated_by body) (posts s))))%Z.
Proof.
  intros Hn Hpos Hcount Hlist.
  assert (Hnone : forall f : Blog -> bool,
             (forall b, f b = false) -> List.filter f (posts s) = []).
  { intros f Hf. apply filter_none. exact Hf. }
  unfold search_blogs_count in Hcount.
  destruct (Js.truthy_opt_str (search_tag body)) eqn:Htag.
  - destruct (search_tag body) as [tag|] eqn:Etag; [|discriminate Htag].
    change (Js.truthy_str tag = true) in Htag.
    assert (Hq : search_findQuery RegExp_i body
                 = inr (Some [Db.TagsHas tag; Db.DraftIs false;
                              Db.BlogIdNe (search_eliminate_blog body)])).
    { unfold search_findQuery. rewrite Etag.
      change (Js.truthy_opt_str (Some tag)) with (Js.truthy_str tag).
      now rewrite Htag. }
    rewrite (search_blogs_whole RegExp_i body s Hn Hpos Hq) in Hlist.
    injection Hlist as <-. cbn [fst] in Hcount. injection Hcount as <-.
    rewrite length_map, length_sort. unfold Db.count.
    rewrite <- Nat2Z.inj_add. f_equal. cbn [Db.find].
    unfold eliminated_by. rewrite Etag, Htag.
    destruct (search_eliminate_blog body) as [e|].
    + rewrite (filter_length_split (Db.matches [Db.TagsHas tag;
                                                Db.DraftIs false])
                 (fun b => blog_id b =? e)).
      f_equal; f_equal; apply filter_ext; intros b;
        unfold Db.matches; simpl;
        destruct (existsb (String.eqb tag) (tags b)),
          (Bool.eqb (draft b) false), (blog_id b =? e); reflexivity.
    + rewrite (Hnone _ (fun _ => eq_refl)). cbn [List.length].
      rewrite Nat.add_0_r. reflexivity.
  - assert (Hel : List.filter (eliminated_by body) (posts s) = []).
    { apply Hnone. intros b. unfold eliminated_by.
      destruct (search_tag body) as [tag|]; [|reflexivity].
      change (Js.truthy_str tag = false) in Htag. rewrite Htag.
      destruct (search_eliminate_blog body); reflexivity. }
    rewrite Hel. simpl List.length. rewrite Z.add_0_r.
    destruct (search_findQuery RegExp_i body) as [e|q] eqn:Hq.
    + exfalso. unfold search_findQuery in Hq. rewrite Htag in Hq.
      destruct (Js.truthy_opt_str (search_query body)).
      * destruct (RegExp_i _); [discriminate Hq | discriminate Hcount].
      * destruct (search_author body); discriminate Hq.
    + rewrite (search_blogs_whole RegExp_i body s Hn Hpos Hq) in Hlist.
      injection Hlist as <-.
      rewrite length_map, length_sort.
      unfold search_findQuery in Hq. rewrite Htag in Hq.
      destruct (Js.truthy_opt_str (search_query body)).
      * destruct (RegExp_i _); [|discriminate Hq].
        injection Hq as <-. cbn [fst] in Hcount. injection Hcount as <-.
        reflexivity.
      * destruct (search_author body); injection Hq as <-;
          cbn [fst] in Hcount; injection Hcount as <-; reflexivity.
Qed.

(** ** [/create-blog], then [/get-blog] *)

Lemma update_first_no_match (Doc : Type) (p : Doc -> bool) (f : Doc -> Doc)
    (l : list Doc) :
  Db.findOne p l = None -> Db.update_first p f l = l.
Proof.
  unfold Db.findOne. induction l as [|x l IH]; simpl; [reflexivity|].
  destruct (p x); [discriminate|]. intros H. now rewrite (IH H).
Qed.

(** What [/create-blog] does when it creates a post. *)
Lemma create_blog_created
    (authorId : ObjectId) (env : Env) (body : CreateBlogBody) (s : Store)
    (id : string) :
  fst (create_blog authorId env body s) = Sent 200 (BlogId id) ->
  Js.truthy_opt_str (create_id body) = false ->
  let blog :=
    {| blog__id := objectId env; blog_id := id; title := create_title body;
       banner := create_banner body; des := create_des body;
       content := create_content body;
       tags := map Js.toLowerCase (create_tags body);
       author := authorId;
       activity := {| total_likes := 0; total_comments := 0;
                      total_reads := 0; total_parent_comments := 0 |};
       comments := []; draft := Js.truthy_opt_bool (create_draft body);
       publishedAt := now env |} in
  id = slug (create_title body) ++ nanoid env
  /\ create_blog_checks body = None
  /\ Db.exists_ (Db.holds (Db.BlogIdIs id)) (posts s) = false
  /\ snd (create_blog authorId env body s)
     = with_users
         (Db.update_first (fun u => (user_id u =? authorId)%N)
            (inc_total_posts_push_blog
               (if Js.truthy_opt_bool (create_draft body) then 0 else 1)%Z
               (objectId env))
            (users s))
         (with_posts (posts s ++ [blog]) s).
Proof.
  intros Hreply Hid. revert Hreply. unfold create_blog.
  destruct (create_blog_checks body); [discriminate|].
  rewrite Hid.
  assert (Hbid : match create_id body with
                 | Some i => if Js.truthy_str i then i
                             else slug (create_title body) ++ nanoid env
                 | None => slug (create_title body) ++ nanoid env
                 end = slug (create_title body) ++ nanoid env).
  { destruct (create_id body) as [i|]; [|reflexivity].
    simpl in Hid. now rewrite Hid. }
  rewrite Hbid. unfold save_blog. cbn [blog_id].
  destruct (Db.exists_ _ (posts s)) eqn:Hex; [discriminate|].
  unfold Db.findOneAndUpdate. cbn [fst snd blog__id].
  intros H. injection H as <-. repeat split. exact Hex.
Qed.

(** X10: a post [/create-blog] has created is found by [/get-blog]
    under the id that was sent back, whatever the draft flag and the
    mode of the request, provided the author is a stored user: it comes
    with the title, description, banner and content of the request, the
    tags in lower case, the clock as its publish time and all counters
    at 0. *)
Theorem create_blog_then_get_blog
    (authorId : ObjectId) (env : Env) (body : CreateBlogBody) (s : Store)
    (id : string) (u : User) (flag : option bool) (mode : option string) :
  fst (create_blog authorId env body s) = Sent 200 (BlogId id) ->
  Js.truthy_opt_str (create_id body) = false ->
  Db.findOne (fun v => (user_id v =? authorId)%N) (users s) = Some u ->
  exists doc by_,
    fst (get_blog {| get_blog_id := id; get_draft := flag; get_mode := mode |}
           (snd (create_blog authorId env body s)))
    = Sent 200 (OneBlog doc)
    /\ Db.doc_blog_id doc = Some id
    /\ Db.doc_title doc = Some (create_title body)
    /\ Db.doc_des doc = Some (create_des body)
    /\ Db.doc_banner doc = Some (create_banner body)
    /\ Db.doc_content doc = Some (create_content body)
    /\ Db.doc_tags doc = Some (map Js.toLowerCase (create_tags body))
    /\ Db.doc_publishedAt doc = Some (now env)
    /\ Db.doc_activity doc
       = Some {| total_likes := 0; total_comments := 0; total_reads := 0;
                 total_parent_comments := 0 |}
    /\ Db.doc_author doc = Some by_
    /\ Db.doc_user_id by_ = Some authorId
    /\ Db.doc_username by_ = Some (username (personal_info u)).
Proof.
  intros Hreply Hid Hu.
  pose proof (create_blog_created authorId env body s Hreply Hid) as H.
  cbv zeta in H. destruct H as [_ [_ [Hnew Hsnd]]]. rewrite Hsnd. clear Hsnd.
  match goal with
  | |- context [(posts s ++ [?x])%list] => set (blog := x)
  end.
  match goal with
  | |- context [Db.update_first ?p ?f (users s)] => set (bump := f)
  end.
  assert (Hb : Db.findOne (Db.holds (Db.BlogIdIs id)) (posts s ++ [blog])
               = Some blog).
  { apply findOne_appended; [exact Hnew|]. simpl. apply String.eqb_refl. }
  assert (Hau : Db.findOne (fun v => (user_id v =? author blog)%N)
                  (Db.update_first (fun v => (user_id v =? authorId)%N)
                     bump (users s))
                = Some (bump u)).
  { simpl author. rewrite findOne_update_first_same by reflexivity.
    now rewrite Hu. }
  pose proof (@get_blog_found
                {| get_blog_id := id; get_draft := flag; get_mode := mode |}
                (with_users
                   (Db.update_first (fun v => (user_id v =? authorId)%N)
                      bump (users s))
                   (with_posts (posts s ++ [blog]) s))
                blog (bump u) Hb Hau) as Hget.
  cbv zeta in Hget. rewrite Hget. cbn [fst].
  eexists. exists (Db.select_user
                     "personal_info.fullname personal_info.username personal_info.profile_img"
                     (bump u)).
  split; [reflexivity|].
  unfold Db.select_blog, Db.populate_author. cbn [users with_users].
  rewrite Hau. cbn [option_map].
  repeat split.
  apply findOne_some in Hu. destruct Hu as [_ Hu]. apply N.eqb_eq in Hu.
  unfold Db.select_user, Db.pick_id. simpl. now rewrite Hu.
Qed.

(** X11: an update ([id] given) that passes the checks is answered 200
    whoever sends it.  The first post with that [blog_id] gets the
    title, description, banner, content, lower-cased tags and draft flag
    of the request and keeps its author, counters, comments and publish
    time; the users are left as they are, so no post count moves when a
    draft becomes a published post.  With an [id] no post has, nothing
    is stored. *)
Theorem create_blog_update
    (authorId : ObjectId) (env : Env) (body : CreateBlogBody) (s : Store)
    (id : string) :
  create_id body = Some id -> id <> EmptyString ->
  create_blog_checks body = None ->
  fst (create_blog authorId env body s) = Sent 200 (BlogId id)
  /\ users (snd (create_blog authorId env body s)) = users s
  /\ comment_docs (snd (create_blog authorId env body s)) = comment_docs s
  /\ notifications (snd (create_blog authorId env body s)) = notifications s
  /\ (Db.findOne (Db.holds (Db.BlogIdIs id)) (posts s) = None ->
      snd (create_blog authorId env body s) = s)
  /\ (forall b,
        Db.findOne (Db.holds (Db.BlogIdIs id)) (posts s) = Some b ->
        Db.findOne (Db.holds (Db.BlogIdIs id))
          (posts (snd (create_blog authorId env body s)))
        = Some {| blog__id := blog__id b; blog_id := blog_id b;
                  title := create_title body; banner := create_banner body;
                  des := create_des body; content := create_content body;
                  tags := map Js.toLowerCase (create_tags body);
                  author := author b; activity := activity b;
                  comments := comments b;
                  draft := Js.truthy_opt_bool (create_draft body);
                  publishedAt := publishedAt b |}).
Proof.
  intros Hid Hne Hchecks. unfold create_blog. rewrite Hchecks, Hid.
  cbn [Js.truthy_opt_str]. rewrite (truthy_str_not_empty Hne).
  unfold Db.findOneAndUpdate. cbn [fst snd].
  split; [reflexivity|]. split; [reflexivity|]. split; [reflexivity|].
  split; [reflexivity|]. split.
  - intros Hnone. rewrite (update_first_no_match _ _ _ Hnone).
    destruct s; reflexivity.
  - intros b Hb. cbn [posts with_posts].
    rewrite findOne_update_first_same by reflexivity.
    rewrite Hb. reflexivity.
Qed.

(** X12: when [/create-blog] has created a post for a stored user, the
    id of the post is appended to the user's list of posts, and the
    user's post count grows by 1 for a published post and stays for a
    draft; the read count stays. *)
Theorem create_blog_counts_published_posts
    (authorId : ObjectId) (env : Env) (body : CreateBlogBody) (s : Store)
    (id : string) (u : User) :
  fst (create_blog authorId env body s) = Sent 200 (BlogId id) ->
  Js.truthy_opt_str (create_id body) = false ->
  Db.findOne (fun v => (user_id v =? authorId)%N) (users s) = Some u ->
  exists u',
    Db.findOne (fun v => (user_id v =? authorId)%N)
      (users (snd (create_blog authorId env body s))) = Some u'
    /\ blogs u' = (blogs u ++ [objectId env])%list
    /\ total_posts (account_info u')
       = (total_posts (account_info u)
          + (if Js.truthy_opt_bool (create_draft body) then 0 else 1))%Z
    /\ account_total_reads (account_info u')
       = account_total_reads (account_info u)
    /\ personal_info u' = personal_info u
    /\ google_auth u' = google_auth u.
Proof.
  intros Hreply Hid Hu.
  pose proof (create_blog_created authorId env body s Hreply Hid) as H.
  cbv zeta in H. destruct H as [_ [_ [_ Hsnd]]]. rewrite Hsnd.
  cbn [users with_users].
  rewrite findOne_update_first_same by reflexivity.
  rewrite Hu. eexists. split; [reflexivity|]. repeat split.
Qed.

(** ** The [blog_id] of a new post *)

Lemma every_rev_string (p : ascii -> bool) (acc t : string) :
  every p (Js.rev_string acc t) = every p t && every p acc.
Proof.
  revert acc. induction t as [|c t IH]; intros acc; simpl; [reflexivity|].
  rewrite IH. simpl. destruct (p c), (every p t), (every p acc); reflexivity.
Qed.

Lemma every_trim_start (p : ascii -> bool) (t : string) :
  every p t = true -> every p (Js.trim_start t) = true.
Proof.
  induction t as [|c t IH]; simpl; [reflexivity|].
  intros H. destruct (Js.is_space c); [|exact H].
  apply andb_true_iff in H. tauto.
Qed.

Lemma every_trim (p : ascii -> bool) (t : string) :
  every p t = true -> every p (Js.trim t) = true.
Proof.
  intros H. unfold Js.trim. rewrite every_rev_string. simpl.
  rewrite andb_true_r. apply every_trim_start.
  rewrite every_rev_string. simpl. rewrite andb_true_r.
  now apply every_trim_start.
Qed.

Lemma every_replace_space_runs (in_run : bool) (t : string) :
  every (fun c => is_alnum c || Js.is_space c) t = true ->
  every (fun c => is_alnum c || Ascii.eqb c "-")
    (Js.replace_space_runs in_run t) = true.
Proof.
  revert in_run. induction t as [|c t IH]; intros in_run; simpl;
    [reflexivity|].
  intros H. apply andb_true_iff in H. destruct H as [Hc Ht].
  destruct (Js.is_space c) eqn:Hs.
  - destruct in_run; simpl; auto.
  - rewrite orb_false_r in Hc. simpl. rewrite Hc. simpl. auto.
Qed.

Lemma slug_chars (t : string) :
  every (fun c => is_alnum c || Ascii.eqb c "-") (slug t) = true.
Proof.
  unfold slug. apply every_trim, every_replace_space_runs.
  induction t as [|c t IH]; simpl; [reflexivity|].
  rewrite IH, andb_true_r. destruct (is_alnum c) eqn:Hc.
  - now rewrite Hc.
  - reflexivity.
Qed.

(** X13: the [blog_id] of a post [/create-blog] has created is made of
    letters, digits, underscores and dashes only, whatever the title:
    the part taken from the title has letters, digits and dashes, and
    the random id follows. *)
Theorem create_blog_id_chars
    (authorId : ObjectId) (env : Env) (body : CreateBlogBody) (s : Store)
    (id : string) :
  fst (create_blog authorId env body s) = Sent 200 (BlogId id) ->
  Js.truthy_opt_str (create_id body) = false ->
  is_nanoid (nanoid env) = true ->
  id = slug (create_title body) ++ nanoid env
  /\ every (fun c => is_alnum c || Ascii.eqb c "-")
       (slug (create_title body)) = true
  /\ every (fun c => Js.is_word c || Ascii.eqb c "-") id = true.
Proof.
  intros Hreply Hid Hnid.
  pose proof (create_blog_created authorId env body s Hreply Hid) as H.
  cbv zeta in H. destruct H as [-> [Hchecks _]].
  unfold is_nanoid in Hnid. apply andb_true_iff in Hnid.
  destruct Hnid as [Hlen Hchars]. rewrite every_forallb in Hchars.
  apply Nat.eqb_eq in Hlen.
  split; [reflexivity|]. split; [apply slug_chars|].
  rewrite every_append, Hchars, andb_true_r.
  apply (every_weaken (fun c => is_alnum c || Ascii.eqb c "-"));
    [|apply slug_chars].
  intros c Hc. apply orb_true_iff in Hc. destruct Hc as [Hc|Hc].
  - unfold is_alnum in Hc. unfold Js.is_word.
    destruct (Js.is_lower c), (Js.is_upper c), (Js.is_digit c);
      try discriminate; reflexivity.
  - rewrite Hc. apply orb_true_r.
Qed.

(** ** [/like-blog] and [/isliked-by-user] *)

Lemma with_posts_same (s : Store) : with_posts (posts s) s = s.
Proof. destruct s; reflexivity. Qed.

(** X14: a like request (flag false) on a stored post is answered with
    [liked_by_user: true], raises the like counter by 1 and stores one
    like notification addressed to the author the stored post names;
    [/isliked-by-user] then reports the post as liked. *)
Theorem like_blog_then_isliked
    (user_id : ObjectId) (env : Env) (_id : ObjectId) (s : Store) (b : Blog) :
  post_by_id _id s = Some b ->
  let request := {| like__id := _id; islikedByUser := false |} in
  let s1 := snd (like_blog user_id env request s) in
  fst (like_blog user_id env request s) = Sent 200 (LikedByUser true)
  /\ (exists n,
        notifications s1 = (notifications s ++ [n])%list
        /\ type n = like /\ blog n = _id /\ user n = user_id
        /\ notification_for n = author b)
  /\ post_likes _id s1 = Some (total_likes (activity b) + 1)%Z
  /\ (exists n, fst (isliked_by_user user_id _id s1) = Sent 200 (Result (Some n)))
  /\ like_notifications user_id _id s1
     = S (like_notifications user_id _id s).
Proof.
  intros Hb request s1. subst request s1. unfold post_by_id in Hb.
  unfold like_blog, Db.findOneAndUpdate. cbn [like__id islikedByUser negb].
  rewrite Hb. cbn [fst snd].
  split; [reflexivity|]. split.
  { eexists. split; [reflexivity|]. repeat split. }
  split.
  { unfold post_likes, post_by_id. cbn [posts with_posts with_notifications].
    rewrite findOne_update_first_same by reflexivity. now rewrite Hb. }
  assert (Hcount : like_notifications user_id _id
                     (with_notifications
                        (Db.save
                           {| notification_id := objectId env; type := like;
                              blog := _id; notification_for := author b;
                              user := user_id;
                              notification_comment := None |}
                           (notifications
                              (with_posts
                                 (Db.update_first (Db.holds (Db.IdIs _id))
                                    (inc_total_likes 1) (posts s)) s)))
                        (with_posts
                           (Db.update_first (Db.holds (Db.IdIs _id))
                              (inc_total_likes 1) (posts s)) s))
                   = S (like_notifications user_id _id s)).
  { unfold like_notifications, Db.save. cbn [notifications with_notifications
                                             with_posts].
    rewrite filter_app, length_app. cbn [List.filter].
    rewrite is_like_of_new. simpl. lia. }
  split; [|exact Hcount].
  match goal with
  | |- exists n, fst (isliked_by_user _ _ ?t) = _ => set (s1 := t) in *
  end.
  clearbody s1.
  pose proof (exists_filter (is_like_of user_id _id) (notifications s1)) as He.
  fold (like_notifications user_id _id s1) in He. rewrite Hcount in He.
  cbn [Nat.eqb negb] in He. unfold Db.exists_ in He.
  unfold isliked_by_user. cbn [fst].
  destruct (Db.findOne (is_like_of user_id _id) (notifications s1));
    [eexists; reflexivity | discriminate He].
Qed.

(** X15: on an [_id] no post has, a like request gets no response at
    all and the store stays as it is; an unlike request is answered
    with [liked_by_user: false] and removes a like notification of the
    user on that [_id] if the store holds one. *)
Theorem like_blog_without_post
    (user_id : ObjectId) (env : Env) (_id : ObjectId) (s : Store) :
  post_by_id _id s = None ->
  like_blog user_id env {| like__id := _id; islikedByUser := false |} s
  = (Unhandled TypeError, s)
  /\ fst (like_blog user_id env {| like__id := _id; islikedByUser := true |} s)
     = Sent 200 (LikedByUser false)
  /\ posts (snd (like_blog user_id env
                   {| like__id := _id; islikedByUser := true |} s))
     = posts s
  /\ like_notifications user_id _id
       (snd (like_blog user_id env
               {| like__id := _id; islikedByUser := true |} s))
     = pred (like_notifications user_id _id s).
Proof.
  intros Hb. unfold post_by_id in Hb.
  unfold like_blog, Db.findOneAndUpdate, Db.findOneAndDelete.
  cbn [like__id islikedByUser negb]. rewrite Hb.
  rewrite !update_first_no_match by exact Hb. rewrite !with_posts_same.
  split; [reflexivity|]. split; [reflexivity|]. split; [reflexivity|].
  unfold like_notifications. cbn [snd notifications with_notifications].
  apply filter_delete_first.
Qed.

(** ** Likes under toggles *)

Section DeleteLemmas.

Variable Doc : Type.
Implicit Types (p q : Doc -> bool) (l : list Doc).

Lemma findOne_update_first_disjoint p q (f : Doc -> Doc) l :
  (forall x, p x = true -> q x = false) ->
  (forall x, q (f x) = q x) ->
  Db.findOne q (Db.update_first p f l) = Db.findOne q l.
Proof.
  intros Hpq Hqf. unfold Db.findOne.
  induction l as [|x l IH]; simpl; [reflexivity|].
  destruct (p x) eqn:Hp; simpl.
  - now rewrite Hqf, (Hpq x Hp).
  - now rewrite IH.
Qed.

Lemma filter_delete_first_le p q l :
  (List.length (List.filter q (Db.delete_first p l))
   <= List.length (List.filter q l))%nat.
Proof.
  induction l as [|x l IH]; simpl; [lia|].
  destruct (p x); simpl; destruct (q x); simpl; lia.
Qed.

Lemma filter_delete_first_other p q l :
  (forall x, p x = true -> q x = false) ->
  List.filter q (Db.delete_first p l) = List.filter q l.
Proof.
  intros Hpq. induction l as [|x l IH]; simpl; [reflexivity|].
  destruct (p x) eqn:Hp.
  - now rewrite (Hpq x Hp).
  - simpl. now rewrite IH.
Qed.

Lemma filter_delete_first_sub p q l :
  (forall x, p x = true -> q x = true) ->
  (0 < List.length (List.filter p l))%nat ->
  S (List.length (List.filter q (Db.delete_first p l)))
  = List.length (List.filter q l).
Proof.
  intros Hpq. induction l as [|x l IH]; simpl; [lia|].
  destruct (p x) eqn:Hp.
  - intros _. now rewrite (Hpq x Hp).
  - intros H. simpl. destruct (q x); simpl; rewrite <- (IH H); reflexivity.
Qed.

End DeleteLemmas.

Lemma is_like_on_new (j _id for_ nid user_id : ObjectId) :
  is_like_on j
    {| notification_id := nid; type := like; blog := _id;
       notification_for := for_; user := user_id;
       notification_comment := None |} = (_id =? j)%N.
Proof. unfold is_like_on. simpl. apply andb_true_r. Qed.

Lemma is_like_of_other (u j _id for_ nid user_id : ObjectId) :
  is_like_of u j
    {| notification_id := nid; type := like; blog := _id;
       notification_for := for_; user := user_id;
       notification_comment := None |}
  = (user_id =? u)%N && (_id =? j)%N.
Proof. unfold is_like_of. simpl. apply andb_true_r. Qed.

(** The three ways a toggle goes. *)
Lemma like_toggle_cases
    (user_id : ObjectId) (env : Env) (_id : ObjectId) (s : Store) :
  let s1 := like_toggle user_id env _id s in
  (like_notifications user_id _id s = 0%nat
   /\ post_by_id _id s = None /\ s1 = s)
  \/ (like_notifications user_id _id s = 0%nat
      /\ (exists b, post_by_id _id s = Some b)
      /\ posts s1
         = Db.update_first (Db.holds (Db.IdIs _id)) (inc_total_likes 1)
             (posts s)
      /\ exists for_,
           notifications s1
           = (notifications s
              ++ [{| notification_id := objectId env; type := like;
                     blog := _id; notification_for := for_;
                     user := user_id; notification_comment := None |}])%list)
  \/ ((0 < like_notifications user_id _id s)%nat
      /\ posts s1
         = Db.update_first (Db.holds (Db.IdIs _id)) (inc_total_likes (-1))
             (posts s)
      /\ notifications s1
         = Db.delete_first (is_like_of user_id _id) (notifications s)).
Proof.
  intros s1. subst s1. unfold like_toggle, like_blog.
  rewrite liked_by_user_count.
  cbn [like__id islikedByUser]. unfold Db.findOneAndUpdate,
    Db.findOneAndDelete.
  destruct (like_notifications user_id _id s) as [|n] eqn:Hn;
    cbn [Nat.eqb negb].
  - destruct (post_by_id _id s) as [b|] eqn:Hb; unfold post_by_id in Hb;
      rewrite Hb.
    + right. left. split; [reflexivity|]. split; [eauto|].
      split; [reflexivity|]. exists (author b). reflexivity.
    + left. split; [reflexivity|]. split; [reflexivity|].
      cbn [snd]. rewrite update_first_no_match by exact Hb.
      apply with_posts_same.
  - right. right. split; [lia|]. split; reflexivity.
Qed.

(** X16: when a like request carries the liked state that
    [/isliked-by-user] reports, a store in which the like counter of
    every post is the number of like notifications on it, and no user
    holds two like notifications on one post, stays such a store. *)
Theorem like_toggle_keeps_likes_consistent
    (user_id : ObjectId) (env : Env) (_id : ObjectId) (s : Store) :
  likes_consistent s -> single_likes s ->
  likes_consistent (like_toggle user_id env _id s)
  /\ single_likes (like_toggle user_id env _id s).
Proof.
  intros Hcons Hsingle.
  assert (Hother : forall j x,
             j <> _id -> Db.holds (Db.IdIs _id) x = true ->
             Db.holds (Db.IdIs j) x = false).
  { intros j x Hj Hx. simpl in *. apply N.eqb_eq in Hx.
    apply N.eqb_neq. congruence. }
  destruct (like_toggle_cases user_id env _id s)
    as [[_ [_ ->]]|[[Hn [[b Hb] [Hposts [for_ Hnotes]]]]|[Hn [Hposts Hnotes]]]];
    [auto| |].
  - split.
    + intros j bj. unfold post_by_id, likes_on. rewrite Hposts, Hnotes.
      rewrite filter_app, length_app. cbn [List.filter].
      rewrite is_like_on_new.
      destruct (N.eq_dec j _id) as [->|Hj].
      * rewrite findOne_update_first_same by reflexivity.
        unfold post_by_id in Hb. rewrite Hb. intros H. injection H as <-.
        rewrite N.eqb_refl. simpl.
        rewrite (Hcons _id b Hb). unfold likes_on. lia.
      * rewrite findOne_update_first_disjoint;
          [|intros x Hx; exact (Hother j x Hj Hx) | reflexivity].
        intros H. rewrite (Hcons j bj H).
        assert (Hne : (_id =? j)%N = false) by (apply N.eqb_neq; congruence).
        rewrite Hne. simpl. unfold likes_on. lia.
    + intros u j. unfold like_notifications. rewrite Hnotes.
      rewrite filter_app, length_app. cbn [List.filter].
      rewrite is_like_of_other.
      destruct ((user_id =? u)%N && (_id =? j)%N) eqn:Hsame.
      * apply andb_true_iff in Hsame. destruct Hsame as [Hu Hj].
        apply N.eqb_eq in Hu, Hj. subst u j.
        unfold like_notifications in Hn. rewrite Hn. simpl. lia.
      * simpl. pose proof (Hsingle u j) as H.
        unfold like_notifications in H. lia.
  - split.
    + intros j bj. unfold post_by_id, likes_on. rewrite Hposts, Hnotes.
      destruct (N.eq_dec j _id) as [->|Hj].
      * rewrite findOne_update_first_same by reflexivity.
        destruct (Db.findOne (Db.holds (Db.IdIs _id)) (posts s)) as [b|] eqn:Hb;
          [|discriminate].
        intros H. injection H as <-. simpl.
        rewrite (Hcons _id b Hb). unfold likes_on.
        rewrite <- (filter_delete_first_sub (is_like_of user_id _id)
                      (is_like_on _id) (notifications s)).
        -- lia.
        -- intros x Hx. unfold is_like_of in Hx. unfold is_like_on.
           apply andb_true_iff in Hx. destruct Hx as [Hx Ht].
           apply andb_true_iff in Hx. destruct Hx as [_ Hbl].
           now rewrite Hbl, Ht.
        -- exact Hn.
      * rewrite findOne_update_first_disjoint;
          [|intros x Hx; exact (Hother j x Hj Hx) | reflexivity].
        intros H. rewrite (Hcons j bj H). unfold likes_on.
        rewrite filter_delete_first_other; [reflexivity|].
        intros x Hx. unfold is_like_of in Hx. unfold is_like_on.
        apply andb_true_iff in Hx. destruct Hx as [Hx _].
        apply andb_true_iff in Hx. destruct Hx as [_ Hbl].
        apply N.eqb_eq in Hbl. rewrite Hbl.
        assert (Hne : (_id =? j)%N = false) by (apply N.eqb_neq; congruence).
        now rewrite Hne.
    + intros u j. unfold like_notifications. rewrite Hnotes.
      pose proof (filter_delete_first_le (is_like_of user_id _id)
                    (is_like_of u j) (notifications s)) as Hle.
      pose proof (Hsingle u j) as H. unfold like_notifications in H. lia.
Qed.

(** ** [/get-blog]: the edit mode and the failures *)

Lemma inc_total_reads_0 (b : Blog) : inc_total_reads 0 b = b.
Proof.
  destruct b as [? ? ? ? ? ? ? ? [? ? ? ?] ? ? ?].
  unfold inc_total_reads, set_activity. simpl. now rewrite Z.add_0_r.
Qed.

Lemma inc_account_total_reads_0 (u : User) : inc_account_total_reads 0 u = u.
Proof.
  destruct u as [? ? [? ?] ? ?].
  unfold inc_account_total_reads. simpl. now rewrite Z.add_0_r.
Qed.

Lemma update_first_fixed (Doc : Type) (p : Doc -> bool) (f : Doc -> Doc)
    (l : list Doc) :
  (forall d, f d = d) -> Db.update_first p f l = l.
Proof.
  intros Hf. rewrite (update_first_ext p f (fun d => d) l Hf).
  apply update_first_id.
Qed.

Lemma with_users_same (s : Store) : with_users (users s) s = s.
Proof. destruct s; reflexivity. Qed.

Lemma get_blog_edit_store (body : GetBlogBody) (s : Store) :
  get_mode body = Some "edit" ->
  snd (get_blog body s) = s.
Proof.
  intros Hmode. unfold get_blog, Db.findOneAndUpdate. rewrite Hmode.
  rewrite String.eqb_refl.
  rewrite (update_first_fixed _ _ _ inc_total_reads_0), with_posts_same.
  destruct (Db.findOne _ (posts s)) as [b|]; [|reflexivity].
  destruct (Db.doc_author _) as [a|]; [|reflexivity].
  assert (Hus : match Db.doc_username a with
                | Some name =>
                    snd (Db.findOneAndUpdate (username_is name)
                           (inc_account_total_reads 0) (users s))
                | None => users s
                end = users s).
  { destruct (Db.doc_username a); [|reflexivity].
    unfold Db.findOneAndUpdate. cbn [snd].
    apply update_first_fixed, inc_account_total_reads_0. }
  unfold Db.findOneAndUpdate in Hus |- *. rewrite Hus, with_users_same.
  destruct (_ && _); reflexivity.
Qed.

(** X17: a request in the edit mode leaves the whole store as it is,
    whatever it asks for and whatever the reply. *)
Theorem get_blog_edit_mode_keeps_store (body : GetBlogBody) (s : Store) :
  get_mode body = Some "edit" ->
  snd (get_blog body s) = s.
Proof. apply get_blog_edit_store. Qed.

(** X18: [/get-blog] answers 500 with the message of the thrown error
    when no post has the [blog_id], and the store stays as it is; when
    the post is stored but its author is not, the answer is the same
    error, no user changes, and yet the read counter of the post has
    been raised as the mode says. *)
Theorem get_blog_failures (body : GetBlogBody) (s : Store) :
  (Db.findOne (Db.holds (Db.BlogIdIs (get_blog_id body))) (posts s) = None ->
   get_blog body s = (Sent 500 (ErrorMessage TypeError), s))
  /\ (forall b,
        Db.findOne (Db.holds (Db.BlogIdIs (get_blog_id body))) (posts s)
        = Some b ->
        Db.findOne (fun v => (user_id v =? author b)%N) (users s) = None ->
        fst (get_blog body s) = Sent 500 (ErrorMessage TypeError)
        /\ users (snd (get_blog body s)) = users s
        /\ post_reads (get_blog_id body) (snd (get_blog body s))
           = Some (total_reads (activity b)
                   + (if match get_mode body with
                         | Some mode => (mode =? "edit")%string
                         | None => false
                         end then 0 else 1))%Z).
Proof.
  split.
  - intros Hnone. unfold get_blog, Db.findOneAndUpdate. rewrite Hnone.
    rewrite update_first_no_match by exact Hnone.
    now rewrite with_posts_same.
  - intros b Hb Hu. unfold get_blog, Db.findOneAndUpdate. rewrite Hb.
    assert (Hauthor : forall a f, Db.doc_author (Db.select_blog a f (users s) b)
                                  = None).
    { intros a f. unfold Db.select_blog, Db.populate_author.
      cbn [Db.doc_author]. now rewrite Hu. }
    rewrite Hauthor. cbn [fst snd users with_posts].
    split; [reflexivity|]. split; [reflexivity|].
    unfold post_reads. cbn [posts with_posts].
    rewrite findOne_update_first_same by reflexivity. rewrite Hb.
    cbn [option_map]. f_equal. simpl. f_equal.
    destruct (get_mode body) as [mode|]; [|reflexivity].
    destruct (mode =? "edit"); reflexivity.
Qed.

(** ** [/add-comment]: the counter of parent comments, and a comment on
    no post *)

(** X19: after a comment on a stored post the post's
    [total_parent_comments] is 1, whatever it was: the update document
    names the counter outside [$inc]. *)
Theorem add_comment_parent_comments_is_1
    (user_id : ObjectId) (env : Env) (body : AddCommentBody) (s : Store)
    (b : Blog) :
  Js.is_empty (add_comment body) = false ->
  post_by_id (add__id body) s = Some b ->
  post_parent_comments (add__id body)
    (snd (add_comment_handler user_id env body s)) = Some 1%Z.
Proof.
  intros Hne Hb. rewrite (add_comment_effects user_id env body s Hne).
  unfold post_parent_comments, post_by_id in *. cbn [snd posts].
  rewrite findOne_update_first_same by reflexivity.
  now rewrite Hb.
Qed.

(** X20: a comment on an [_id] no post has is answered 200 all the
    same: the Comment and the Notification are stored, and no post
    changes. *)
Theorem add_comment_without_post
    (user_id : ObjectId) (env : Env) (body : AddCommentBody) (s : Store) :
  Js.is_empty (add_comment body) = false ->
  post_by_id (add__id body) s = None ->
  let s' := snd (add_comment_handler user_id env body s) in
  fst (add_comment_handler user_id env body s)
  = Sent 200 (NewComment (add_comment body) (now env) (objectId env)
                user_id [])
  /\ posts s' = posts s
  /\ users s' = users s
  /\ List.length (comment_docs s') = S (List.length (comment_docs s))
  /\ List.length (notifications s') = S (List.length (notifications s)).
Proof.
  intros Hne Hb s'. subst s'.
  rewrite (add_comment_effects user_id env body s Hne). cbn [fst snd].
  unfold post_by_id in Hb. cbn [posts users comment_docs notifications].
  rewrite update_first_no_match by exact Hb.
  rewrite !length_app. simpl. repeat split; lia.
Qed.

(** ** The editor page *)

(** X21: when the editor opens, the store stays as it is and the page
    stops loading.  With the [blog_id] of a stored post whose author is
    a stored user, the editor holds that post, draft or not; with a
    [blog_id] no post has, it holds [null]; without a [blog_id] it keeps
    the empty [blogStructure] and asks nothing. *)
Theorem editor_effect_loads_post (blog_id : option string) (s : Store) :
  snd (editor_effect blog_id s) = s
  /\ loading (fst (editor_effect blog_id s)) = false
  /\ (blog_id = None ->
      editor_blog (fst (editor_effect blog_id s)) = blogStructure)
  /\ (forall id b u,
        blog_id = Some id -> id <> EmptyString ->
        Db.findOne (Db.holds (Db.BlogIdIs id)) (posts s) = Some b ->
        Db.findOne (fun v => (user_id v =? author b)%N) (users s) = Some u ->
        editor_blog (fst (editor_effect blog_id s))
        = Fetched
            (Db.select_blog
               "personal_info.fullname personal_info.username personal_info.profile_img"
               "title des content banner activity publishedAt blog_id tags"
               (users s) b))
  /\ (forall id,
        blog_id = Some id -> id <> EmptyString ->
        Db.findOne (Db.holds (Db.BlogIdIs id)) (posts s) = None ->
        editor_blog (fst (editor_effect blog_id s)) = NoBlog).
Proof.
  assert (Hstore : forall id, snd (get_blog (editor_request id) s) = s).
  { intros id. apply get_blog_edit_store. reflexivity. }
  split; [|split; [|split; [|split]]].
  - unfold editor_effect. destruct blog_id as [id|]; [|reflexivity].
    destruct (Js.truthy_str id); [|reflexivity].
    specialize (Hstore id).
    destruct (get_blog (editor_request id) s) as [r s'].
    cbn [snd] in Hstore. subst s'.
    repeat match goal with
           | |- context [match ?x with _ => _ end] => destruct x
           end; reflexivity.
  - unfold editor_effect. destruct blog_id as [id|]; [|reflexivity].
    destruct (Js.truthy_str id); [|reflexivity].
    destruct (get_blog (editor_request id) s) as [r s'].
    repeat match goal with
           | |- context [match ?x with _ => _ end] => destruct x
           end; reflexivity.
  - intros ->. reflexivity.
  - intros id b u -> Hne Hb Hu. unfold editor_effect.
    rewrite (truthy_str_not_empty Hne).
    pose proof (get_blog_found (editor_request id) s Hb Hu) as Hget.
    cbv zeta in Hget. rewrite Hget. reflexivity.
  - intros id -> Hne Hb. unfold editor_effect.
    rewrite (truthy_str_not_empty Hne).
    unfold get_blog, Db.findOneAndUpdate.
    change (get_blog_id (editor_request id)) with id. rewrite Hb.
    reflexivity.
Qed.

(** ** [/search-users] and [/get-profile] *)

(** X22: [/search-users] lists at most 50 users, without their [_id];
    the username of each matches the pattern of the query, and
    [/get-profile] with that username sends a profile with that
    username. *)
Theorem search_users_then_get_profile
    (RegExp_i : string -> option (string -> bool))
    (query : string) (s : Store) (listed : list Db.UserDoc) (d : Db.UserDoc) :
  fst (search_users RegExp_i query s) = UsersSent 200 listed ->
  In d listed ->
  (List.length listed <= 50)%nat
  /\ Db.doc_user_id d = None
  /\ exists name re profile,
       Db.doc_username d = Some name
       /\ RegExp_i query = Some re /\ re name = true
       /\ get_profile name s = (ProfileSent 200 (Some profile), s)
       /\ profile_username profile = name.
Proof.
  unfold search_users. destruct (RegExp_i query) as [re|]; [|discriminate].
  cbn [fst]. intros H Hd.
  assert (Hl : listed
               = map (Db.select_user
                        "personal_info.fullname personal_info.username personal_info.profile_img -_id")
                   (Db.limit 50
                      (List.filter (fun u => re (username (personal_info u)))
                         (users s)))) by congruence.
  clear H. subst listed.
  split.
  { rewrite length_map. unfold Db.limit. rewrite length_firstn. lia. }
  apply in_map_iff in Hd. destruct Hd as [u [<- Hu]].
  split; [reflexivity|].
  unfold Db.limit in Hu. apply In_firstn in Hu. apply filter_In in Hu.
  destruct Hu as [Hin Hre].
  destruct (Db.findOne (username_is (username (personal_info u))) (users s))
    as [v|] eqn:Hfind.
  - exists (username (personal_info u)), re, (select_profile v).
    split; [reflexivity|]. split; [reflexivity|]. split; [exact Hre|].
    unfold get_profile. rewrite Hfind. split; [reflexivity|].
    apply findOne_some in Hfind. destruct Hfind as [_ Hv].
    unfold username_is in Hv. now apply String.eqb_eq in Hv.
  - exfalso. rewrite findOne_none in Hfind. specialize (Hfind u Hin).
    unfold username_is in Hfind. rewrite String.eqb_refl in Hfind.
    discriminate.
Qed.

(** A username nobody holds is answered 200 with [null]. *)
Lemma get_profile_unknown (name : string) (s : Store) :
  (forall u, In u (users s) -> username (personal_info u) <> name) ->
  get_profile name s = (ProfileSent 200 None, s).
Proof.
  intros H. unfold get_profile.
  assert (Hnone : Db.findOne (username_is name) (users s) = None).
  { apply findOne_none. intros u Hu. unfold username_is.
    apply String.eqb_neq. exact (H u Hu). }
  now rewrite Hnone.
Qed.

(** ** The publish button and the checks of [/create-blog] *)

(** X23: the editor moves on to the publish form only with a banner, a
    title, a ready text editor and saved content of one block or more;
    and a request with that banner, title and content, whatever else it
    holds, is refused by [/create-blog] for its description or its tags
    only. *)
Theorem handlePublishEvent_to_publish_form
    (banner title : string) (isReady : bool) (saved : option Content)
    (data : Content) :
  handlePublishEvent banner title isReady saved = ToPublishForm data ->
  banner <> EmptyString /\ title <> EmptyString /\ isReady = true
  /\ saved = Some data /\ blocks data <> []
  /\ forall des tags draft id,
       let body :=
         {| create_title := title; create_des := des;
            create_banner := banner; create_tags := tags;
            create_content := data; create_draft := draft;
            create_id := id |} in
       create_blog_checks body = None
       \/ create_blog_checks body
          = Some "You must provide blog description under 200 characters"
       \/ create_blog_checks body
          = Some "Provide tags in order to publish the blog, Maximum is 10".
Proof.
  unfold handlePublishEvent.
  destruct (Js.is_empty banner) eqn:Hbanner; [discriminate|].
  destruct (Js.is_empty title) eqn:Htitle; [discriminate|].
  destruct isReady; [|discriminate].
  destruct saved as [d|]; [|discriminate].
  destruct (Z.of_nat (List.length (blocks d)) =? 0)%Z eqn:Hblocks;
    [discriminate|].
  intros H. injection H as ->.
  assert (Hb : banner <> EmptyString).
  { intros ->. discriminate Hbanner. }
  assert (Ht : title <> EmptyString).
  { intros ->. discriminate Htitle. }
  split; [exact Hb|]. split; [exact Ht|]. split; [reflexivity|].
  split; [reflexivity|]. split.
  - intros Hnil. rewrite Hnil in Hblocks. simpl in Hblocks.
    discriminate Hblocks.
  - intros d t flag i.
    unfold create_blog_checks, publish_checks.
    cbn [create_title create_des create_banner create_tags create_content
         create_draft].
    rewrite Htitle, Hbanner, Hblocks.
    destruct (negb (Js.truthy_opt_bool flag)); [|auto].
    destruct (Js.is_empty d || (200 <? Js.length d)%Z); [auto|].
    destruct ((Z.of_nat (List.length t) =? 0)%Z
              || (10 <? Z.of_nat (List.length t))%Z); auto.
Qed.

(** ** [verifyJWT] *)

Lemma split_at_separator (sep : ascii) (l d : string) :
  every (fun c => negb (Ascii.eqb c sep)) l = true ->
  Js.split sep (l ++ String sep d) = l :: Js.split sep d.
Proof.
  induction l as [|c l IH]; simpl.
  - now rewrite Ascii.eqb_refl.
  - intros H. apply andb_true_iff in H. destruct H as [Hc Hl].
    apply negb_true_iff in Hc. now rewrite Hc, (IH Hl).
Qed.

Lemma split_without_separator (sep : ascii) (d : string) :
  every (fun c => negb (Ascii.eqb c sep)) d = true ->
  Js.split sep d = [d].
Proof.
  induction d as [|c d IH]; simpl; [reflexivity|].
  intros H. apply andb_true_iff in H. destruct H as [Hc Hd].
  apply negb_true_iff in Hc. now rewrite Hc, (IH Hd).
Qed.

(** X24: behind [verifyJWT], a header of a scheme word, a space and a
    token without spaces runs the handler with the user id the token
    verifies to, and is answered 403 when the token does not verify; a
    request without the header is answered 401, and so is a header
    that is a token alone, with no scheme word before it, even if the
    token would verify.  Whenever the answer is 401 or 403 the store is
    left as it is. *)
Theorem verifyJWT_bearer
    (jwt_verify : string -> option ObjectId)
    (next : ObjectId -> Store -> Reply * Store)
    (scheme token : string) (s : Store) :
  every (fun c => negb (Ascii.eqb c " ")) scheme = true ->
  every (fun c => negb (Ascii.eqb c " ")) token = true ->
  verifyJWT jwt_verify (Some (scheme ++ String " " token)) next s
  = match jwt_verify token with
    | Some id => next id s
    | None => (Sent 403 (Error "Access token is invalid"), s)
    end
  /\ (token <> EmptyString ->
      verifyJWT jwt_verify (Some token) next s
      = (Sent 401 (Error "No access token"), s))
  /\ verifyJWT jwt_verify None next s
     = (Sent 401 (Error "No access token"), s).
Proof.
  intros Hscheme Htoken. unfold verifyJWT. split; [|split].
  - assert (Htruthy : Js.truthy_str (scheme ++ String " " token) = true).
    { apply truthy_str_not_empty. destruct scheme; discriminate. }
    rewrite Htruthy, (split_at_separator " " scheme token Hscheme),
      (split_without_separator " " token Htoken).
    reflexivity.
  - intros Hne. rewrite (truthy_str_not_empty Hne),
      (split_without_separator " " token Htoken).
    reflexivity.
  - reflexivity.
Qed.

(** ** What every reachable store satisfies *)

Lemma Forall_update_first (Doc : Type) (P : Doc -> Prop) (p : Doc -> bool)
    (f : Doc -> Doc) (l : list Doc) :
  (forall x, P x -> P (f x)) -> Forall P l -> Forall P (Db.update_first p f l).
Proof.
  intros Hf H. induction H as [|x l Hx Hl IH]; simpl; [constructor|].
  destruct (p x); constructor; auto.
Qed.

Lemma Forall_save (Doc : Type) (P : Doc -> Prop) (d : Doc) (l : list Doc) :
  P d -> Forall P l -> Forall P (Db.save d l).
Proof.
  intros Hd Hl. unfold Db.save. apply Forall_app. split; [exact Hl|].
  constructor; [exact Hd | constructor].
Qed.

Lemma verifyJWT_store
    (jwt_verify : string -> option ObjectId) (authorization : option string)
    (next : ObjectId -> Store -> Reply * Store) (s : Store) :
  snd (verifyJWT jwt_verify authorization next s) = s
  \/ exists id, verifyJWT jwt_verify authorization next s = next id s.
Proof.
  unfold verifyJWT.
  destruct (match authorization with
            | Some authHeader =>
                if Js.truthy_str authHeader
                then Js.index (Js.split " " authHeader) 1
                else Some authHeader
            | None => None
            end) as [t|]; [|now left].
  destruct (jwt_verify t) as [id|]; [right; eauto | now left].
Qed.

(** How [/create-blog] changes the posts: not at all, by an update of
    the fields of the request, or by one new post. *)
Lemma create_blog_posts
    (authorId : ObjectId) (env : Env) (body : CreateBlogBody) (s : Store) :
  posts (snd (create_blog authorId env body s)) = posts s
  \/ (create_blog_checks body = None
      /\ exists id,
           posts (snd (create_blog authorId env body s))
           = Db.update_first (Db.holds (Db.BlogIdIs id))
               (set_post_fields (create_title body) (create_des body)
                  (create_banner body) (create_content body)
                  (map Js.toLowerCase (create_tags body))
                  (Js.truthy_opt_bool (create_draft body)))
               (posts s))
  \/ (create_blog_checks body = None
      /\ exists id,
           posts (snd (create_blog authorId env body s))
           = Db.save
               {| blog__id := objectId env; blog_id := id;
                  title := create_title body;
                  banner := create_banner body; des := create_des body;
                  content := create_content body;
                  tags := map Js.toLowerCase (create_tags body);
                  author := authorId;
                  activity :=
                    {| total_likes := 0; total_comments := 0;
                       total_reads := 0; total_parent_comments := 0 |};
                  comments := [];
                  draft := Js.truthy_opt_bool (create_draft body);
                  publishedAt := now env |} (posts s)).
Proof.
  unfold create_blog.
  destruct (create_blog_checks body) eqn:Hchecks; [now left|].
  destruct (Js.truthy_opt_str (create_id body)).
  - right. left. split; [reflexivity|]. eexists. reflexivity.
  - unfold save_blog. destruct (Db.exists_ _ (posts s)).
    + now left.
    + right. right. split; [reflexivity|]. eexists. reflexivity.
Qed.

Lemma get_blog_posts (body : GetBlogBody) (s : Store) :
  exists n,
    (n = 0 \/ n = 1)%Z
    /\ posts (snd (get_blog body s))
       = Db.update_first (Db.holds (Db.BlogIdIs (get_blog_id body)))
           (inc_total_reads n) (posts s).
Proof.
  unfold get_blog, Db.findOneAndUpdate.
  match goal with
  | |- context [inc_total_reads ?k] => exists k
  end.
  split.
  - destruct (get_mode body) as [mode|]; [|now right].
    destruct (mode =? "edit"); auto.
  - destruct (Db.findOne _ (posts s)); [|reflexivity].
    destruct (Db.doc_author _); [|reflexivity].
    destruct (_ && _); reflexivity.
Qed.

Lemma get_blog_users (body : GetBlogBody) (s : Store) :
  users (snd (get_blog body s)) = users s
  \/ exists n name,
       (n = 0 \/ n = 1)%Z
       /\ users (snd (get_blog body s))
          = Db.update_first (username_is name) (inc_account_total_reads n)
              (users s).
Proof.
  unfold get_blog, Db.findOneAndUpdate.
  destruct (Db.findOne _ (posts s)); [|now left].
  destruct (Db.doc_author _) as [a|]; [|now left].
  destruct (Db.doc_username a) as [name|].
  - right.
    match goal with
    | |- context [inc_account_total_reads ?k] => exists k
    end.
    exists name. split.
    + destruct (get_mode body) as [mode|]; [|now right].
      destruct (mode =? "edit"); auto.
    + destruct (_ && _); reflexivity.
  - left. destruct (_ && _); reflexivity.
Qed.

Lemma like_blog_posts
    (user_id : ObjectId) (env : Env) (body : LikeBlogBody) (s : Store) :
  exists n,
    posts (snd (like_blog user_id env body s))
    = Db.update_first (Db.holds (Db.IdIs (like__id body)))
        (inc_total_likes n) (posts s).
Proof.
  unfold like_blog, Db.findOneAndUpdate, Db.findOneAndDelete.
  destruct (islikedByUser body); cbn [negb].
  - eexists. reflexivity.
  - destruct (Db.findOne _ (posts s)); eexists; reflexivity.
Qed.

Lemma add_comment_posts
    (user_id : ObjectId) (env : Env) (body : AddCommentBody) (s : Store) :
  posts (snd (add_comment_handler user_id env body s)) = posts s
  \/ posts (snd (add_comment_handler user_id env body s))
     = Db.update_first (Db.holds (Db.IdIs (add__id body)))
         (fun b => set_total_parent_comments 1
                     (inc_total_comments 1 (push_comment (objectId env) b)))
         (posts s).
Proof.
  destruct (Js.is_empty (add_comment body)) eqn:He.
  - left. unfold add_comment_handler. now rewrite He.
  - right. now rewrite (add_comment_effects user_id env body s He).
Qed.

Lemma signup_store
    (jwt_sign : ObjectId -> string) (env : Env) (body : SignupBody)
    (s : Store) :
  snd (signup jwt_sign env body s) = s
  \/ snd (signup jwt_sign env body s)
     = with_users
         (Db.save
            {| user_id := objectId env;
               personal_info :=
                 {| fullname := signup_fullname body;
                    email := signup_email body;
                    password := Some (hashedPassword env);
                    username :=
                      generateUsername (users s) (nanoid env)
                        (signup_email body);
                    profile_img := avatar env |};
               account_info :=
                 {| total_posts := 0; account_total_reads := 0 |};
               google_auth := false; blogs := [] |} (users s)) s.
Proof.
  unfold signup.
  repeat match goal with
         | |- context [if ?c then (_, s) else _] => destruct c; [now left|]
         end.
  unfold save_user. destruct (_ || _); [now left|]. now right.
Qed.

Lemma google_auth_store
    (jwt_sign : ObjectId -> string)
    (verifyIdToken : string -> option DecodedUser)
    (env : Env) (token : string) (s : Store) :
  snd (google_auth_signin jwt_sign verifyIdToken env token s) = s
  \/ exists decoded,
       snd (google_auth_signin jwt_sign verifyIdToken env token s)
       = with_users
           (Db.save
              {| user_id := objectId env;
                 personal_info :=
                   {| fullname := decoded_name decoded;
                      email := decoded_email decoded;
                      password := None;
                      username :=
                        generateUsername (users s) (nanoid env)
                          (decoded_email decoded);
                      profile_img :=
                        replace_first "s96-c" "s384-c"
                          (decoded_picture decoded) |};
                 account_info :=
                   {| total_posts := 0; account_total_reads := 0 |};
                 google_auth := true; blogs := [] |} (users s)) s.
Proof.
  unfold google_auth_signin.
  destruct (verifyIdToken token) as [decoded|]; [|now left].
  destruct (Db.findOne _ (users s)) as [u|].
  - left. destruct (negb (google_auth u)); reflexivity.
  - unfold save_user. destruct (_ || _); [now left|].
    right. exists decoded. reflexivity.
Qed.

Lemma signin_store
    (jwt_sign : ObjectId -> string)
    (bcrypt_compare : string -> string -> option bool)
    (body : SigninBody) (s : Store) :
  snd (signin jwt_sign bcrypt_compare body s) = s.
Proof.
  unfold signin. destruct (Db.findOne _ (users s)) as [u|]; [|reflexivity].
  destruct (negb (google_auth u)); [|reflexivity].
  destruct (compare_password _ _ _) as [[|]|]; reflexivity.
Qed.

Lemma search_blogs_store
    (RegExp_i : string -> option (string -> bool)) (body : SearchBody)
    (s : Store) :
  snd (search_blogs RegExp_i body s) = s
  /\ snd (search_blogs_count RegExp_i body s) = s.
Proof.
  split.
  - unfold search_blogs. destruct (search_findQuery _ _); [reflexivity|].
    destruct (Db.skip _ _); reflexivity.
  - unfold search_blogs_count.
    repeat match goal with
           | |- context [match ?x with _ => _ end] => destruct x
           end; reflexivity.
Qed.

Lemma latest_blogs_store (page : Z) (s : Store) : snd (latest_blogs page s) = s.
Proof. unfold latest_blogs. destruct (Db.skip _ _); reflexivity. Qed.

Lemma search_users_store
    (RegExp_i : string -> option (string -> bool)) (query : string)
    (s : Store) :
  snd (search_users RegExp_i query s) = s.
Proof. unfold search_users. destruct (RegExp_i query); reflexivity. Qed.

Section Reachable.

Variable jwt_sign : ObjectId -> string.
Variable jwt_verify : string -> option ObjectId.
Variable bcrypt_compare : string -> string -> option bool.
Variable RegExp_i : string -> option (string -> bool).
Variable verifyIdToken : string -> option DecodedUser.

(** A property of posts that the updates of the handlers keep and the
    posts [/create-blog] writes have holds of all posts after a
    request. *)
Lemma serve_posts (P : Blog -> Prop) (env : Env) (req : Request) (s : Store) :
  (forall n b, (n = 0 \/ n = 1)%Z -> P b -> P (inc_total_reads n b)) ->
  (forall n b, P b -> P (inc_total_likes n b)) ->
  (forall c b,
     P b ->
     P (set_total_parent_comments 1 (inc_total_comments 1 (push_comment c b)))) ->
  (forall body b,
     create_blog_checks body = None -> P b ->
     P (set_post_fields (create_title body) (create_des body)
          (create_banner body) (create_content body)
          (map Js.toLowerCase (create_tags body))
          (Js.truthy_opt_bool (create_draft body)) b)) ->
  (forall body _id id authorId at_,
     create_blog_checks body = None ->
     P {| blog__id := _id; blog_id := id; title := create_title body;
          banner := create_banner body; des := create_des body;
          content := create_content body;
          tags := map Js.toLowerCase (create_tags body);
          author := authorId;
          activity := {| total_likes := 0; total_comments := 0;
                         total_reads := 0; total_parent_comments := 0 |};
          comments := []; draft := Js.truthy_opt_bool (create_draft body);
          publishedAt := at_ |}) ->
  Forall P (posts s) ->
  Forall P
    (posts (serve jwt_sign jwt_verify bcrypt_compare RegExp_i verifyIdToken
              env req s)).
Proof.
  intros Hreads Hlikes Hcomment Hupdate Hnew Hs.
  destruct req; unfold serve.
  - destruct (signup_store jwt_sign env body s) as [->| ->]; exact Hs.
  - now rewrite signin_store.
  - destruct (google_auth_store jwt_sign verifyIdToken env access_token s)
      as [->|[d ->]]; exact Hs.
  - now rewrite latest_blogs_store.
  - exact Hs.
  - exact Hs.
  - now rewrite (proj1 (search_blogs_store RegExp_i body s)).
  - now rewrite (proj2 (search_blogs_store RegExp_i body s)).
  - now rewrite search_users_store.
  - exact Hs.
  - unfold route_create_blog.
    destruct (verifyJWT_store jwt_verify authorization
                (fun id => create_blog id env body) s) as [->|[id ->]];
      [exact Hs|].
    destruct (create_blog_posts id env body s)
      as [->|[[Hc [i ->]]|[Hc [i ->]]]]; [exact Hs| |].
    + apply Forall_update_first; [|exact Hs]. intros b. apply Hupdate, Hc.
    + apply Forall_save; [|exact Hs]. apply Hnew, Hc.
  - destruct (get_blog_posts body s) as [n [Hn ->]].
    apply Forall_update_first; [|exact Hs]. intros b. apply Hreads, Hn.
  - unfold route_like_blog.
    destruct (verifyJWT_store jwt_verify authorization
                (fun id => like_blog id env body) s) as [->|[id ->]];
      [exact Hs|].
    destruct (like_blog_posts id env body s) as [n ->].
    apply Forall_update_first; [|exact Hs]. intros b. apply Hlikes.
  - unfold route_isliked_by_user.
    destruct (verifyJWT_store jwt_verify authorization
                (fun id => isliked_by_user id _id) s) as [->|[id ->]];
      exact Hs.
  - unfold route_add_comment.
    destruct (verifyJWT_store jwt_verify authorization
                (fun id => add_comment_handler id env body) s)
      as [->|[id ->]]; [exact Hs|].
    destruct (add_comment_posts id env body s) as [->| ->]; [exact Hs|].
    apply Forall_update_first; [|exact Hs]. intros b. apply Hcomment.
Qed.

End Reachable.

Lemma create_blog_users
    (authorId : ObjectId) (env : Env) (body : CreateBlogBody) (s : Store) :
  users (snd (create_blog authorId env body s)) = users s
  \/ exists n,
       (n = 0 \/ n = 1)%Z
       /\ users (snd (create_blog authorId env body s))
          = Db.update_first (fun u => (user_id u =? authorId)%N)
              (inc_total_posts_push_blog n (objectId env)) (users s).
Proof.
  unfold create_blog, Db.findOneAndUpdate.
  destruct (create_blog_checks body); [now left|].
  destruct (Js.truthy_opt_str (create_id body)); [now left|].
  destruct (save_blog _ _); [now left|].
  right. eexists. split; [|reflexivity].
  destruct (Js.truthy_opt_bool (create_draft body)); auto.
Qed.

Lemma like_blog_users
    (user_id : ObjectId) (env : Env) (body : LikeBlogBody) (s : Store) :
  users (snd (like_blog user_id env body s)) = users s.
Proof.
  unfold like_blog, Db.findOneAndUpdate, Db.findOneAndDelete.
  destruct (negb (islikedByUser body)); [|reflexivity].
  destruct (Db.findOne _ (posts s)); reflexivity.
Qed.

Lemma add_comment_users
    (user_id : ObjectId) (env : Env) (body : AddCommentBody) (s : Store) :
  users (snd (add_comment_handler user_id env body s)) = users s.
Proof.
  destruct (Js.is_empty (add_comment body)) eqn:He.
  - unfold add_comment_handler. now rewrite He.
  - now rewrite (add_comment_effects user_id env body s He).
Qed.

Section ReachableUsers.

Variable jwt_sign : ObjectId -> string.
Variable jwt_verify : string -> option ObjectId.
Variable bcrypt_compare : string -> string -> option bool.
Variable RegExp_i : string -> option (string -> bool).
Variable verifyIdToken : string -> option DecodedUser.

(** A property of users that the updates of the handlers keep and the
    users [/signup] and [/google-auth] write have holds of all users
    after a request. *)
Lemma serve_users (P : User -> Prop) (env : Env) (req : Request) (s : Store) :
  (forall n b u, (n = 0 \/ n = 1)%Z -> P u ->
                 P (inc_total_posts_push_blog n b u)) ->
  (forall n u, (n = 0 \/ n = 1)%Z -> P u -> P (inc_account_total_reads n u)) ->
  (forall _id name mail hash uname img,
     P {| user_id := _id;
          personal_info :=
            {| fullname := name; email := mail; password := Some hash;
               username := uname; profile_img := img |};
          account_info := {| total_posts := 0; account_total_reads := 0 |};
          google_auth := false; blogs := [] |}) ->
  (forall _id name mail uname img,
     P {| user_id := _id;
          personal_info :=
            {| fullname := name; email := mail; password := None;
               username := uname; profile_img := img |};
          account_info := {| total_posts := 0; account_total_reads := 0 |};
          google_auth := true; blogs := [] |}) ->
  Forall P (users s) ->
  Forall P
    (users (serve jwt_sign jwt_verify bcrypt_compare RegExp_i verifyIdToken
              env req s)).
Proof.
  intros Hposts Hreads Hsignup Hgoogle Hs.
  destruct req; unfold serve.
  - destruct (signup_store jwt_sign env body s) as [->| ->]; [exact Hs|].
    apply Forall_save; [apply Hsignup | exact Hs].
  - now rewrite signin_store.
  - destruct (google_auth_store jwt_sign verifyIdToken env access_token s)
      as [->|[d ->]]; [exact Hs|].
    apply Forall_save; [apply Hgoogle | exact Hs].
  - now rewrite latest_blogs_store.
  - exact Hs.
  - exact Hs.
  - now rewrite (proj1 (search_blogs_store RegExp_i body s)).
  - now rewrite (proj2 (search_blogs_store RegExp_i body s)).
  - now rewrite search_users_store.
  - exact Hs.
  - unfold route_create_blog.
    destruct (verifyJWT_store jwt_verify authorization
                (fun id => create_blog id env body) s) as [->|[id ->]];
      [exact Hs|].
    destruct (create_blog_users id env body s) as [->|[n [Hn ->]]];
      [exact Hs|].
    apply Forall_update_first; [|exact Hs]. intros u. apply Hposts, Hn.
  - destruct (get_blog_users body s) as [->|[n [name [Hn ->]]]]; [exact Hs|].
    apply Forall_update_first; [|exact Hs]. intros u. apply Hreads, Hn.
  - unfold route_like_blog.
    destruct (verifyJWT_store jwt_verify authorization
                (fun id => like_blog id env body) s) as [->|[id ->]];
      [exact Hs|].
    now rewrite like_blog_users.
  - unfold route_isliked_by_user.
    destruct (verifyJWT_store jwt_verify authorization
                (fun id => isliked_by_user id _id) s) as [->|[id ->]];
      exact Hs.
  - unfold route_add_comment.
    destruct (verifyJWT_store jwt_verify authorization
                (fun id => add_comment_handler id env body) s)
      as [->|[id ->]]; [exact Hs|].
    now rewrite add_comment_users.
Qed.

End ReachableUsers.

Lemma create_blog_checks_pass (body : CreateBlogBody) :
  create_blog_checks body = None ->
  create_title body <> EmptyString
  /\ (Js.truthy_opt_bool (create_draft body) = false ->
      create_des body <> EmptyString
      /\ (Js.length (create_des body) <= 200)%Z
      /\ create_banner body <> EmptyString
      /\ blocks (create_content body) <> []
      /\ create_tags body <> []
      /\ (List.length (create_tags body) <= 10)%nat).
Proof.
  unfold create_blog_checks, publish_checks.
  destruct (Js.is_empty (create_title body)) eqn:Htitle; [discriminate|].
  intros H. split.
  { intros Ht. rewrite Ht in Htitle. discriminate. }
  intros Hdraft. rewrite Hdraft in H. cbn [negb] in H.
  destruct (Js.is_empty (create_des body)) eqn:Hdes; [discriminate|].
  cbn [orb] in H.
  destruct (200 <? Js.length (create_des body))%Z eqn:Hlen; [discriminate|].
  destruct (Js.is_empty (create_banner body)) eqn:Hbanner; [discriminate|].
  destruct (Z.of_nat (List.length (blocks (create_content body))) =? 0)%Z
    eqn:Hblocks; [discriminate|].
  destruct (Z.of_nat (List.length (create_tags body)) =? 0)%Z eqn:Htags;
    [discriminate|].
  cbn [orb] in H.
  destruct (10 <? Z.of_nat (List.length (create_tags body)))%Z eqn:Hmany;
    [discriminate|].
  apply Z.ltb_ge in Hlen, Hmany.
  repeat split.
  - intros E. rewrite E in Hdes. discriminate.
  - exact Hlen.
  - intros E. rewrite E in Hbanner. discriminate.
  - intros E. rewrite E in Hblocks. discriminate.
  - intros E. rewrite E in Htags. discriminate.
  - lia.
Qed.

Lemma lower_char_idempotent (c : ascii) :
  Js.lower_char (Js.lower_char c) = Js.lower_char c.
Proof. destruct c as [[] [] [] [] [] [] [] []]; reflexivity. Qed.

Lemma toLowerCase_idempotent (t : string) :
  Js.toLowerCase (Js.toLowerCase t) = Js.toLowerCase t.
Proof.
  induction t as [|c t IH]; simpl; [reflexivity|].
  now rewrite lower_char_idempotent, IH.
Qed.

Lemma filter_none_on (A : Type) (f : A -> bool) (l : list A) :
  (forall x, In x l -> f x = false) -> List.filter f l = [].
Proof.
  induction l as [|x l IH]; simpl; [reflexivity|].
  intros H. rewrite (H x (or_introl eq_refl)). apply IH.
  intros y Hy. apply H. now right.
Qed.

Section Invariants.

Variable jwt_sign : ObjectId -> string.
Variable jwt_verify : string -> option ObjectId.
Variable bcrypt_compare : string -> string -> option bool.
Variable RegExp_i : string -> option (string -> bool).
Variable verifyIdToken : string -> option DecodedUser.

(** X25: in every store requests lead to from the empty store, every
    post has a title, and every published post has a description of 1
    to 200 characters, a banner, at least one block of content and 1 to
    10 tags. *)
Theorem reachable_posts_well_formed (s : Store) :
  reachable jwt_sign jwt_verify bcrypt_compare RegExp_i verifyIdToken s ->
  Forall well_formed_post (posts s).
Proof.
  intros H. induction H as [|env req s _ IH]; [constructor|].
  assert (Hnew : forall body,
             create_blog_checks body = None ->
             create_title body <> EmptyString
             /\ (Js.truthy_opt_bool (create_draft body) = false ->
                 create_des body <> EmptyString
                 /\ (Js.length (create_des body) <= 200)%Z
                 /\ create_banner body <> EmptyString
                 /\ blocks (create_content body) <> []
                 /\ map Js.toLowerCase (create_tags body) <> []
                 /\ (List.length (map Js.toLowerCase (create_tags body))
                     <= 10)%nat)).
  { intros body Hc. destruct (create_blog_checks_pass body Hc) as [Ht Hp].
    split; [exact Ht|]. intros Hd.
    destruct (Hp Hd) as [H1 [H2 [H3 [H4 [H5 H6]]]]].
    rewrite length_map. repeat split; auto.
    destruct (create_tags body); [contradiction | discriminate]. }
  apply serve_posts; try exact IH.
  - intros n b _ Hb. exact Hb.
  - intros n b Hb. exact Hb.
  - intros c b Hb. exact Hb.
  - intros body b Hc _. exact (Hnew body Hc).
  - intros body _id id authorId at_ Hc. exact (Hnew body Hc).
Qed.

(** X26: in every reachable store the tags of every post are in lower
    case; so a search for a tag that is not in lower case lists no
    post on any page from 1 on. *)
Theorem reachable_tags_lower_case (s : Store) :
  reachable jwt_sign jwt_verify bcrypt_compare RegExp_i verifyIdToken s ->
  Forall lower_case_tags (posts s)
  /\ forall body tag,
       search_tag body = Some tag -> Js.toLowerCase tag <> tag ->
       (1 <= search_page body)%Z ->
       search_blogs RegExp_i body s = (Sent 200 (Blogs []), s).
Proof.
  intros H.
  assert (Hlower : Forall lower_case_tags (posts s)).
  { induction H as [|env req s _ IH]; [constructor|].
    assert (Hnew : forall body,
               Forall (fun tag => Js.toLowerCase tag = tag)
                 (map Js.toLowerCase (create_tags body))).
    { intros body. apply Forall_map, Forall_forall. intros t _.
      apply toLowerCase_idempotent. }
    apply serve_posts; try exact IH.
    - intros n b _ Hb. exact Hb.
    - intros n b Hb. exact Hb.
    - intros c b Hb. exact Hb.
    - intros body b _ _. exact (Hnew body).
    - intros body _id id authorId at_ _. exact (Hnew body). }
  split; [exact Hlower|].
  intros body tag Htag Hcase Hpage. unfold search_blogs, search_findQuery.
  rewrite Htag. cbn [Js.truthy_opt_str].
  assert (Hne : tag <> EmptyString) by (intros ->; now apply Hcase).
  rewrite (truthy_str_not_empty Hne).
  assert (Hfound : Db.find (Some [Db.TagsHas tag; Db.DraftIs false;
                                  Db.BlogIdNe (search_eliminate_blog body)])
                     (posts s) = []).
  { cbn [Db.find]. apply filter_none_on. intros b Hb.
    rewrite Forall_forall in Hlower. specialize (Hlower b Hb).
    unfold lower_case_tags in Hlower. rewrite Forall_forall in Hlower.
    unfold Db.matches. cbn [forallb Db.holds].
    destruct (existsb (String.eqb tag) (tags b)) eqn:Hex; [|reflexivity].
    apply existsb_exists in Hex. destruct Hex as [t [Ht Heq]].
    apply String.eqb_eq in Heq. subst t.
    now specialize (Hlower tag Ht). }
  rewrite Hfound. unfold Db.sort, Db.skip. cbn [Db.sort_by fold_right].
  destruct ((search_page body - 1) * _ <? 0)%Z eqn:Hneg.
  - apply Z.ltb_lt in Hneg. nia.
  - rewrite skipn_nil. unfold Db.limit. rewrite firstn_nil. reflexivity.
Qed.

(** X27: in every reachable store every user is either a federated
    account without a password or a password account with a hash. *)
Theorem reachable_users_one_provider (s : Store) :
  reachable jwt_sign jwt_verify bcrypt_compare RegExp_i verifyIdToken s ->
  Forall one_provider (users s).
Proof.
  intros H. induction H as [|env req s _ IH]; [constructor|].
  apply serve_users; try exact IH.
  - intros n b u _ Hu. exact Hu.
  - intros n u _ Hu. exact Hu.
  - intros. right. split; [reflexivity | eexists; reflexivity].
  - intros. left. split; reflexivity.
Qed.

(** X28: in every reachable store the read and comment counters of
    every post are not negative and its counter of parent comments is 0
    or 1; the post and read counts of every user are not negative, and
    the post count is at most the length of the user's list of posts. *)
Theorem reachable_counters (s : Store) :
  reachable jwt_sign jwt_verify bcrypt_compare RegExp_i verifyIdToken s ->
  Forall counted_post (posts s) /\ Forall counted_user (users s).
Proof.
  intros H. induction H as [|env req s _ [IHp IHu]];
    [split; constructor|].
  split.
  - apply serve_posts; try exact IHp; unfold counted_post; simpl.
    + intros n b Hn Hb. lia.
    + intros n b Hb. exact Hb.
    + intros c b Hb. lia.
    + intros body b _ Hb. exact Hb.
    + intros. lia.
  - apply serve_users; try exact IHu; unfold counted_user; simpl.
    + intros n b u Hn Hu. rewrite length_app. simpl. lia.
    + intros n u Hn Hu. lia.
    + intros. lia.
    + intros. lia.
Qed.

End Invariants.

(** ** Like notifications and authors *)

Lemma findOne_update_first_keeps (Doc : Type) (p q : Doc -> bool)
    (f : Doc -> Doc) (l : list Doc) (d : Doc) :
  (forall x, q (f x) = q x) ->
  Db.findOne q l = Some d ->
  exists d', Db.findOne q (Db.update_first p f l) = Some d'
             /\ (d' = d \/ d' = f d).
Proof.
  intros Hqf. unfold Db.findOne.
  induction l as [|x l IH]; simpl; [discriminate|].
  destruct (p x) eqn:Hp; simpl.
  - rewrite Hqf. destruct (q x); intros H.
    + injection H as <-. eauto.
    + eauto.
  - destruct (q x); intros H.
    + injection H as <-. eauto.
    + exact (IH H).
Qed.

Lemma In_delete_first (Doc : Type) (p : Doc -> bool) (l : list Doc) (d : Doc) :
  In d (Db.delete_first p l) -> In d l.
Proof.
  induction l as [|x l IH]; simpl; [auto|].
  destruct (p x); simpl; intuition.
Qed.

Lemma create_blog_notifications
    (authorId : ObjectId) (env : Env) (body : CreateBlogBody) (s : Store) :
  notifications (snd (create_blog authorId env body s)) = notifications s.
Proof.
  unfold create_blog, Db.findOneAndUpdate.
  destruct (create_blog_checks body); [reflexivity|].
  destruct (Js.truthy_opt_str (create_id body)); [reflexivity|].
  destruct (save_blog _ _); reflexivity.
Qed.

Lemma get_blog_notifications (body : GetBlogBody) (s : Store) :
  notifications (snd (get_blog body s)) = notifications s.
Proof.
  unfold get_blog, Db.findOneAndUpdate.
  destruct (Db.findOne _ (posts s)); [|reflexivity].
  destruct (Db.doc_author _); [|reflexivity].
  destruct (_ && _); reflexivity.
Qed.

Lemma like_blog_notifications
    (user_id : ObjectId) (env : Env) (body : LikeBlogBody) (s : Store) :
  notifications (snd (like_blog user_id env body s)) = notifications s
  \/ (exists b,
        post_by_id (like__id body) s = Some b
        /\ notifications (snd (like_blog user_id env body s))
           = Db.save
               {| notification_id := objectId env; type := like;
                  blog := like__id body; notification_for := author b;
                  user := user_id; notification_comment := None |}
               (notifications s))
  \/ notifications (snd (like_blog user_id env body s))
     = Db.delete_first (is_like_of user_id (like__id body)) (notifications s).
Proof.
  unfold like_blog, Db.findOneAndUpdate, Db.findOneAndDelete, post_by_id.
  destruct (islikedByUser body); cbn [negb].
  - right. right. reflexivity.
  - destruct (Db.findOne _ (posts s)) as [b|]; [|now left].
    right. left. exists b. split; reflexivity.
Qed.

Lemma add_comment_notifications
    (user_id : ObjectId) (env : Env) (body : AddCommentBody) (s : Store) :
  notifications (snd (add_comment_handler user_id env body s))
  = notifications s
  \/ exists n,
       type n = comment
       /\ notifications (snd (add_comment_handler user_id env body s))
          = Db.save n (notifications s).
Proof.
  destruct (Js.is_empty (add_comment body)) eqn:He.
  - left. unfold add_comment_handler. now rewrite He.
  - right. rewrite (add_comment_effects user_id env body s He).
    eexists. split; [|reflexivity]. reflexivity.
Qed.

Section LikesAddressed.

Variable jwt_sign : ObjectId -> string.
Variable jwt_verify : string -> option ObjectId.
Variable bcrypt_compare : string -> string -> option bool.
Variable RegExp_i : string -> option (string -> bool).
Variable verifyIdToken : string -> option DecodedUser.

(** A post stays findable under its [_id], with its author. *)
Lemma serve_keeps_authors (env : Env) (req : Request) (s : Store)
    (_id : ObjectId) (b : Blog) :
  post_by_id _id s = Some b ->
  exists b',
    post_by_id _id
      (serve jwt_sign jwt_verify bcrypt_compare RegExp_i verifyIdToken
         env req s) = Some b'
    /\ author b' = author b.
Proof.
  intros Hb.
  assert (Hkeep : forall p f,
             (forall x, blog__id (f x) = blog__id x /\ author (f x) = author x) ->
             exists b',
               Db.findOne (Db.holds (Db.IdIs _id))
                 (Db.update_first p f (posts s)) = Some b'
               /\ author b' = author b).
  { intros p f Hf.
    destruct (findOne_update_first_keeps p (Db.holds (Db.IdIs _id)) f
                (posts s)) with (d := b) as [b' [Hb' Hor]].
    - intros x. simpl. now rewrite (proj1 (Hf x)).
    - exact Hb.
    - exists b'. split; [exact Hb'|].
      destruct Hor as [->| ->]; [reflexivity | apply Hf]. }
  assert (Hsame : forall s', posts s' = posts s ->
                             exists b', post_by_id _id s' = Some b'
                                        /\ author b' = author b).
  { intros s' Hs'. exists b. unfold post_by_id in *. now rewrite Hs'. }
  destruct req; unfold serve.
  - apply Hsame.
    destruct (signup_store jwt_sign env body s) as [->| ->]; reflexivity.
  - apply Hsame. now rewrite signin_store.
  - apply Hsame.
    destruct (google_auth_store jwt_sign verifyIdToken env access_token s)
      as [->|[d ->]]; reflexivity.
  - apply Hsame. now rewrite latest_blogs_store.
  - now apply Hsame.
  - now apply Hsame.
  - apply Hsame. now rewrite (proj1 (search_blogs_store RegExp_i body s)).
  - apply Hsame. now rewrite (proj2 (search_blogs_store RegExp_i body s)).
  - apply Hsame. now rewrite search_users_store.
  - now apply Hsame.
  - unfold route_create_blog.
    destruct (verifyJWT_store jwt_verify authorization
                (fun id => create_blog id env body) s) as [->|[id ->]];
      [now apply Hsame|].
    unfold post_by_id.
    destruct (create_blog_posts id env body s)
      as [->|[[_ [i ->]]|[_ [i ->]]]].
    + eauto.
    + apply Hkeep. intros x. split; reflexivity.
    + exists b. unfold Db.save. rewrite findOne_app.
      unfold post_by_id in Hb. now rewrite Hb.
  - unfold post_by_id. destruct (get_blog_posts body s) as [n [_ ->]].
    apply Hkeep. intros x. split; reflexivity.
  - unfold route_like_blog.
    destruct (verifyJWT_store jwt_verify authorization
                (fun id => like_blog id env body) s) as [->|[id ->]];
      [now apply Hsame|].
    unfold post_by_id. destruct (like_blog_posts id env body s) as [n ->].
    apply Hkeep. intros x. split; reflexivity.
  - unfold route_isliked_by_user.
    destruct (verifyJWT_store jwt_verify authorization
                (fun id => isliked_by_user id _id0) s) as [->|[id ->]];
      now apply Hsame.
  - unfold route_add_comment.
    destruct (verifyJWT_store jwt_verify authorization
                (fun id => add_comment_handler id env body) s)
      as [->|[id ->]]; [now apply Hsame|].
    unfold post_by_id.
    destruct (add_comment_posts id env body s) as [->| ->]; [eauto|].
    apply Hkeep. intros x. split; reflexivity.
Qed.

(** X29: in every reachable store every like notification is addressed
    to the author of the post it is about, and that post is stored. *)
Theorem reachable_likes_addressed_to_authors (s : Store) :
  reachable jwt_sign jwt_verify bcrypt_compare RegExp_i verifyIdToken s ->
  likes_addressed_to_authors s.
Proof.
  intros H. induction H as [|env req s _ IH].
  { intros n []. }
  assert (Hold : forall n,
             In n (notifications s) -> type n = like ->
             exists b,
               post_by_id (blog n)
                 (serve jwt_sign jwt_verify bcrypt_compare RegExp_i
                    verifyIdToken env req s) = Some b
               /\ author b = notification_for n).
  { intros n Hn Ht. destruct (IH n Hn Ht) as [b [Hb Hau]].
    destruct (serve_keeps_authors env req s (blog n) Hb) as [b' [Hb' Hau']].
    exists b'. split; [exact Hb' | congruence]. }
  assert (Hsame : notifications
                    (serve jwt_sign jwt_verify bcrypt_compare RegExp_i
                       verifyIdToken env req s) = notifications s ->
                  likes_addressed_to_authors
                    (serve jwt_sign jwt_verify bcrypt_compare RegExp_i
                       verifyIdToken env req s)).
  { intros Hn n Hin. rewrite Hn in Hin. now apply Hold. }
  destruct req.
  - apply Hsame. unfold serve.
    destruct (signup_store jwt_sign env body s) as [->| ->]; reflexivity.
  - apply Hsame. unfold serve. now rewrite signin_store.
  - apply Hsame. unfold serve.
    destruct (google_auth_store jwt_sign verifyIdToken env access_token s)
      as [->|[d ->]]; reflexivity.
  - apply Hsame. unfold serve. now rewrite latest_blogs_store.
  - apply Hsame. reflexivity.
  - apply Hsame. reflexivity.
  - apply Hsame. unfold serve.
    now rewrite (proj1 (search_blogs_store RegExp_i body s)).
  - apply Hsame. unfold serve.
    now rewrite (proj2 (search_blogs_store RegExp_i body s)).
  - apply Hsame. unfold serve. now rewrite search_users_store.
  - apply Hsame. reflexivity.
  - apply Hsame. unfold serve, route_create_blog.
    destruct (verifyJWT_store jwt_verify authorization
                (fun id => create_blog id env body) s) as [->|[id ->]];
      [reflexivity|].
    apply create_blog_notifications.
  - apply Hsame. unfold serve. apply get_blog_notifications.
  - intros n Hin Ht.
    pose proof (serve_keeps_authors env (PostLikeBlog authorization body) s)
      as Hkeep.
    revert Hin Hold Hkeep. unfold serve, route_like_blog.
    destruct (verifyJWT_store jwt_verify authorization
                (fun id => like_blog id env body) s) as [->|[id ->]].
    + intros Hin Hold _. now apply Hold.
    + intros Hin Hold Hkeep.
      destruct (like_blog_notifications id env body s)
        as [Hn|[[b [Hb Hn]]|Hn]]; rewrite Hn in Hin.
      * now apply Hold.
      * unfold Db.save in Hin. apply in_app_or in Hin.
        destruct Hin as [Hin|[<-|[]]]; [now apply Hold|].
        cbn [blog notification_for].
        destruct (Hkeep (like__id body) b Hb) as [b' [Hb' Hau]].
        exists b'. split; [exact Hb' | exact Hau].
      * apply In_delete_first in Hin. now apply Hold.
  - apply Hsame. unfold serve, route_isliked_by_user.
    destruct (verifyJWT_store jwt_verify authorization
                (fun id => isliked_by_user id _id) s) as [->|[id ->]];
      reflexivity.
  - intros n Hin Ht. revert Hin Hold. unfold serve, route_add_comment.
    destruct (verifyJWT_store jwt_verify authorization
                (fun id => add_comment_handler id env body) s)
      as [->|[id ->]].
    + intros Hin Hold. now apply Hold.
    + intros Hin Hold.
      destruct (add_comment_notifications id env body s)
        as [Hn|[c [Hc Hn]]]; rewrite Hn in Hin.
      * now apply Hold.
      * unfold Db.save in Hin. apply in_app_or in Hin.
        destruct Hin as [Hin|[<-|[]]]; [now apply Hold|].
        congruence.
Qed.

End LikesAddressed.

(** * The further properties on the sample data *)

(** The sample store [Cases.grown] is reachable. *)
Lemma grown_reachable :
  reachable Sample.sign Cases.verify Sample.compare Cases.starts_with
    Cases.decode Cases.grown.
Proof.
  unfold Cases.grown.
  repeat apply reachable_serve.
  apply reachable_empty.
Qed.

(** The username of the newcomer in the crowded store. *)
Lemma generateUsername_of_valid_email_witness :
  generateUsername (users Sample.crowded) (nanoid Sample.env) "shik@yahoo.com"
  <> EmptyString
  /\ every is_local_char
       (generateUsername (users Sample.crowded) (nanoid Sample.env)
          "shik@yahoo.com") = true.
Proof.
  assert (He : test emailRegex "shik@yahoo.com" = true)
    by (vm_compute; reflexivity).
  assert (Hn : is_nanoid (nanoid Sample.env) = true)
    by (vm_compute; reflexivity).
  destruct (@generateUsername_of_valid_email (users Sample.crowded)
              (nanoid Sample.env) "shik@yahoo.com" He Hn)
    as (l & d & _ & _ & _ & H1 & H2).
  split; [exact H1 | exact H2].
Defined.



(** The first page of the sample store holds its one published post. *)
Lemma latest_blogs_page_witness :
  exists found,
    latest_blogs 1 Sample.store
    = (Sent 200
         (Blogs (map (Db.select_blog listing_author listing_fields
                        (users Sample.store)) found)), Sample.store)
    /\ Z.of_nat (List.length found) = 1%Z.
Proof.
  assert (H : (1 <= 1)%Z) by lia.
  destruct (@latest_blogs_page 1 Sample.store H) as (found & H1 & _ & _ & H4).
  exists found. split; [exact H1 |].
  rewrite H4. vm_compute. reflexivity.
Defined.

(** A search for the tag tech that leaves the first post out. *)
Lemma search_blogs_lists_matches_witness :
  exists found,
    fst (search_blogs Cases.starts_with Cases.search_tech Cases.published)
    = Sent 200
        (Blogs (map (Db.select_blog listing_author listing_fields
                       (users Cases.published)) found))
    /\ forall b, In b found ->
         In "tech" (tags b) /\ blog_id b <> "first-post".
Proof.
  assert (H : exists listed,
             fst (search_blogs Cases.starts_with Cases.search_tech
                    Cases.published) = Sent 200 (Blogs listed))
    by (vm_compute; eexists; reflexivity).
  destruct H as [listed H].
  assert (Hq : Js.truthy_opt_str (search_tag Cases.search_tech) = true
               \/ Js.truthy_opt_str (search_query Cases.search_tech) = true
               \/ search_author Cases.search_tech <> None)
    by (left; reflexivity).
  destruct (@search_blogs_lists_matches Cases.starts_with Cases.search_tech
              Cases.published listed H Hq) as (found & Hl & _ & Hb).
  exists found. split.
  - rewrite H, Hl. reflexivity.
  - intros b Hin.
    destruct (Hb b Hin) as (_ & _ & Ht & _).
    assert (Hne : "tech" <> EmptyString) by discriminate.
    destruct (Ht "tech" eq_refl Hne) as [H1 H2].
    split; [exact H1 |].
    intros E. apply H2. simpl. now rewrite E.
Defined.

(** The count of the same search is one more than what it lists. *)
Lemma search_blogs_count_and_listing_witness :
  exists listed,
    fst (search_blogs Cases.starts_with
           (whole_listing 3 Cases.search_tech) Cases.published)
    = Sent 200 (Blogs listed)
    /\ 2%Z
       = (Z.of_nat (List.length listed)
          + Z.of_nat (List.length
                        (List.filter (eliminated_by Cases.search_tech)
                           (posts Cases.published))))%Z.
Proof.
  assert (H : exists listed,
             fst (search_blogs Cases.starts_with
                    (whole_listing 3 Cases.search_tech) Cases.published)
             = Sent 200 (Blogs listed))
    by (vm_compute; eexists; reflexivity).
  destruct H as [listed Hl].
  assert (Hc : fst (search_blogs_count Cases.starts_with Cases.search_tech
                      Cases.published) = Sent 200 (TotalDocs 2))
    by (vm_compute; reflexivity).
  assert (Hn : (List.length (posts Cases.published) <= 3)%nat)
    by (vm_compute; lia).
  assert (Hp : (0 < 3)%nat) by lia.
  exists listed. split; [exact Hl |].
  exact (@search_blogs_count_and_listing Cases.starts_with Cases.search_tech
           Cases.published 3 2 listed Hn Hp Hc Hl).
Defined.

(** The post user 1 publishes in the sample store is found again. *)
Lemma create_blog_then_get_blog_witness :
  exists doc,
    fst (get_blog {| get_blog_id := "Hello-WorldabcdeFGHIJ0123456789_";
                     get_draft := None; get_mode := None |}
           Cases.published)
    = Sent 200 (OneBlog doc)
    /\ Db.doc_title doc = Some "Hello, World"
    /\ Db.doc_tags doc = Some ["tech"; "news"].
Proof.
  assert (H : fst (create_blog 1 Sample.env Cases.publish Sample.store)
              = Sent 200 (BlogId "Hello-WorldabcdeFGHIJ0123456789_"))
    by (vm_compute; reflexivity).
  assert (Hid : Js.truthy_opt_str (create_id Cases.publish) = false)
    by reflexivity.
  assert (Hu : Db.findOne (fun v => (user_id v =? 1)%N) (users Sample.store)
               = Some Sample.shik) by reflexivity.
  destruct (@create_blog_then_get_blog 1 Sample.env Cases.publish
              Sample.store _ Sample.shik None None H Hid Hu)
    as (doc & by_ & Hg & _ & Ht & _ & _ & _ & Htags & _).
  exists doc. split; [exact Hg | split; [exact Ht | exact Htags]].
Defined.

(** User 2 rewrites the first post of user 1. *)
Lemma create_blog_update_witness :
  fst (create_blog 2 Sample.env Cases.rewrite_first_post Sample.store)
  = Sent 200 (BlogId "first-post")
  /\ option_map (fun b => (author b, title b, total_reads (activity b)))
       (Db.findOne (Db.holds (Db.BlogIdIs "first-post"))
          (posts (snd (create_blog 2 Sample.env Cases.rewrite_first_post
                         Sample.store))))
     = Some (1%N, "Taken over", 7%Z).
Proof.
  assert (Hid : create_id Cases.rewrite_first_post = Some "first-post")
    by reflexivity.
  assert (Hne : "first-post" <> EmptyString) by discriminate.
  assert (Hc : create_blog_checks Cases.rewrite_first_post = None)
    by (vm_compute; reflexivity).
  destruct (@create_blog_update 2 Sample.env Cases.rewrite_first_post
              Sample.store "first-post" Hid Hne Hc)
    as (H1 & _ & _ & _ & _ & H6).
  split; [exact H1 |].
  rewrite (H6 (Sample.mk_post 10 "first-post" 1 false 7 2 3 1000) eq_refl).
  reflexivity.
Defined.

(** The post count of user 1 after the publication. *)
Lemma create_blog_counts_published_posts_witness :
  exists u',
    Db.findOne (fun v => (user_id v =? 1)%N) (users Cases.published) = Some u'
    /\ blogs u' = [100%N]
    /\ total_posts (account_info u') = 1%Z.
Proof.
  assert (H : fst (create_blog 1 Sample.env Cases.publish Sample.store)
              = Sent 200 (BlogId "Hello-WorldabcdeFGHIJ0123456789_"))
    by (vm_compute; reflexivity).
  assert (Hid : Js.truthy_opt_str (create_id Cases.publish) = false)
    by reflexivity.
  assert (Hu : Db.findOne (fun v => (user_id v =? 1)%N) (users Sample.store)
               = Some Sample.shik) by reflexivity.
  destruct (@create_blog_counts_published_posts 1 Sample.env Cases.publish
              Sample.store _ Sample.shik H Hid Hu)
    as (u' & Hf & Hb & Hp & _).
  exists u'. split; [exact Hf | split; [exact Hb | exact Hp]].
Defined.

(** The id of the post made from the title Hello, World. *)
Lemma create_blog_id_chars_witness :
  exists id,
    fst (create_blog 1 Sample.env Cases.publish Sample.store)
    = Sent 200 (BlogId id)
    /\ id = slug "Hello, World" ++ nanoid Sample.env
    /\ every (fun c => Js.is_word c || Ascii.eqb c "-") id = true.
Proof.
  assert (H : fst (create_blog 1 Sample.env Cases.publish Sample.store)
              = Sent 200 (BlogId "Hello-WorldabcdeFGHIJ0123456789_"))
    by (vm_compute; reflexivity).
  assert (Hid : Js.truthy_opt_str (create_id Cases.publish) = false)
    by reflexivity.
  assert (Hn : is_nanoid (nanoid Sample.env) = true)
    by (vm_compute; reflexivity).
  destruct (@create_blog_id_chars 1 Sample.env Cases.publish Sample.store
              _ H Hid Hn) as (H1 & _ & H3).
  exists "Hello-WorldabcdeFGHIJ0123456789_".
  split; [exact H | split; [exact H1 | exact H3]].
Defined.

(** User 2 likes the first post of the sample store. *)
Lemma like_blog_then_isliked_witness :
  fst (like_blog 2 (Sample.env_at 200) Sample.like_request Sample.store)
  = Sent 200 (LikedByUser true)
  /\ post_likes 10
       (snd (like_blog 2 (Sample.env_at 200) Sample.like_request
               Sample.store)) = Some 3%Z
  /\ like_notifications 2 10
       (snd (like_blog 2 (Sample.env_at 200) Sample.like_request
               Sample.store)) = 1%nat.
Proof.
  assert (Hb : post_by_id 10 Sample.store
               = Some (Sample.mk_post 10 "first-post" 1 false 7 2 3 1000))
    by reflexivity.
  destruct (@like_blog_then_isliked 2 (Sample.env_at 200) 10 Sample.store
              _ Hb) as (H1 & _ & H3 & _ & H5).
  split; [exact H1 | split; [exact H3 | exact H5]].
Defined.

(** A like and an unlike on an id no post of the sample store has. *)
Lemma like_blog_without_post_witness :
  like_blog 2 Sample.env {| like__id := 99; islikedByUser := false |}
    Sample.store
  = (Unhandled TypeError, Sample.store)
  /\ fst (like_blog 2 Sample.env {| like__id := 99; islikedByUser := true |}
            Sample.store)
     = Sent 200 (LikedByUser false).
Proof.
  assert (Hb : post_by_id 99 Sample.store = None) by reflexivity.
  destruct (@like_blog_without_post 2 Sample.env 99 Sample.store Hb)
    as (H1 & H2 & _).
  split; [exact H1 | exact H2].
Defined.

(** A toggle on the post nobody has liked. *)
Lemma like_toggle_keeps_likes_consistent_witness :
  likes_consistent (like_toggle 2 (Sample.env_at 200) 30 Cases.fresh)
  /\ single_likes (like_toggle 2 (Sample.env_at 200) 30 Cases.fresh).
Proof.
  assert (Hc : likes_consistent Cases.fresh).
  { intros _id b Hb. unfold post_by_id in Hb.
    cbn [Cases.fresh posts Db.findOne List.find] in Hb.
    destruct (Db.holds (Db.IdIs _id) (Sample.mk_post 30 "fresh" 1 false 0 0 0 3000));
      [| discriminate].
    injection Hb as <-. reflexivity. }
  assert (Hs : single_likes Cases.fresh).
  { intros u _id. unfold like_notifications. simpl. lia. }
  exact (@like_toggle_keeps_likes_consistent 2 (Sample.env_at 200) 30
           Cases.fresh Hc Hs).
Defined.

(** The editor opens the draft of the sample store. *)
Lemma get_blog_edit_mode_keeps_store_witness :
  snd (get_blog Sample.edit_draft Sample.store) = Sample.store.
Proof.
  assert (Hm : get_mode Sample.edit_draft = Some "edit") by reflexivity.
  exact (@get_blog_edit_mode_keeps_store Sample.edit_draft Sample.store Hm).
Defined.

(** A comment on the first post, whose counter of parent comments
    was 3. *)
Lemma add_comment_parent_comments_is_1_witness :
  post_parent_comments 10 Sample.store = Some 3%Z
  /\ post_parent_comments 10
       (snd (add_comment_handler 2 Sample.env Sample.comment_body
               Sample.store)) = Some 1%Z.
Proof.
  assert (Hc : Js.is_empty (add_comment Sample.comment_body) = false)
    by reflexivity.
  assert (Hb : post_by_id (add__id Sample.comment_body) Sample.store
               = Some (Sample.mk_post 10 "first-post" 1 false 7 2 3 1000))
    by reflexivity.
  split; [reflexivity |].
  exact (@add_comment_parent_comments_is_1 2 Sample.env Sample.comment_body
           Sample.store _ Hc Hb).
Defined.

(** A comment on an id no post of the sample store has. *)
Lemma add_comment_without_post_witness :
  posts (snd (add_comment_handler 2 Sample.env
                {| add__id := 99; add_comment := "Lost";
                   add_blog_author := 1 |} Sample.store))
  = posts Sample.store
  /\ List.length
       (comment_docs
          (snd (add_comment_handler 2 Sample.env
                  {| add__id := 99; add_comment := "Lost";
                     add_blog_author := 1 |} Sample.store))) = 1%nat.
Proof.
  assert (Hc : Js.is_empty "Lost" = false) by reflexivity.
  assert (Hb : post_by_id 99 Sample.store = None) by reflexivity.
  destruct (@add_comment_without_post 2 Sample.env
              {| add__id := 99; add_comment := "Lost";
                 add_blog_author := 1 |} Sample.store Hc Hb)
    as (_ & H2 & _ & H4 & _).
  split; [exact H2 | exact H4].
Defined.

(** A search for the users whose name starts with sh. *)
Lemma search_users_then_get_profile_witness :
  exists profile,
    get_profile "shik" Sample.store
    = (ProfileSent 200 (Some profile), Sample.store)
    /\ profile_username profile = "shik".
Proof.
  assert (H : exists d rest,
             fst (search_users Cases.starts_with "sh" Sample.store)
             = UsersSent 200 (d :: rest)
             /\ Db.doc_username d = Some "shik")
    by (vm_compute; eexists; eexists; split; reflexivity).
  destruct H as (d & rest & H & Hd).
  assert (Hin : In d (d :: rest)) by (left; reflexivity).
  destruct (@search_users_then_get_profile Cases.starts_with "sh"
              Sample.store (d :: rest) d H Hin)
    as (_ & _ & name & re & profile & Hn & _ & _ & Hg & Hp).
  rewrite Hd in Hn. injection Hn as <-.
  exists profile. split; [exact Hg | exact Hp].
Defined.

(** The editor with a banner, a title and one block. *)
Lemma handlePublishEvent_to_publish_form_witness :
  create_blog_checks
    {| create_title := "Hello"; create_des := EmptyString;
       create_banner := "b.jpeg"; create_tags := [];
       create_content := {| blocks := ["text"] |};
       create_draft := Some false; create_id := None |}
  = None
  \/ create_blog_checks
       {| create_title := "Hello"; create_des := EmptyString;
          create_banner := "b.jpeg"; create_tags := [];
          create_content := {| blocks := ["text"] |};
          create_draft := Some false; create_id := None |}
     = Some "You must provide blog description under 200 characters"
  \/ create_blog_checks
       {| create_title := "Hello"; create_des := EmptyString;
          create_banner := "b.jpeg"; create_tags := [];
          create_content := {| blocks := ["text"] |};
          create_draft := Some false; create_id := None |}
     = Some "Provide tags in order to publish the blog, Maximum is 10".
Proof.
  assert (H : handlePublishEvent "b.jpeg" "Hello" true
                (Some {| blocks := ["text"] |})
              = ToPublishForm {| blocks := ["text"] |}) by reflexivity.
  destruct (@handlePublishEvent_to_publish_form "b.jpeg" "Hello" true
              (Some {| blocks := ["text"] |}) {| blocks := ["text"] |} H)
    as (_ & _ & _ & _ & _ & Hc).
  exact (Hc EmptyString [] (Some false) None).
Defined.

(** A like request with and without the scheme word. *)
Lemma verifyJWT_bearer_witness :
  verifyJWT Cases.verify (Some "Bearer token-2")
    (fun id => like_blog id (Sample.env_at 200) Sample.like_request)
    Sample.store
  = like_blog 2 (Sample.env_at 200) Sample.like_request Sample.store
  /\ verifyJWT Cases.verify (Some "token-2")
       (fun id => like_blog id (Sample.env_at 200) Sample.like_request)
       Sample.store
     = (Sent 401 (Error "No access token"), Sample.store).
Proof.
  assert (H1 : every (fun c => negb (Ascii.eqb c " ")) "Bearer" = true)
    by reflexivity.
  assert (H2 : every (fun c => negb (Ascii.eqb c " ")) "token-2" = true)
    by reflexivity.
  assert (Hne : "token-2" <> EmptyString) by discriminate.
  destruct (@verifyJWT_bearer Cases.verify
              (fun id => like_blog id (Sample.env_at 200) Sample.like_request)
              "Bearer" "token-2" Sample.store H1 H2) as (Hb & Ht & _).
  split; [exact Hb | exact (Ht Hne)].
Defined.

(** The post of the store [Cases.grown]. *)
Lemma reachable_posts_well_formed_witness :
  Forall well_formed_post (posts Cases.grown).
Proof.
  exact (reachable_posts_well_formed grown_reachable).
Defined.

(** A search for the tag Tech in the store [Cases.grown], whose post has
    the tag tech. *)
Lemma reachable_tags_lower_case_witness :
  search_blogs Cases.starts_with Cases.search_Tech Cases.grown
  = (Sent 200 (Blogs []), Cases.grown).
Proof.
  destruct (reachable_tags_lower_case grown_reachable) as [_ H].
  assert (Ht : search_tag Cases.search_Tech = Some "Tech") by reflexivity.
  assert (Hl : Js.toLowerCase "Tech" <> "Tech")
    by (vm_compute; discriminate).
  assert (Hp : (1 <= search_page Cases.search_Tech)%Z) by (simpl; lia).
  exact (H Cases.search_Tech "Tech" Ht Hl Hp).
Defined.

(** The user of the store [Cases.grown]. *)
Lemma reachable_users_one_provider_witness :
  Forall one_provider (users Cases.grown).
Proof.
  exact (reachable_users_one_provider grown_reachable).
Defined.

(** The counters of the store [Cases.grown]. *)
Lemma reachable_counters_witness :
  Forall counted_post (posts Cases.grown)
  /\ Forall counted_user (users Cases.grown).
Proof.
  exact (reachable_counters grown_reachable).
Defined.

(** The like notification of the store [Cases.grown]. *)
Lemma reachable_likes_addressed_to_authors_witness :
  likes_addressed_to_authors Cases.grown.
Proof.
  exact (reachable_likes_addressed_to_authors grown_reachable).
Defined.
